(** * Quota-aware YouTube extraction pipeline

    A shallow embedding of the extraction core of the repository
    (youtube_client.py, video_extractor.py, channel_extractor.py, main.py
    and the extraction task of api.py), and the properties of the
    specification that concern it.

    Conventions.
    - Python integers are [Z]; Python strings are [string].
    - Values that come out of the remote API are JSON documents: [json].
      The dynamic checks Python performs on them ([.get] on a non-dict,
      [len] or iteration of a scalar) are part of the model and raise the
      exception Python raises.
    - Wall-clock time is counted in milliseconds ([1.0] second = 1000).
    - The remote service is a function of the call number and the request:
      any sequence of responses and failures is such a function.
    - The [while] loop takes fuel; [None] is the result of a run whose fuel
      ran out, and the theorems show that it never occurs for the fuel the
      driver computes. *)

From Stdlib Require Import ZArith List String Ascii Bool Lia.
From stdpp Require Import base gmap strings list sorting pretty.
Import ListNotations.
Set Warnings "-register-all".
Open Scope string_scope.
Open Scope list_scope.
Open Scope Z_scope.

(** ** Python values *)

Inductive json : Type :=
| JNull
| JBool (b : bool)
| JNum (n : Z)
| JStr (s : string)
| JArr (items : list json)
| JObj (fields : list (string * json)).

(** Exceptions the pipeline distinguishes. [OtherError] stands for every
    exception of the transport that is not an [HttpError]. *)
Inductive exn : Type :=
| QuotaExceededError
| HttpError (status : Z) (text : string)
| AttributeError
| TypeError
| OtherError.

Inductive result (A : Type) : Type :=
| Return (a : A)
| Raise (e : exn).
Arguments Return {A} a.
Arguments Raise {A} e.

(** [d.get(key, dflt)] on a dict. *)
Fixpoint dict_get (d : list (string * json)) (key : string) (dflt : json) : json :=
  match d with
  | [] => dflt
  | (k, v) :: rest => if String.eqb k key then v else dict_get rest key dflt
  end.

(** [v.get(key, dflt)] on an arbitrary value: only dicts have [get];
    [None] is the [AttributeError] of the others. *)
Definition py_get (v : json) (key : string) (dflt : json) : option json :=
  match v with
  | JObj d => Some (dict_get d key dflt)
  | _ => None
  end.

(** Truth value of a Python object. *)
Definition py_truthy (v : json) : bool :=
  match v with
  | JNull => false
  | JBool b => b
  | JNum n => negb (n =? 0)
  | JStr s => negb (String.eqb s "")
  | JArr l => match l with [] => false | _ => true end
  | JObj d => match d with [] => false | _ => true end
  end.

(** [len(v)]; [None] is the [TypeError] of a scalar. *)
Definition py_len (v : json) : option Z :=
  match v with
  | JStr s => Some (Z.of_nat (String.length s))
  | JArr l => Some (Z.of_nat (length l))
  | JObj d => Some (Z.of_nat (length d))
  | _ => None
  end.

(** The elements [for x in v] runs through; [None] is the [TypeError] of a
    scalar. *)
Definition py_iter (v : json) : option (list json) :=
  match v with
  | JArr l => Some l
  | JObj d => Some (map (fun kv => JStr (fst kv)) d)
  | JStr s => Some (map (fun c => JStr (String c "")) (list_ascii_of_string s))
  | _ => None
  end.

(** [l[:n]], also for negative [n]. *)
Definition py_slice_to {A : Type} (n : Z) (l : list A) : list A :=
  if 0 <=? n then take (Z.to_nat n) l
  else take (length l - Z.to_nat (- n))%nat l.

(** [l[i:j]] for non-negative bounds. *)
Definition py_slice {A : Type} (i j : nat) (l : list A) : list A :=
  take (j - i)%nat (drop i l).

(** [needle in hay] on strings. *)
Fixpoint contains (needle hay : string) : bool :=
  String.prefix needle hay ||
  match hay with
  | EmptyString => false
  | String _ rest => contains needle rest
  end.

(** [s.strip()]: white space removed at both ends. A [string] is read as
    the sequence of its code points below 256; these are the ones
    [str.isspace] accepts. *)
Definition is_space (c : ascii) : bool :=
  let n := nat_of_ascii c in
  ((9 <=? n) && (n <=? 13) || (28 <=? n) && (n <=? 32)
   || (n =? 133) || (n =? 160))%nat.

Fixpoint lstrip (s : string) : string :=
  match s with
  | EmptyString => EmptyString
  | String c rest => if is_space c then lstrip rest else s
  end.

Fixpoint rstrip (s : string) : string :=
  match s with
  | EmptyString => EmptyString
  | String c rest =>
      match rstrip rest with
      | EmptyString => if is_space c then EmptyString else String c EmptyString
      | r => String c r
      end
  end.

Definition strip (s : string) : string := rstrip (lstrip s).

(** [d[key] = value] on a dict, which keeps the order of insertion. *)
Fixpoint dict_set {V : Type} (d : list (string * V)) (key : string) (value : V)
  : list (string * V) :=
  match d with
  | [] => [(key, value)]
  | (k, v) :: rest =>
      if String.eqb k key then (k, value) :: rest
      else (k, v) :: dict_set rest key value
  end.

(** [list(d.keys())] *)
Definition dict_keys {V : Type} (d : list (string * V)) : list string :=
  map fst d.

(** ** json.dumps

    The text [json.dump] writes for a value, with the defaults of the
    library ([ensure_ascii], and the separators that go with [indent]). *)

Definition dquote : string := String (ascii_of_nat 34) EmptyString.

Definition hex_digit (n : nat) : ascii :=
  nth n (list_ascii_of_string "0123456789abcdef") "0"%char.

(** One character inside a string literal: the short escapes, the
    printable ASCII characters as they are, [\u00xx] for the rest. *)
Definition escape_char (c : ascii) : string :=
  let n := nat_of_ascii c in
  if (n =? 34)%nat then "\" +:+ dquote
  else if (n =? 92)%nat then "\\"
  else if (n =? 10)%nat then "\n"
  else if (n =? 13)%nat then "\r"
  else if (n =? 9)%nat then "\t"
  else if (n =? 8)%nat then "\b"
  else if (n =? 12)%nat then "\f"
  else if ((32 <=? n) && (n <=? 126))%nat then String c EmptyString
  else "\u00" +:+ String (hex_digit (n / 16)) (String (hex_digit (n mod 16)) EmptyString).

Fixpoint escape (s : string) : string :=
  match s with
  | EmptyString => EmptyString
  | String c rest => escape_char c +:+ escape rest
  end.

Definition json_string (s : string) : string := dquote +:+ escape s +:+ dquote.

Fixpoint spaces (n : nat) : string :=
  match n with
  | O => EmptyString
  | S m => String " " (spaces m)
  end.

(** The line break and the indentation before an item at depth [level];
    nothing without [indent]. *)
Definition newline_indent (indent : option nat) (level : nat) : string :=
  match indent with
  | None => EmptyString
  | Some k => String (ascii_of_nat 10) (spaces (k * level))
  end.

Definition item_separator (indent : option nat) : string :=
  match indent with
  | None => ", "
  | Some _ => ","
  end.

Fixpoint json_dumps_at (indent : option nat) (level : nat) (v : json) : string :=
  match v with
  | JNull => "null"
  | JBool true => "true"
  | JBool false => "false"
  | JNum n => pretty n
  | JStr s => json_string s
  | JArr [] => "[]"
  | JArr (x :: rest) =>
      "[" +:+ newline_indent indent (S level)
      +:+ json_dumps_at indent (S level) x
      +:+ (fix more (l : list json) : string :=
             match l with
             | [] => EmptyString
             | y :: l' =>
                 item_separator indent +:+ newline_indent indent (S level)
                 +:+ json_dumps_at indent (S level) y +:+ more l'
             end) rest
      +:+ newline_indent indent level +:+ "]"
  | JObj [] => "{}"
  | JObj ((k, x) :: rest) =>
      "{" +:+ newline_indent indent (S level)
      +:+ json_string k +:+ ": " +:+ json_dumps_at indent (S level) x
      +:+ (fix more (l : list (string * json)) : string :=
             match l with
             | [] => EmptyString
             | (k', y) :: l' =>
                 item_separator indent +:+ newline_indent indent (S level)
                 +:+ json_string k' +:+ ": "
                 +:+ json_dumps_at indent (S level) y +:+ more l'
             end) rest
      +:+ newline_indent indent level +:+ "}"
  end.

Definition json_dumps (indent : option nat) (v : json) : string :=
  json_dumps_at indent 0 v.

(** ** youtube_client.py: the quota ledger *)

Module QuotaManager.

Definition COSTS : gmap string Z :=
  <["search" := 100]> (<["videos" := 1]> (<["channels" := 1]> ∅)).

(** [COSTS.get(operation, 1)] *)
Definition cost (operation : string) : Z := default 1 (COSTS !! operation).
Arguments cost : simpl never.

Record t : Type := mk {
  daily_limit : Z;
  used_quota : Z;
  request_count : Z
}.

Definition init (daily_limit : Z) : t :=
  {| daily_limit := daily_limit; used_quota := 0; request_count := 0 |}.

Definition can_make_request (q : t) (operation : string) : bool :=
  used_quota q + cost operation <=? daily_limit q.

Definition record_request (q : t) (operation : string) : t :=
  {| daily_limit := daily_limit q;
     used_quota := used_quota q + cost operation;
     request_count := request_count q + 1 |}.

Definition get_remaining_quota (q : t) : Z := daily_limit q - used_quota q.

Definition reset_quota (q : t) : t :=
  {| daily_limit := daily_limit q; used_quota := 0; request_count := 0 |}.

End QuotaManager.

(** ** youtube_client.py: the remote call gateway *)

(** The three requests the client builds. *)
Inductive request : Type :=
| SearchList (q : string) (maxResults : Z) (pageToken : json) (order : string)
| VideosList (ids : list string)
| ChannelsList (ids : list string).

(** What [request.execute()] does: it returns the response, raises an
    [HttpError] with a status and a text ([str(e)]), or fails otherwise. *)
Inductive remote_outcome : Type :=
| RemoteOk (response : json)
| RemoteHttpError (status : Z) (text : string)
| RemoteFailure.

Inductive event : Type :=
| EvSleep (ms : Z)
| EvExecute (r : request).

Record World : Type := mkWorld {
  clock : Z;
  remote : nat -> request -> remote_outcome;
  n_calls : nat;
  trace : list event
}.

(** [time.sleep(ms)] *)
Definition sleep (ms : Z) (w : World) : World :=
  {| clock := clock w + ms; remote := remote w; n_calls := n_calls w;
     trace := trace w ++ [EvSleep ms] |}.

(** [request.execute()] *)
Definition execute (r : request) (w : World) : remote_outcome * World :=
  (remote w (n_calls w) r,
   {| clock := clock w; remote := remote w; n_calls := S (n_calls w);
      trace := trace w ++ [EvExecute r] |}).

Module YouTubeAPIClient.

Record t : Type := mk {
  quota_manager : QuotaManager.t;
  min_request_interval : Z;
  last_request_time : Z
}.

Definition init (daily_quota : Z) : t :=
  {| quota_manager := QuotaManager.init daily_quota;
     min_request_interval := 1000;
     last_request_time := 0 |}.

(** The client together with the world it acts on. *)
Record state : Type := mkState {
  client : t;
  world : World
}.

Definition set_quota_manager (q : QuotaManager.t) (st : state) : state :=
  {| client := {| quota_manager := q;
                  min_request_interval := min_request_interval (client st);
                  last_request_time := last_request_time (client st) |};
     world := world st |}.

Definition _wait_for_rate_limit (st : state) : state :=
  let current_time := clock (world st) in
  let time_since_last_request := current_time - last_request_time (client st) in
  let w :=
    if time_since_last_request <? min_request_interval (client st)
    then sleep (min_request_interval (client st) - time_since_last_request) (world st)
    else world st in
  {| client := {| quota_manager := quota_manager (client st);
                  min_request_interval := min_request_interval (client st);
                  last_request_time := clock w |};
     world := w |}.

(** The [try] block shared by the three calls: execute the request, charge
    the ledger after it returned, translate a quota rejection. *)
Definition perform (operation : string) (r : request) (st : state)
  : result json * state :=
  let '(out, w) := execute r (world st) in
  let st1 := {| client := client st; world := w |} in
  match out with
  | RemoteOk response =>
      (Return response,
       set_quota_manager
         (QuotaManager.record_request (quota_manager (client st1)) operation) st1)
  | RemoteHttpError status text =>
      if (status =? 403) && contains "quotaExceeded" text
      then (Raise QuotaExceededError, st1)
      else (Raise (HttpError status text), st1)
  | RemoteFailure => (Raise OtherError, st1)
  end.

(** The f-string of the log line after a search evaluates
    [len(response.get('items', []))]. *)
Definition search_log_line (response : json) : result Z :=
  match py_get response "items" (JArr []) with
  | Some items =>
      match py_len items with
      | Some n => Return n
      | None => Raise TypeError
      end
  | None => Raise AttributeError
  end.

Definition search_videos (query : string) (max_results : Z) (page_token : json)
    (order : string) (st : state) : result json * state :=
  if negb (QuotaManager.can_make_request (quota_manager (client st)) "search")
  then (Raise QuotaExceededError, st)
  else
    let st1 := _wait_for_rate_limit st in
    match perform "search"
            (SearchList query (Z.min max_results 50) page_token order) st1 with
    | (Return response, st2) =>
        match search_log_line response with
        | Return _ => (Return response, st2)
        | Raise e => (Raise e, st2)
        end
    | other => other
    end.

Definition get_video_details (video_ids : list string) (st : state)
  : result json * state :=
  match video_ids with
  | [] => (Return (JObj [("items", JArr [])]), st)
  | _ =>
      if negb (QuotaManager.can_make_request (quota_manager (client st)) "videos")
      then (Raise QuotaExceededError, st)
      else
        let st1 := _wait_for_rate_limit st in
        perform "videos" (VideosList (take 50 video_ids)) st1
  end.

Definition get_channel_details (channel_ids : list string) (st : state)
  : result json * state :=
  match channel_ids with
  | [] => (Return (JObj [("items", JArr [])]), st)
  | _ =>
      if negb (QuotaManager.can_make_request (quota_manager (client st)) "channels")
      then (Raise QuotaExceededError, st)
      else
        let st1 := _wait_for_rate_limit st in
        perform "channels" (ChannelsList (take 50 channel_ids)) st1
  end.

(** [get_quota_usage()] as a record of its four entries. *)
Record quota_usage : Type := mkUsage {
  used : Z;
  limit : Z;
  remaining : Z;
  requests : Z
}.

Definition get_quota_usage (st : state) : quota_usage :=
  {| used := QuotaManager.used_quota (quota_manager (client st));
     limit := QuotaManager.daily_limit (quota_manager (client st));
     remaining := QuotaManager.get_remaining_quota (quota_manager (client st));
     requests := QuotaManager.request_count (quota_manager (client st)) |}.

End YouTubeAPIClient.

(** ** video_extractor.py: the pagination driver *)

Module VideoDataExtractor.

Import YouTubeAPIClient.

(** The dict [extract_video_data] builds; its entries are whatever the
    response held. *)
Record video_record : Type := mkVideo {
  videoId : json;
  title : json;
  description : json;
  publishedAt : json;
  channelTitle : json;
  channelId : json
}.

(** [None] is the [AttributeError] of a [.get] on something that is not
    a dict: the item itself, or its snippet. *)
Definition extract_video_data (video_item : json) : option video_record :=
  match video_item with
  | JObj item =>
      let snippet := dict_get item "snippet" (JObj []) in
      let video_id := dict_get item "id" (JObj []) in
      let video_id :=
        match video_id with
        | JObj d => dict_get d "videoId" (JStr "")
        | other => other
        end in
      match snippet with
      | JObj sn =>
          Some {| videoId := video_id;
                  title := dict_get sn "title" (JStr "");
                  description := dict_get sn "description" (JStr "");
                  publishedAt := dict_get sn "publishedAt" (JStr "");
                  channelTitle := dict_get sn "channelTitle" (JStr "");
                  channelId := dict_get sn "channelId" (JStr "") |}
      | _ => None
      end
  | _ => None
  end.

(** [for item in items]: the list [videos] grows in place, so what was
    appended before an exception stays appended. *)
Fixpoint collect_items (items : list json) (videos : list video_record)
  : list video_record * option exn :=
  match items with
  | [] => (videos, None)
  | item :: rest =>
      match extract_video_data item with
      | Some vd =>
          collect_items rest
            (if py_truthy (videoId vd) then videos ++ [vd] else videos)
      | None => (videos, Some AttributeError)
      end
  end.

(** How the [while] loop was left: by [break] or a false condition, or by
    an exception. Both carry the list [videos] of that moment. *)
Inductive loop_exit : Type :=
| Stopped (videos : list video_record)
| Failed (videos : list video_record) (e : exn).

Definition videos_per_page : Z := 50.

(** One round of the [while] loop, entered with its condition true:
    either the loop is left, or the next round starts with a longer
    list, the token of the next page, and one more page charged. *)
Definition loop_body (query : string) (max_videos : Z) (order : string)
    (videos : list video_record) (page_token : json) (st : state)
  : (loop_exit * state) + (list video_record * json * state) :=
  let remaining := max_videos - Z.of_nat (length videos) in
  let results_to_request := Z.min videos_per_page remaining in
  if negb (QuotaManager.can_make_request (quota_manager (client st)) "search")
  then inl (Stopped videos, st)
  else
    match YouTubeAPIClient.search_videos
            query results_to_request page_token order st with
    | (Raise QuotaExceededError, st1) => inl (Stopped videos, st1)
    | (Raise e, st1) => inl (Failed videos e, st1)
    | (Return response, st1) =>
        match py_get response "items" (JArr []) with
        | None => inl (Failed videos AttributeError, st1)
        | Some items =>
            if negb (py_truthy items) then inl (Stopped videos, st1)
            else
              match py_iter items with
              | None => inl (Failed videos TypeError, st1)
              | Some its =>
                  match collect_items its videos with
                  | (videos1, Some e) => inl (Failed videos1 e, st1)
                  | (videos1, None) =>
                      match py_get response "nextPageToken" JNull with
                      | None => inl (Failed videos1 AttributeError, st1)
                      | Some page_token1 =>
                          if negb (py_truthy page_token1)
                          then inl (Stopped videos1, st1)
                          else
                            inr (videos1, page_token1,
                                 {| client := client st1;
                                    world := sleep 500 (world st1) |})
                      end
                  end
              end
        end
    end.

(** [while len(videos) < max_videos: ...] *)
Fixpoint search_loop (fuel : nat) (query : string) (max_videos : Z)
    (order : string) (videos : list video_record) (page_token : json)
    (st : state) {struct fuel} : option (loop_exit * state) :=
  if negb (Z.of_nat (length videos) <? max_videos) then Some (Stopped videos, st)
  else
    match fuel with
    | O => None
    | S fuel' =>
        match loop_body query max_videos order videos page_token st with
        | inl out => Some out
        | inr (videos1, page_token1, st1) =>
            search_loop fuel' query max_videos order videos1 page_token1 st1
        end
    end.

(** The body of [search_videos] entered with the loop variables
    [videos] and [page_token]: the loop, then [videos[:max_videos]], or
    the handler of [except Exception], which returns [videos]. *)
Definition search_videos_from (fuel : nat) (query : string) (max_videos : Z)
    (order : string) (videos : list video_record) (page_token : json)
    (st : state) : option (result (list video_record) * state) :=
  match search_loop fuel query max_videos order videos page_token st with
  | Some (Stopped videos1, st1) => Some (Return (py_slice_to max_videos videos1), st1)
  | Some (Failed videos1 _, st1) => Some (Return videos1, st1)
  | None => None
  end.

(** A page is requested only when the ledger affords a search, and each
    page that lets the loop go on has been charged: this many rounds are
    enough. *)
Definition search_fuel (st : state) : nat :=
  S (Z.to_nat
       ((QuotaManager.daily_limit (quota_manager (client st))
         - QuotaManager.used_quota (quota_manager (client st)))
        / QuotaManager.cost "search")).

Definition search_videos (query : string) (max_videos : Z) (order : string)
    (st : state) : option (result (list video_record) * state) :=
  search_videos_from (search_fuel st) query max_videos order [] JNull st.

(** [for i, query in enumerate(queries, 1)] of [search_multiple_queries];
    [i < len(queries)] holds as long as a query is left after this one.
    The function has no handler: an exception of [search_videos] would
    leave it. *)
Fixpoint multiple_queries_loop (videos_per_query : Z) (queries : list string)
    (results : list (string * list video_record)) (st : state)
  : option (result (list (string * list video_record)) * state) :=
  match queries with
  | [] => Some (Return results, st)
  | query :: rest =>
      let quota_info := get_quota_usage st in
      let estimated_cost := (videos_per_query / 50 + 1) * 100 in
      if remaining quota_info <? estimated_cost then Some (Return results, st)
      else
        match search_videos query videos_per_query "date" st with
        | None => None
        | Some (Raise e, st1) => Some (Raise e, st1)
        | Some (Return videos, st1) =>
            let results1 := dict_set results query videos in
            let st2 :=
              match rest with
              | [] => st1
              | _ => {| client := client st1; world := sleep 2000 (world st1) |}
              end in
            multiple_queries_loop videos_per_query rest results1 st2
        end
  end.

Definition search_multiple_queries (queries : list string)
    (videos_per_query : Z) (st : state)
  : option (result (list (string * list video_record)) * state) :=
  multiple_queries_loop videos_per_query queries [] st.

End VideoDataExtractor.

(** ** channel_extractor.py: the channel aggregation pass *)

Module ChannelDataExtractor.

Import YouTubeAPIClient.
Import VideoDataExtractor.

Record channel_record : Type := mkChannel {
  c_channelId : json;
  c_title : json;
  c_description : json;
  c_publishedAt : json;
  c_country : json;
  c_customUrl : json;
  c_viewCount : json;
  c_subscriberCount : json;
  c_videoCount : json;
  c_hiddenSubscriberCount : string;
  c_channelUrl : string
}.

(** [sorted(list(ids))]: strings compare by code points. *)
Definition sorted_list (ids : gset string) : list string :=
  merge_sort (fun a b => String.leb a b) (elements ids).

(** The loop that fills the set of channel ids; [None] is the
    [AttributeError] of [.strip()] on a [channelId] that is not a
    string. *)
Fixpoint add_channel_ids (videos : list video_record) (channel_ids : gset string)
  : option (gset string) :=
  match videos with
  | [] => Some channel_ids
  | video :: rest =>
      match channelId video with
      | JStr s =>
          let channel_id := strip s in
          add_channel_ids rest
            (if negb (String.eqb channel_id "")
             then {[channel_id]} ∪ channel_ids else channel_ids)
      | _ => None
      end
  end.

Definition extract_unique_channel_ids (videos : list video_record)
  : result (list string) :=
  match add_channel_ids videos ∅ with
  | Some channel_ids => Return (sorted_list channel_ids)
  | None => Raise AttributeError
  end.

(** [range(0, n, batch_size)] *)
Definition batch_starts (n batch_size : nat) : list nat :=
  map (fun k => (k * batch_size)%nat) (seq 0 ((n + batch_size - 1) / batch_size)).

Section WithStr.

(** Python's [str()] and string formatting of a value. *)
Variable py_str : json -> string.

Definition extract_channel_data (channel_item : json) : option channel_record :=
  match channel_item with
  | JObj item =>
      match dict_get item "snippet" (JObj []),
            dict_get item "statistics" (JObj []),
            dict_get item "brandingSettings" (JObj []) with
      | JObj snippet, JObj statistics, JObj _ =>
          let channel_id := dict_get item "id" (JStr "") in
          let channel_url :=
            if py_truthy channel_id
            then "https://www.youtube.com/channel/" +:+ py_str channel_id
            else "" in
          Some {| c_channelId := channel_id;
                  c_title := dict_get snippet "title" (JStr "");
                  c_description := dict_get snippet "description" (JStr "");
                  c_publishedAt := dict_get snippet "publishedAt" (JStr "");
                  c_country := dict_get snippet "country" (JStr "");
                  c_customUrl := dict_get snippet "customUrl" (JStr "");
                  c_viewCount := dict_get statistics "viewCount" (JStr "0");
                  c_subscriberCount :=
                    dict_get statistics "subscriberCount" (JStr "0");
                  c_videoCount := dict_get statistics "videoCount" (JStr "0");
                  c_hiddenSubscriberCount :=
                    py_str (dict_get statistics "hiddenSubscriberCount"
                              (JBool false));
                  c_channelUrl := channel_url |}
      | _, _, _ => None
      end
  | _ => None
  end.

(** [for item in items: channels.append(...)]; the flag tells whether an
    item raised. *)
Fixpoint append_channels (items : list json) (channels : list channel_record)
  : list channel_record * bool :=
  match items with
  | [] => (channels, false)
  | item :: rest =>
      match extract_channel_data item with
      | Some channel => append_channels rest (channels ++ [channel])
      | None => (channels, true)
      end
  end.

(** The loop over the batches, [i] running through [starts]. *)
Fixpoint batch_loop (starts : list nat) (channel_ids : list string)
    (channels : list channel_record) (st : state)
  : list channel_record * state :=
  match starts with
  | [] => (channels, st)
  | i :: rest =>
      let batch := py_slice i (i + 50) channel_ids in
      if negb (QuotaManager.can_make_request (quota_manager (client st)) "channels")
      then (channels, st)
      else
        match YouTubeAPIClient.get_channel_details batch st with
        | (Raise QuotaExceededError, st1) => (channels, st1)
        | (Raise _, st1) => batch_loop rest channel_ids channels st1
        | (Return response, st1) =>
            match py_get response "items" (JArr []) with
            | None => batch_loop rest channel_ids channels st1
            | Some items =>
                match py_iter items with
                | None => batch_loop rest channel_ids channels st1
                | Some its =>
                    match append_channels its channels with
                    | (channels1, true) =>
                        batch_loop rest channel_ids channels1 st1
                    | (channels1, false) =>
                        let st2 :=
                          if (i + 50 <? length channel_ids)%nat
                          then {| client := client st1;
                                  world := sleep 500 (world st1) |}
                          else st1 in
                        batch_loop rest channel_ids channels1 st2
                    end
                end
            end
        end
  end.

Definition get_channel_details (channel_ids : list string) (st : state)
  : list channel_record * state :=
  match channel_ids with
  | [] => ([], st)
  | _ => batch_loop (batch_starts (length channel_ids) 50) channel_ids [] st
  end.

Definition get_channels_for_videos (videos : list video_record) (st : state)
  : result (list channel_record) * state :=
  match extract_unique_channel_ids videos with
  | Raise e => (Raise e, st)
  | Return [] => (Return [], st)
  | Return channel_ids =>
      let '(channels, st1) := get_channel_details channel_ids st in
      (Return channels, st1)
  end.

(** [query_video_data.items()] is the list of the dict's entries. *)
Fixpoint add_all_channel_ids (entries : list (string * list video_record))
    (all_channel_ids : gset string) : option (gset string) :=
  match entries with
  | [] => Some all_channel_ids
  | (_, videos) :: rest =>
      match add_channel_ids videos all_channel_ids with
      | Some ids => add_all_channel_ids rest ids
      | None => None
      end
  end.

Definition get_channels_for_multiple_queries
    (query_video_data : list (string * list video_record)) (st : state)
  : result (list channel_record) * state :=
  match add_all_channel_ids query_video_data ∅ with
  | None => (Raise AttributeError, st)
  | Some all_channel_ids =>
      let unique_channel_ids := sorted_list all_channel_ids in
      let '(channels, st1) := get_channel_details unique_channel_ids st in
      (Return channels, st1)
  end.

End WithStr.

End ChannelDataExtractor.

(** ** Files *)

(** A file system maps a path to the content of the file there. Writing
    goes through the steps the operating system sees: [open(path, 'w')]
    creates the file or cuts it to length zero, and the text then arrives
    one character after the other. *)
Inductive fs_step : Type :=
| Truncate (path : string)
| Append (path : string) (c : ascii).

Definition apply_step (files : gmap string string) (s : fs_step)
  : gmap string string :=
  match s with
  | Truncate path => <[path := ""]> files
  | Append path c =>
      <[path := default "" (files !! path) +:+ String c ""]> files
  end.

Definition run_steps (steps : list fs_step) (files : gmap string string)
  : gmap string string :=
  fold_left apply_step steps files.

(** [with open(path, 'w') as f: f.write(text)] *)
Definition write_steps (path text : string) : list fs_step :=
  Truncate path :: map (Append path) (list_ascii_of_string text).

Definition write_file (path text : string) (files : gmap string string)
  : gmap string string :=
  run_steps (write_steps path text) files.

(** The file systems a process killed while it runs [steps] can leave
    behind: one for each number of steps that took effect. *)
Definition crash_states (steps : list fs_step) (files : gmap string string)
  : list (gmap string string) :=
  map (fun k => run_steps (take k steps) files) (seq 0 (S (length steps))).

(** ** main.py: checkpoints *)

Module ProgressTracker.

Import VideoDataExtractor.

(** The progress dict. *)
Record progress_t : Type := mkProgress {
  completed_queries : list string;
  video_data : list (string * list video_record);
  last_updated : option string
}.

Definition empty_progress : progress_t :=
  {| completed_queries := []; video_data := []; last_updated := None |}.

Record t : Type := mk {
  progress_file : string;
  progress : progress_t
}.

Definition video_to_json (v : video_record) : json :=
  JObj [("videoId", videoId v); ("title", title v);
        ("description", description v); ("publishedAt", publishedAt v);
        ("channelTitle", channelTitle v); ("channelId", channelId v)].

Definition progress_to_json (p : progress_t) : json :=
  JObj [("completed_queries", JArr (map JStr (completed_queries p)));
        ("video_data",
         JObj (map (fun e => (fst e, JArr (map video_to_json (snd e))))
                 (video_data p)));
        ("last_updated",
         match last_updated p with Some ts => JStr ts | None => JNull end)].

Section WithJson.

(** [json.load] ([None] when it raises) and the rendering of the clock
    by [datetime.isoformat] belong to the Python library. *)
Variable json_load : string -> option progress_t.
Variable isoformat : Z -> string.

Definition _load_progress (path : string) (files : gmap string string)
  : progress_t :=
  match files !! path with
  | Some text =>
      match json_load text with
      | Some p => p
      | None => empty_progress
      end
  | None => empty_progress
  end.

Definition init (path : string) (files : gmap string string) : t :=
  {| progress_file := path; progress := _load_progress path files |}.

Definition new_progress (completed : list string)
    (data : list (string * list video_record)) (now : Z) : progress_t :=
  {| completed_queries := completed; video_data := data;
     last_updated := Some (isoformat now) |}.

(** The steps of the [with open(...)] block of [save_progress]. *)
Definition save_steps (tr : t) (completed : list string)
    (data : list (string * list video_record)) (now : Z) : list fs_step :=
  write_steps (progress_file tr)
    (json_dumps (Some 2%nat)
       (progress_to_json (new_progress completed data now))).

Definition save_progress (tr : t) (completed : list string)
    (data : list (string * list video_record)) (now : Z)
    (files : gmap string string) : t * gmap string string :=
  ({| progress_file := progress_file tr;
      progress := new_progress completed data now |},
   run_steps (save_steps tr completed data now) files).

End WithJson.

Definition get_remaining_queries (tr : t) (all_queries : list string)
  : list string :=
  let completed : gset string := list_to_set (completed_queries (progress tr)) in
  filter (fun q => q ∉ completed) all_queries.

Definition get_completed_data (tr : t) : list (string * list video_record) :=
  video_data (progress tr).

End ProgressTracker.

(** ** main.py: the campaign *)

Module Main.

Import YouTubeAPIClient.
Import VideoDataExtractor.
Import ChannelDataExtractor.

Definition SEARCH_PHRASES : list string :=
  [ "Beethoven Symphony"; "Handel Messiah"; "Mozart Requiem";
    "Mozart Coronation Mass"; "Bach St Matthew Passion";
    "Bach St John Passion"; "Brahms A German Requiem"; "Haydn The Creation";
    "Haydn The Seasons"; "Faure Requiem"; "Faure Cantique de Jean Racine";
    "Vivaldi Gloria"; "Bach Magnificat"; "Mendelssohn Elijah";
    "Schubert Mass"; "Beethoven Missa Solemnis"; "Mozart Ave Verum" ].

Definition VIDEOS_PER_QUERY : Z := 2000.
Definition PROGRESS_FILE : string := "extraction_progress.json".

(** The variables of [main] while the queries are processed;
    [attempted] lists the queries [search_videos] was called for. *)
Record campaign : Type := mkCampaign {
  attempted : list string;
  all_video_data : list (string * list video_record);
  progress_tracker : ProgressTracker.t;
  files : gmap string string;
  api : state
}.

(** How [main] ended: it returned, with the channels it collected, or an
    exception escaped the video phase. *)
Inductive ending : Type :=
| Finished (channel_data : list channel_record)
| Escaped (e : exn).

Section WithLibrary.

Variable py_str : json -> string.
Variable json_load : string -> option ProgressTracker.progress_t.
Variable isoformat : Z -> string.

Definition save (c : campaign) : campaign :=
  let completed_queries := dict_keys (all_video_data c) in
  let '(tr, fs) :=
    ProgressTracker.save_progress isoformat (progress_tracker c)
      completed_queries (all_video_data c) (clock (world (api c))) (files c) in
  {| attempted := attempted c; all_video_data := all_video_data c;
     progress_tracker := tr; files := fs; api := api c |}.

(** [for i, query in enumerate(remaining_queries, 1)]. The second
    component is the exception of the [except Exception] handler, which
    saves the progress and raises again. *)
Fixpoint query_loop (videos_per_query : Z) (queries : list string)
    (c : campaign) : option (campaign * option exn) :=
  match queries with
  | [] => Some (c, None)
  | query :: rest =>
      let quota_info := get_quota_usage (api c) in
      if remaining quota_info <? 4000 then Some (c, None)
      else
        match VideoDataExtractor.search_videos
                query videos_per_query "date" (api c) with
        | None => None
        | Some (Return videos, st1) =>
            let c1 :=
              {| attempted := attempted c ++ [query];
                 all_video_data := dict_set (all_video_data c) query videos;
                 progress_tracker := progress_tracker c;
                 files := files c; api := st1 |} in
            query_loop videos_per_query rest (save c1)
        | Some (Raise e, st1) =>
            let c1 :=
              {| attempted := attempted c ++ [query];
                 all_video_data := all_video_data c;
                 progress_tracker := progress_tracker c;
                 files := files c; api := st1 |} in
            Some (save c1, Some e)
        end
  end.

(** [main] for a list of phrases and a target per query; the export of
    the tables, which follows the channel phase, is not part of the
    model. *)
Definition main_with (phrases : list string) (videos_per_query : Z)
    (files0 : gmap string string) (st0 : state)
  : option (campaign * ending) :=
  let tracker := ProgressTracker.init json_load PROGRESS_FILE files0 in
  let completed_data := ProgressTracker.get_completed_data tracker in
  let remaining_queries :=
    ProgressTracker.get_remaining_queries tracker phrases in
  let c0 :=
    {| attempted := []; all_video_data := completed_data;
       progress_tracker := tracker; files := files0; api := st0 |} in
  match query_loop videos_per_query remaining_queries c0 with
  | None => None
  | Some (c1, Some e) => Some (c1, Escaped e)
  | Some (c1, None) =>
      let '(channels, st2) :=
        match get_channels_for_multiple_queries py_str
                (all_video_data c1) (api c1) with
        | (Return channel_data, st2) => (channel_data, st2)
        | (Raise _, st2) => ([], st2)
        end in
      let fs :=
        if (length (all_video_data c1) =? length phrases)%nat
        then delete PROGRESS_FILE (files c1) else files c1 in
      Some ({| attempted := attempted c1;
               all_video_data := all_video_data c1;
               progress_tracker := progress_tracker c1;
               files := fs; api := st2 |},
            Finished channels)
  end.

Definition main (files0 : gmap string string) (st0 : state)
  : option (campaign * ending) :=
  main_with SEARCH_PHRASES VIDEOS_PER_QUERY files0 st0.

End WithLibrary.

End Main.

(** ** api.py: the extraction task *)

Module Api.

Import YouTubeAPIClient.
Import VideoDataExtractor.
Import ChannelDataExtractor.

(** The list of [main.py] again. *)
Definition SEARCH_PHRASES : list string := Main.SEARCH_PHRASES.

Record ExtractionConfig : Type := mkConfig {
  queries : option (list string);
  videos_per_query : Z;
  daily_quota : Z
}.

(** The entries of the list [extraction_status["errors"]], by the
    message each stands for. *)
Inductive status_error : Type :=
| InsufficientQuotaRemaining
| QuotaExceededDuringVideos
| ErrorWithQuery (query : string) (e : exn)
| QuotaExceededDuringChannels
| ChannelCollectionError (e : exn).

(** The entries of [extraction_status] the task writes, but for the
    progress display. *)
Record status : Type := mkStatus {
  is_running : bool;
  completed_queries : list string;
  videos_collected : Z;
  channels_collected : Z;
  quota_used : Z;
  quota_exceeded : bool;
  errors : list status_error
}.

Record task : Type := mkTask {
  attempted : list string;
  all_video_data : list (string * list video_record);
  extraction_status : status;
  files : gmap string string;
  api : state
}.

Definition set_status (f : status -> status) (t : task) : task :=
  {| attempted := attempted t; all_video_data := all_video_data t;
     extraction_status := f (extraction_status t);
     files := files t; api := api t |}.

Definition add_error (e : status_error) (s : status) : status :=
  {| is_running := is_running s; completed_queries := completed_queries s;
     videos_collected := videos_collected s;
     channels_collected := channels_collected s;
     quota_used := quota_used s; quota_exceeded := quota_exceeded s;
     errors := errors s ++ [e] |}.

Definition quota_stop (e : status_error) (s : status) : status :=
  {| is_running := false; completed_queries := completed_queries s;
     videos_collected := videos_collected s;
     channels_collected := channels_collected s;
     quota_used := quota_used s; quota_exceeded := true;
     errors := errors s ++ [e] |}.

(** [sum(len(v) for v in all_video_data.values())] *)
Definition count_videos (d : list (string * list video_record)) : Z :=
  fold_right (fun e n => Z.of_nat (length (snd e)) + n) 0 d.

Section WithLibrary.

Variable py_str : json -> string.
Variable json_load : string -> option ProgressTracker.progress_t.
Variable isoformat : Z -> string.

Definition load_progress (files : gmap string string)
  : ProgressTracker.progress_t :=
  ProgressTracker._load_progress json_load "extraction_progress.json" files.

(** The [try] block of one query after [search_videos] returned. *)
Definition record_query (query : string) (videos : list video_record)
    (st1 : state) (t : task) : task :=
  let data := dict_set (all_video_data t) query videos in
  let s := extraction_status t in
  {| attempted := attempted t ++ [query];
     all_video_data := data;
     extraction_status :=
       {| is_running := is_running s;
          completed_queries := dict_keys data;
          videos_collected := count_videos data;
          channels_collected := channels_collected s;
          quota_used := quota_used s; quota_exceeded := quota_exceeded s;
          errors := errors s |};
     files :=
       write_file "extraction_progress.json"
         (json_dumps None
            (ProgressTracker.progress_to_json
               (ProgressTracker.new_progress isoformat (dict_keys data) data
                  (clock (world st1)))))
         (files t);
     api := st1 |}.

(** [for i, query in enumerate(remaining_queries)] *)
Fixpoint query_loop (videos_per_query : Z) (remaining_queries : list string)
    (t : task) : option task :=
  match remaining_queries with
  | [] => Some t
  | query :: rest =>
      let quota_info := get_quota_usage (api t) in
      let t :=
        set_status (fun s =>
          {| is_running := is_running s;
             completed_queries := completed_queries s;
             videos_collected := videos_collected s;
             channels_collected := channels_collected s;
             quota_used := used quota_info;
             quota_exceeded := quota_exceeded s;
             errors := errors s |}) t in
      if remaining quota_info <? 4000
      then Some (set_status (add_error InsufficientQuotaRemaining) t)
      else
        match VideoDataExtractor.search_videos
                query videos_per_query "date" (api t) with
        | None => None
        | Some (Return videos, st1) =>
            query_loop videos_per_query rest (record_query query videos st1 t)
        | Some (Raise QuotaExceededError, st1) =>
            Some (set_status (quota_stop QuotaExceededDuringVideos)
                    {| attempted := attempted t ++ [query];
                       all_video_data := all_video_data t;
                       extraction_status := extraction_status t;
                       files := files t; api := st1 |})
        | Some (Raise e, st1) =>
            query_loop videos_per_query rest
              (set_status (add_error (ErrorWithQuery query e))
                 {| attempted := attempted t ++ [query];
                    all_video_data := all_video_data t;
                    extraction_status := extraction_status t;
                    files := files t; api := st1 |})
        end
  end.

(** The channel phase; the export that follows it is not part of the
    model. *)
Definition channel_phase (t : task) : task :=
  match all_video_data t, quota_exceeded (extraction_status t) with
  | _ :: _, false =>
      match get_channels_for_multiple_queries py_str
              (all_video_data t) (api t) with
      | (Return channel_data, st1) =>
          let s := extraction_status t in
          {| attempted := attempted t; all_video_data := all_video_data t;
             extraction_status :=
               {| is_running := is_running s;
                  completed_queries := completed_queries s;
                  videos_collected := videos_collected s;
                  channels_collected := Z.of_nat (length channel_data);
                  quota_used := quota_used s;
                  quota_exceeded := quota_exceeded s;
                  errors := errors s |};
             files := files t; api := st1 |}
      | (Raise QuotaExceededError, st1) =>
          set_status (quota_stop QuotaExceededDuringChannels)
            {| attempted := attempted t; all_video_data := all_video_data t;
               extraction_status := extraction_status t;
               files := files t; api := st1 |}
      | (Raise e, st1) =>
          set_status (add_error (ChannelCollectionError e))
            {| attempted := attempted t; all_video_data := all_video_data t;
               extraction_status := extraction_status t;
               files := files t; api := st1 |}
      end
  | _, _ => t
  end.

Definition run_extraction_task (config : ExtractionConfig)
    (s0 : status) (files0 : gmap string string) (w0 : World) : option task :=
  let queries_ :=
    match queries config with
    | Some (q :: qs) => q :: qs
    | _ => SEARCH_PHRASES
    end in
  let s1 :=
    {| is_running := true; completed_queries := completed_queries s0;
       videos_collected := videos_collected s0;
       channels_collected := channels_collected s0;
       quota_used := quota_used s0; quota_exceeded := quota_exceeded s0;
       errors := [] |} in
  let api_client := YouTubeAPIClient.init (daily_quota config) in
  let progress := load_progress files0 in
  let completed : gset string :=
    list_to_set (ProgressTracker.completed_queries progress) in
  let t0 :=
    {| attempted := []; all_video_data := ProgressTracker.video_data progress;
       extraction_status := s1; files := files0;
       api := {| client := api_client; world := w0 |} |} in
  let remaining_queries := filter (fun q => q ∉ completed) queries_ in
  match query_loop (videos_per_query config) remaining_queries t0 with
  | None => None
  | Some t1 =>
      let t2 := channel_phase t1 in
      Some (set_status (fun s =>
              {| is_running := false;
                 completed_queries := completed_queries s;
                 videos_collected := videos_collected s;
                 channels_collected := channels_collected s;
                 quota_used := quota_used s;
                 quota_exceeded := quota_exceeded s;
                 errors := errors s |}) t2)
  end.

End WithLibrary.

(** [stop_extraction]: the request is refused ([None], the HTTP error 400)
    when no extraction is running; otherwise the status is told so. *)
Definition stop_extraction (s : status) : option status :=
  if negb (is_running s) then None
  else Some {| is_running := false; completed_queries := completed_queries s;
               videos_collected := videos_collected s;
               channels_collected := channels_collected s;
               quota_used := quota_used s; quota_exceeded := quota_exceeded s;
               errors := errors s |}.

End Api.

(** * Vocabulary of the properties *)

(** The ledger after the charges [ops], made in this order. *)
Definition charged (q : QuotaManager.t) (ops : list string) : QuotaManager.t :=
  fold_left QuotaManager.record_request ops q.

Definition total_cost (ops : list string) : Z :=
  fold_right (fun op n => QuotaManager.cost op + n) 0 ops.

(** The calls of the gateway, with their arguments. *)
Inductive gateway_call : Type :=
| SearchPage (query : string) (max_results : Z) (page_token : json) (order : string)
| FetchVideoDetails (video_ids : list string)
| FetchChannelDetails (channel_ids : list string).

Definition run_call (call : gateway_call) (st : YouTubeAPIClient.state)
  : result json * YouTubeAPIClient.state :=
  match call with
  | SearchPage query max_results page_token order =>
      YouTubeAPIClient.search_videos query max_results page_token order st
  | FetchVideoDetails ids => YouTubeAPIClient.get_video_details ids st
  | FetchChannelDetails ids => YouTubeAPIClient.get_channel_details ids st
  end.

Definition operation_of (call : gateway_call) : string :=
  match call with
  | SearchPage _ _ _ _ => "search"
  | FetchVideoDetails _ => "videos"
  | FetchChannelDetails _ => "channels"
  end.

(** The request a call sends to the remote service. *)
Definition request_of (call : gateway_call) : request :=
  match call with
  | SearchPage query max_results page_token order =>
      SearchList query (Z.min max_results 50) page_token order
  | FetchVideoDetails ids => VideosList (take 50 ids)
  | FetchChannelDetails ids => ChannelsList (take 50 ids)
  end.

(** Whether a call reaches the remote service: it has something to ask
    for, and the ledger affords it. *)
Definition reaches_remote (call : gateway_call) (st : YouTubeAPIClient.state)
  : bool :=
  match call with
  | SearchPage _ _ _ _ => true
  | FetchVideoDetails ids | FetchChannelDetails ids =>
      match ids with [] => false | _ => true end
  end
  && QuotaManager.can_make_request
       (YouTubeAPIClient.quota_manager (YouTubeAPIClient.client st))
       (operation_of call).

(** What the remote service answers to the next request. *)
Definition next_answer (st : YouTubeAPIClient.state) (r : request)
  : remote_outcome :=
  remote (YouTubeAPIClient.world st) (n_calls (YouTubeAPIClient.world st)) r.

Definition ledger (st : YouTubeAPIClient.state) : QuotaManager.t :=
  YouTubeAPIClient.quota_manager (YouTubeAPIClient.client st).

(** A record the driver may keep: its [videoId] counts as true. *)
Definition has_video_id (v : VideoDataExtractor.video_record) : Prop :=
  py_truthy (VideoDataExtractor.videoId v) = true.

Definition exit_videos (e : VideoDataExtractor.loop_exit)
  : list VideoDataExtractor.video_record :=
  match e with
  | VideoDataExtractor.Stopped videos => videos
  | VideoDataExtractor.Failed videos _ => videos
  end.

(** The items of a page, as the loop of the driver runs through them. *)
Definition page_items (response : json) : list json :=
  match py_get response "items" (JArr []) with
  | Some items => default [] (py_iter items)
  | None => []
  end.

(** A remote service whose pages hold search results only: every item is
    an object, and so is its snippet. *)
Definition sends_results_only (answers : nat -> request -> remote_outcome) : Prop :=
  forall n r response,
    answers n r = RemoteOk response ->
    Forall (fun item => is_Some (VideoDataExtractor.extract_video_data item))
      (page_items response).

(** The number of searches the ledger still affords. *)
Definition affordable_searches (st : YouTubeAPIClient.state) : nat :=
  Z.to_nat ((QuotaManager.daily_limit (ledger st)
             - QuotaManager.used_quota (ledger st)) / 100).

(** A session that starts with a fresh client, against the remote service
    [answers]. *)
Definition fresh_state (daily_quota : Z)
    (answers : nat -> request -> remote_outcome) : YouTubeAPIClient.state :=
  {| YouTubeAPIClient.client := YouTubeAPIClient.init daily_quota;
     YouTubeAPIClient.world :=
       {| clock := 1700000000000; remote := answers; n_calls := 0; trace := [] |} |}.

(** A search result as the service sends it. *)
Definition raw_video (video_id channel_id : string) : json :=
  JObj [("kind", JStr "youtube#searchResult");
        ("id", JObj [("kind", JStr "youtube#video"); ("videoId", JStr video_id)]);
        ("snippet", JObj [("title", JStr "Recital"); ("channelId", JStr channel_id)])].

Definition raw_channel (channel_id : string) : json :=
  JObj [("kind", JStr "youtube#channel"); ("id", JStr channel_id);
        ("snippet", JObj [("title", JStr "Ensemble")]);
        ("statistics", JObj [("viewCount", JStr "10")])].

(** A page that holds more items than were asked for, the last of them
    with [null] for its snippet; it names a next page. *)
Definition overshooting_page : json :=
  JObj [("items",
         JArr [raw_video "v-1" "UC1"; raw_video "v-2" "UC1";
               JObj [("kind", JStr "youtube#searchResult");
                     ("id", JObj [("kind", JStr "youtube#video");
                                  ("videoId", JStr "v-3")]);
                     ("snippet", JNull)]]);
        ("nextPageToken", JStr "CAEQAA")].

(** A service that rejects the first request for quota, as the platform
    does when its own count of the day is used up, and answers the later
    ones with a last page of one result. *)
Definition rejecting_first : nat -> request -> remote_outcome :=
  fun n _ =>
    match n with
    | O => RemoteHttpError 403 "HttpError 403: reason quotaExceeded"
    | S _ => RemoteOk (JObj [("items", JArr [raw_video "v-1" "UC1"])])
    end.

(** A service whose answer lists the same channel twice. *)
Definition repeating_channels : nat -> request -> remote_outcome :=
  fun _ _ =>
    RemoteOk (JObj [("items", JArr [raw_channel "UC1"; raw_channel "UC1"])]).

Definition video_of_channel (video_id channel_id : string)
  : VideoDataExtractor.video_record :=
  {| VideoDataExtractor.videoId := JStr video_id;
     VideoDataExtractor.title := JStr "Recital";
     VideoDataExtractor.description := JStr "";
     VideoDataExtractor.publishedAt := JStr "";
     VideoDataExtractor.channelTitle := JStr "Ensemble";
     VideoDataExtractor.channelId := JStr channel_id |}.

Definition idle_status : Api.status :=
  {| Api.is_running := false; Api.completed_queries := [];
     Api.videos_collected := 0; Api.channels_collected := 0;
     Api.quota_used := 0; Api.quota_exceeded := false; Api.errors := [] |}.

(** A checkpoint on disk after the first query of a campaign, and the
    data of the campaign after the second one. *)
Definition first_checkpoint : ProgressTracker.progress_t :=
  {| ProgressTracker.completed_queries := ["Bach Magnificat"];
     ProgressTracker.video_data :=
       [("Bach Magnificat", [video_of_channel "v-1" "UC1"])];
     ProgressTracker.last_updated := Some "2024-05-01T10:00:00" |}.

Definition second_data : list (string * list VideoDataExtractor.video_record) :=
  [("Bach Magnificat", [video_of_channel "v-1" "UC1"]);
   ("Mozart Requiem", [video_of_channel "v-2" "UC2"])].

Definition noon : Z -> string := fun _ => "2024-05-01T12:00:00".

(** The first [n] characters of a text. *)
Definition text_prefix (n : nat) (text : string) : string :=
  string_of_list_ascii (take n (list_ascii_of_string text)).

(** What the driver may leave in the trace for a query: waits of positive
    length, and searches for this query in this order that ask for one to
    fifty results. *)
Definition driver_event (query order : string) (ev : event) : Prop :=
  match ev with
  | EvSleep ms => 0 < ms
  | EvExecute (SearchList q m _ o) => q = query /\ o = order /\ 1 <= m <= 50
  | EvExecute _ => False
  end.

(** The records the driver keeps of a list of items: those it can read and
    whose video id counts as true, in the order of the items. *)
Definition kept_records (items : list json)
  : list VideoDataExtractor.video_record :=
  List.filter (fun vd => py_truthy (VideoDataExtractor.videoId vd))
    (omap VideoDataExtractor.extract_video_data items).

(** The channel id a video names, white space stripped. *)
Definition names_channel (v : VideoDataExtractor.video_record) (id : string)
  : Prop :=
  exists s, VideoDataExtractor.channelId v = JStr s /\ strip s = id.

(** The batches the channel pass cuts a list of ids into. *)
Definition channel_batches (ids : list string) : list (list string) :=
  map (fun i => py_slice i (i + 50) ids)
    (ChannelDataExtractor.batch_starts (length ids) 50).

(** The requests of a trace, in their order. *)
Definition requests_of (tr : list event) : list request :=
  omap (fun ev => match ev with EvExecute r => Some r | EvSleep _ => None end) tr.

(** An answer by which the remote service rejects a request for quota, and
    an answer that is a failure of another kind. *)
Definition signals_quota (out : remote_outcome) : Prop :=
  match out with
  | RemoteHttpError status text =>
      (status =? 403) && contains "quotaExceeded" text = true
  | _ => False
  end.

Definition fails_otherwise (out : remote_outcome) : Prop :=
  match out with
  | RemoteOk _ => False
  | RemoteHttpError status text =>
      (status =? 403) && contains "quotaExceeded" text = false
  | RemoteFailure => True
  end.

(** Two extraction tasks that differ in their status at most. *)
Definition same_work (t1 t2 : Api.task) : Prop :=
  Api.attempted t1 = Api.attempted t2
  /\ Api.all_video_data t1 = Api.all_video_data t2
  /\ Api.files t1 = Api.files t2
  /\ Api.api t1 = Api.api t2.

(** The checkpoint a campaign holds after a save: the one of its data, in
    memory and on disk. *)
Definition saved (isoformat : Z -> string) (c : Main.campaign) : Prop :=
  ProgressTracker.progress (Main.progress_tracker c)
  = ProgressTracker.new_progress isoformat
      (dict_keys (Main.all_video_data c)) (Main.all_video_data c)
      (clock (YouTubeAPIClient.world (Main.api c)))
  /\ Main.files c !! ProgressTracker.progress_file (Main.progress_tracker c)
     = Some (json_dumps (Some 2%nat)
               (ProgressTracker.progress_to_json
                  (ProgressTracker.progress (Main.progress_tracker c)))).

(** * Properties *)

(** ** The ledger *)

Section Ledger.

Import QuotaManager.

Lemma cost_search : cost "search" = 100.
Proof. vm_compute. reflexivity. Qed.

Lemma cost_videos : cost "videos" = 1.
Proof. vm_compute. reflexivity. Qed.

Lemma cost_channels : cost "channels" = 1.
Proof. vm_compute. reflexivity. Qed.

Lemma charged_fields (ops : list string) (q : t) :
  daily_limit (charged q ops) = daily_limit q
  /\ used_quota (charged q ops) = used_quota q + total_cost ops
  /\ request_count (charged q ops) = request_count q + Z.of_nat (length ops).
Proof.
  revert q. induction ops as [|op ops IH]; intros q.
  - unfold charged, total_cost. cbn [fold_left fold_right length]. lia.
  - destruct (IH (record_request q op)) as (Hl & Hu & Hr).
    change (charged q (op :: ops)) with (charged (record_request q op) ops).
    rewrite Hl, Hu, Hr.
    change (total_cost (op :: ops)) with (cost op + total_cost ops).
    cbn [record_request daily_limit used_quota request_count length].
    lia.
Qed.

Lemma can_make_request_iff (q : t) (op : string) :
  can_make_request q op = true <-> used_quota q + cost op <= daily_limit q.
Proof. unfold can_make_request. apply Z.leb_le. Qed.

Lemma can_make_request_false_iff (q : t) (op : string) :
  can_make_request q op = false <-> daily_limit q < used_quota q + cost op.
Proof. unfold can_make_request. rewrite Z.leb_gt. reflexivity. Qed.

End Ledger.

(** C2. After any sequence of charges on a fresh ledger, [used_quota] is
    the sum of the costs of the charged operations (search 100, videos 1,
    channels 1), [request_count] is the number of charges, and
    [can_make_request] holds exactly when the used quota plus the cost of
    the operation stays within the daily limit, that is, it fails exactly
    when the next charge would exceed the limit. *)
Theorem ledger_tracks_charges (limit : Z) (ops : list string) :
  let q := charged (QuotaManager.init limit) ops in
  QuotaManager.cost "search" = 100
  /\ QuotaManager.cost "videos" = 1
  /\ QuotaManager.cost "channels" = 1
  /\ QuotaManager.used_quota q = total_cost ops
  /\ QuotaManager.request_count q = Z.of_nat (length ops)
  /\ (forall op, QuotaManager.can_make_request q op = true
                 <-> QuotaManager.used_quota q + QuotaManager.cost op <= limit)
  /\ (forall op, QuotaManager.can_make_request q op = false
                 <-> limit < QuotaManager.used_quota
                               (QuotaManager.record_request q op)).
Proof.
  intros q.
  destruct (charged_fields ops (QuotaManager.init limit)) as (Hl & Hu & Hr).
  cbn in Hl, Hu, Hr. fold q in Hl, Hu, Hr.
  repeat split; auto using cost_search, cost_videos, cost_channels.
  - intros H. apply can_make_request_iff in H. lia.
  - intros H. apply can_make_request_iff. lia.
  - intros H. apply can_make_request_false_iff in H.
    cbn [QuotaManager.record_request QuotaManager.used_quota]. lia.
  - intros H. apply can_make_request_false_iff.
    cbn [QuotaManager.record_request QuotaManager.used_quota] in H. lia.
Qed.

(** ** The gateway *)

Section Gateway.

Import YouTubeAPIClient.

Lemma wait_keeps_remote (st : state) :
  next_answer (_wait_for_rate_limit st) = next_answer st
  /\ ledger (_wait_for_rate_limit st) = ledger st.
Proof.
  unfold next_answer, ledger, _wait_for_rate_limit. cbn.
  destruct (_ <? _); cbn; split; reflexivity.
Qed.

(** [perform] charges after an answer, and only then. *)
Lemma perform_ledger (operation : string) (r : request) (st : state) :
  match next_answer st r with
  | RemoteOk response =>
      fst (perform operation r st) = Return response
      /\ ledger (snd (perform operation r st))
         = QuotaManager.record_request (ledger st) operation
  | RemoteHttpError status text =>
      (fst (perform operation r st) = Raise QuotaExceededError
       \/ fst (perform operation r st) = Raise (HttpError status text))
      /\ ledger (snd (perform operation r st)) = ledger st
  | RemoteFailure =>
      fst (perform operation r st) = Raise OtherError
      /\ ledger (snd (perform operation r st)) = ledger st
  end.
Proof.
  unfold perform, next_answer, ledger, execute. cbn.
  destruct (remote (world st) (n_calls (world st)) r) as [resp|status text|]; cbn.
  - split; reflexivity.
  - destruct ((status =? 403) && contains "quotaExceeded" text); cbn; auto.
  - split; reflexivity.
Qed.

Lemma perform_after_wait (operation : string) (r : request) (st : state) :
  match next_answer st r with
  | RemoteOk response =>
      fst (perform operation r (_wait_for_rate_limit st)) = Return response
      /\ ledger (snd (perform operation r (_wait_for_rate_limit st)))
         = QuotaManager.record_request (ledger st) operation
  | RemoteHttpError status text =>
      (fst (perform operation r (_wait_for_rate_limit st))
         = Raise QuotaExceededError
       \/ fst (perform operation r (_wait_for_rate_limit st))
         = Raise (HttpError status text))
      /\ ledger (snd (perform operation r (_wait_for_rate_limit st))) = ledger st
  | RemoteFailure =>
      fst (perform operation r (_wait_for_rate_limit st)) = Raise OtherError
      /\ ledger (snd (perform operation r (_wait_for_rate_limit st))) = ledger st
  end.
Proof.
  pose proof (perform_ledger operation r (_wait_for_rate_limit st)) as H.
  destruct (wait_keeps_remote st) as [Hr Hl]. rewrite Hr, Hl in H. exact H.
Qed.

Lemma search_log_line_raises (response : json) (e : exn) :
  search_log_line response = Raise e -> e = TypeError \/ e = AttributeError.
Proof.
  unfold search_log_line.
  destruct (py_get response "items" (JArr [])) as [items|]; [|intros [= <-]; auto].
  destruct (py_len items); intros [= <-]; auto.
Qed.

(** The two calls that fetch details share their shape. *)
Lemma fetch_charges_on_success_only (operation : string)
    (mk_request : list string -> request) (ids : list string) (st : state) :
  let run :=
    match ids with
    | [] => (Return (JObj [("items", JArr [])]), st)
    | _ =>
        if negb (QuotaManager.can_make_request (quota_manager (client st)) operation)
        then (Raise QuotaExceededError, st)
        else perform operation (mk_request (take 50 ids)) (_wait_for_rate_limit st)
    end in
  (if match ids with [] => false | _ => true end
      && QuotaManager.can_make_request (ledger st) operation
   then
     match next_answer st (mk_request (take 50 ids)) with
     | RemoteOk _ =>
         QuotaManager.used_quota (ledger (snd run))
         = QuotaManager.used_quota (ledger st) + QuotaManager.cost operation
         /\ QuotaManager.request_count (ledger (snd run))
            = QuotaManager.request_count (ledger st) + 1
         /\ QuotaManager.daily_limit (ledger (snd run))
            = QuotaManager.daily_limit (ledger st)
     | RemoteHttpError _ _ | RemoteFailure =>
         ledger (snd run) = ledger st /\ exists e, fst run = Raise e
     end
   else ledger (snd run) = ledger st)
  /\ match fst run with
     | Raise QuotaExceededError | Raise (HttpError _ _) | Raise OtherError =>
         ledger (snd run) = ledger st
     | _ => True
     end.
Proof.
  destruct ids as [|i ids']; [cbn; auto|].
  set (l := i :: ids'). cbn [andb]. fold (ledger st).
  destruct (QuotaManager.can_make_request (ledger st) operation); cbn [negb].
  2: { cbn. split; reflexivity. }
  pose proof (perform_after_wait operation (mk_request (take 50 l)) st) as H.
  cbv zeta.
  destruct (perform _ _ _) as [r st2]. cbn [fst snd] in *.
  destruct (next_answer st _) as [resp|status text|].
  - destruct H as [-> Hl]. rewrite Hl. cbn. auto.
  - destruct H as [[-> | ->] Hl]; eauto.
  - destruct H as [-> Hl]; eauto.
Qed.

(** A call sends one request when it reaches the remote service, and none
    otherwise. *)
Lemma run_call_requests (call : gateway_call) (st : state) :
  n_calls (world (snd (run_call call st)))
  = if reaches_remote call st then S (n_calls (world st)) else n_calls (world st).
Proof.
  assert (Hp : forall operation r s,
             n_calls (world (snd (perform operation r (_wait_for_rate_limit s))))
             = S (n_calls (world s))).
  { intros operation r s. unfold perform, execute, _wait_for_rate_limit.
    cbn [world client]. destruct (_ <? _); cbn [sleep n_calls remote];
      destruct (remote (world s) (n_calls (world s)) r) as [resp|status text|];
      try destruct ((status =? 403) && contains "quotaExceeded" text);
      reflexivity. }
  destruct call as [query max_results page_token order|ids|ids];
    cbn [run_call reaches_remote operation_of andb].
  - unfold YouTubeAPIClient.search_videos. fold (ledger st).
    destruct (QuotaManager.can_make_request (ledger st) "search"); cbn [negb];
      [|reflexivity].
    specialize (Hp "search"
      (SearchList query (Z.min max_results 50) page_token order) st).
    destruct (perform _ _ _) as [[resp|e] st2]; cbn [fst snd] in *;
      [destruct (search_log_line resp)|]; exact Hp.
  - unfold YouTubeAPIClient.get_video_details, reaches_remote. fold (ledger st).
    destruct ids as [|i ids]; [reflexivity|]. cbn [operation_of andb].
    destruct (QuotaManager.can_make_request (ledger st) "videos"); cbn [negb];
      [apply Hp|reflexivity].
  - unfold YouTubeAPIClient.get_channel_details, reaches_remote. fold (ledger st).
    destruct ids as [|i ids]; [reflexivity|]. cbn [operation_of andb].
    destruct (QuotaManager.can_make_request (ledger st) "channels"); cbn [negb];
      [apply Hp|reflexivity].
Qed.

End Gateway.

(** C1. A gateway call makes at most one remote call. It charges the
    ledger exactly once when the remote call is answered, and leaves
    [used_quota] and [request_count] as they were in every other case:
    when no request is sent, when the remote service rejects the request
    for quota, and when the transport fails in any other way. *)
Theorem gateway_charges_on_success_only
    (call : gateway_call) (st : YouTubeAPIClient.state) :
  let res := fst (run_call call st) in
  let st' := snd (run_call call st) in
  n_calls (YouTubeAPIClient.world st')
  = (if reaches_remote call st
     then S (n_calls (YouTubeAPIClient.world st))
     else n_calls (YouTubeAPIClient.world st))
  /\
  (if reaches_remote call st then
     match next_answer st (request_of call) with
     | RemoteOk _ =>
         QuotaManager.used_quota (ledger st')
         = QuotaManager.used_quota (ledger st)
           + QuotaManager.cost (operation_of call)
         /\ QuotaManager.request_count (ledger st')
            = QuotaManager.request_count (ledger st) + 1
         /\ QuotaManager.daily_limit (ledger st')
            = QuotaManager.daily_limit (ledger st)
     | RemoteHttpError _ _ | RemoteFailure =>
         ledger st' = ledger st /\ exists e, res = Raise e
     end
   else ledger st' = ledger st)
  /\ match res with
     | Raise QuotaExceededError | Raise (HttpError _ _) | Raise OtherError =>
         ledger st' = ledger st
     | _ => True
     end.
Proof.
  cbv zeta. split; [apply run_call_requests|].
  destruct call as [query max_results page_token order|ids|ids];
    cbn [run_call request_of operation_of reaches_remote andb].
  - unfold YouTubeAPIClient.search_videos. fold (ledger st).
    destruct (QuotaManager.can_make_request (ledger st) "search"); cbn [negb].
    2: { cbn. split; reflexivity. }
    pose proof (perform_after_wait "search"
      (SearchList query (Z.min max_results 50) page_token order) st) as H.
    destruct (YouTubeAPIClient.perform _ _ _) as [r st2].
    cbn [fst snd] in H.
    destruct (next_answer st _) as [resp|status text|].
    + destruct H as [-> Hl].
      pose proof (search_log_line_raises resp) as Hlog.
      destruct (YouTubeAPIClient.search_log_line resp) as [n|e]; cbn [fst snd];
        rewrite Hl; cbn; (split; [auto|]); try exact I.
      destruct (Hlog e eq_refl) as [-> | ->]; exact I.
    + destruct H as [[-> | ->] Hl]; cbn [fst snd]; eauto.
    + destruct H as [-> Hl]; cbn [fst snd]; eauto.
  - apply fetch_charges_on_success_only.
  - apply fetch_charges_on_success_only.
Qed.

(** C10. With an empty list of ids, [get_video_details] and
    [get_channel_details] return [{'items': []}] at once: the state they
    return is the state they were given, so there was no wait for the rate
    limit and no remote call, and the ledger is as it was. *)
Theorem empty_id_list_costs_nothing (st : YouTubeAPIClient.state) :
  let no_items := Return (JObj [("items", JArr [])]) in
  let unchanged (st' : YouTubeAPIClient.state) :=
    trace (YouTubeAPIClient.world st') = trace (YouTubeAPIClient.world st)
    /\ n_calls (YouTubeAPIClient.world st') = n_calls (YouTubeAPIClient.world st)
    /\ clock (YouTubeAPIClient.world st') = clock (YouTubeAPIClient.world st)
    /\ QuotaManager.used_quota (ledger st') = QuotaManager.used_quota (ledger st)
    /\ QuotaManager.request_count (ledger st')
       = QuotaManager.request_count (ledger st)
    /\ st' = st in
  fst (YouTubeAPIClient.get_video_details [] st) = no_items
  /\ unchanged (snd (YouTubeAPIClient.get_video_details [] st))
  /\ fst (YouTubeAPIClient.get_channel_details [] st) = no_items
  /\ unchanged (snd (YouTubeAPIClient.get_channel_details [] st)).
Proof. cbn. repeat split; reflexivity. Qed.

(** ** The pagination driver *)

Section Driver.

Import YouTubeAPIClient.
Import VideoDataExtractor.

Lemma gateway_search_ledger (query : string) (max_results : Z)
    (page_token : json) (order : string) (st : state) :
  QuotaManager.daily_limit
    (ledger (snd (YouTubeAPIClient.search_videos query max_results page_token order st)))
  = QuotaManager.daily_limit (ledger st)
  /\ forall response,
      fst (YouTubeAPIClient.search_videos query max_results page_token order st)
      = Return response ->
      QuotaManager.used_quota
        (ledger (snd (YouTubeAPIClient.search_videos
                        query max_results page_token order st)))
      = QuotaManager.used_quota (ledger st) + 100.
Proof.
  unfold YouTubeAPIClient.search_videos. fold (ledger st).
  destruct (QuotaManager.can_make_request (ledger st) "search"); cbn [negb].
  2: { cbn. split; [reflexivity|discriminate]. }
  pose proof (perform_after_wait "search"
    (SearchList query (Z.min max_results 50) page_token order) st) as H.
  destruct (perform _ _ _) as [r st2]. cbn [fst snd] in H.
  destruct (next_answer st _) as [resp|status text|].
  - destruct H as [-> Hl].
    destruct (search_log_line resp); cbn [fst snd]; rewrite Hl;
      cbn [QuotaManager.record_request QuotaManager.daily_limit
           QuotaManager.used_quota];
      (split; [reflexivity|]); [|discriminate].
    intros _ _. rewrite cost_search. reflexivity.
  - destruct H as [[-> | ->] Hl]; cbn [fst snd]; rewrite Hl;
      (split; [reflexivity|discriminate]).
  - destruct H as [-> Hl]; cbn [fst snd]; rewrite Hl;
      (split; [reflexivity|discriminate]).
Qed.

Lemma collect_items_has_video_id (items : list json) (videos : list video_record) :
  Forall has_video_id videos ->
  Forall has_video_id (fst (collect_items items videos)).
Proof.
  revert videos. induction items as [|item items IH]; intros videos Hv; cbn.
  - exact Hv.
  - destruct (extract_video_data item) as [vd|]; [|exact Hv].
    apply IH. destruct (py_truthy (videoId vd)) eqn:Hid; [|exact Hv].
    apply Forall_app. split; [exact Hv|]. constructor; [exact Hid|constructor].
Qed.

Lemma collect_items_length (items : list json) (videos : list video_record) :
  (length videos <= length (fst (collect_items items videos)))%nat.
Proof.
  revert videos. induction items as [|item items IH]; intros videos; cbn.
  - lia.
  - destruct (extract_video_data item) as [vd|]; [|cbn; lia].
    etransitivity; [|apply IH].
    destruct (py_truthy (videoId vd)); [rewrite length_app; cbn|]; lia.
Qed.

(** A round that goes on was afforded and has been charged. *)
Lemma loop_body_next (query : string) (max_videos : Z) (order : string)
    (videos : list video_record) (page_token : json) (st : state)
    (videos1 : list video_record) (page_token1 : json) (st1 : state) :
  loop_body query max_videos order videos page_token st
  = inr (videos1, page_token1, st1) ->
  QuotaManager.can_make_request (ledger st) "search" = true
  /\ QuotaManager.daily_limit (ledger st1) = QuotaManager.daily_limit (ledger st)
  /\ QuotaManager.used_quota (ledger st1) = QuotaManager.used_quota (ledger st) + 100
  /\ (Forall has_video_id videos -> Forall has_video_id videos1).
Proof.
  unfold loop_body. fold (ledger st).
  destruct (QuotaManager.can_make_request (ledger st) "search"); cbn [negb];
    [|discriminate].
  pose proof (gateway_search_ledger query
    (Z.min videos_per_page (max_videos - Z.of_nat (length videos)))
    page_token order st) as [Hl Hu].
  destruct (YouTubeAPIClient.search_videos _ _ _ _ _) as [[response|e] st2];
    cbn [fst snd] in *; [|destruct e; discriminate].
  specialize (Hu response eq_refl).
  destruct (py_get response "items" (JArr [])) as [items|]; [|discriminate].
  destruct (py_truthy items); cbn [negb]; [|discriminate].
  destruct (py_iter items) as [its|]; [|discriminate].
  pose proof (collect_items_has_video_id its videos) as Hc.
  destruct (collect_items its videos) as [videos2 [e|]]; [discriminate|].
  destruct (py_get response "nextPageToken" JNull) as [tok|]; [|discriminate].
  destruct (py_truthy tok); cbn [negb]; [|discriminate].
  intros [= <- <- <-]. cbn. auto.
Qed.

(** A round that leaves the loop keeps the ledger's limit, and hands
    over records with a video id only. *)
Lemma loop_body_exit (query : string) (max_videos : Z) (order : string)
    (videos : list video_record) (page_token : json) (st : state)
    (e : loop_exit) (st1 : state) :
  loop_body query max_videos order videos page_token st = inl (e, st1) ->
  Forall has_video_id videos -> Forall has_video_id (exit_videos e).
Proof.
  unfold loop_body.
  destruct (QuotaManager.can_make_request _ _); cbn [negb];
    [|intros [= <- <-]; auto].
  destruct (YouTubeAPIClient.search_videos _ _ _ _ _) as [[response|x] st2].
  2: { destruct x; intros [= <- <-]; auto. }
  destruct (py_get response "items" (JArr [])) as [items|];
    [|intros [= <- <-]; auto].
  destruct (py_truthy items); cbn [negb]; [|intros [= <- <-]; auto].
  destruct (py_iter items) as [its|]; [|intros [= <- <-]; auto].
  pose proof (collect_items_has_video_id its videos) as Hc.
  destruct (collect_items its videos) as [videos2 [x|]];
    [intros [= <- <-]; auto|].
  destruct (py_get response "nextPageToken" JNull) as [tok|];
    [|intros [= <- <-]; auto].
  destruct (py_truthy tok); cbn [negb]; [discriminate|intros [= <- <-]; auto].
Qed.

(** When the gateway signals that the quota is exceeded, the ledger is as
    before. *)
Lemma gateway_search_quota (query : string) (max_results : Z)
    (page_token : json) (order : string) (st : state) :
  fst (YouTubeAPIClient.search_videos query max_results page_token order st)
  = Raise QuotaExceededError ->
  ledger (snd (YouTubeAPIClient.search_videos query max_results page_token order st))
  = ledger st.
Proof.
  unfold YouTubeAPIClient.search_videos. fold (ledger st).
  destruct (QuotaManager.can_make_request (ledger st) "search"); cbn [negb];
    [|reflexivity].
  pose proof (perform_after_wait "search"
    (SearchList query (Z.min max_results 50) page_token order) st) as H.
  destruct (perform _ _ _) as [r st2]. cbn [fst snd] in H.
  destruct (next_answer st _) as [resp|status text|].
  - destruct H as [-> Hl].
    pose proof (search_log_line_raises resp) as Hlog.
    destruct (search_log_line resp) as [n|e]; cbn [fst snd]; [discriminate|].
    destruct (Hlog e eq_refl) as [-> | ->]; discriminate.
  - destruct H as [[-> | ->] Hl]; cbn [fst snd]; auto.
  - destruct H as [-> Hl]; cbn [fst snd]; auto.
Qed.

Lemma py_slice_to_all {A : Type} (n : Z) (l : list A) :
  Z.of_nat (length l) <= n -> py_slice_to n l = l.
Proof.
  intros H. unfold py_slice_to.
  destruct (0 <=? n) eqn:Hn; [|apply Z.leb_gt in Hn; lia].
  apply take_ge. lia.
Qed.

Lemma affordable_searches_next (st st1 : state) :
  QuotaManager.can_make_request (ledger st) "search" = true ->
  QuotaManager.daily_limit (ledger st1) = QuotaManager.daily_limit (ledger st) ->
  QuotaManager.used_quota (ledger st1) = QuotaManager.used_quota (ledger st) + 100 ->
  affordable_searches st = S (affordable_searches st1).
Proof.
  intros Hc Hl Hu. apply can_make_request_iff in Hc. rewrite cost_search in Hc.
  unfold affordable_searches. rewrite Hl, Hu.
  set (d := QuotaManager.daily_limit (ledger st)
            - QuotaManager.used_quota (ledger st)) in *.
  replace (QuotaManager.daily_limit (ledger st)
           - (QuotaManager.used_quota (ledger st) + 100)) with (d - 100) by lia.
  assert (Hd : 100 <= d) by lia.
  replace d with ((d - 100) + 1 * 100) at 1 by lia.
  rewrite Z.div_add by lia.
  assert (0 <= (d - 100) / 100) by (apply Z.div_pos; lia).
  lia.
Qed.

Lemma search_loop_total (fuel : nat) (query : string) (max_videos : Z)
    (order : string) (videos : list video_record) (page_token : json)
    (st : state) :
  (affordable_searches st < fuel)%nat ->
  exists e st1,
    search_loop fuel query max_videos order videos page_token st = Some (e, st1).
Proof.
  revert videos page_token st.
  induction fuel as [|fuel IH]; intros videos page_token st Hf; [lia|].
  cbn [search_loop].
  destruct (negb _); [eauto|].
  destruct (loop_body query max_videos order videos page_token st)
    as [[e st1]|[[videos1 tok1] st1]] eqn:Hb; [eauto|].
  apply loop_body_next in Hb as (Hc & Hl & Hu & _).
  apply IH. rewrite (affordable_searches_next st st1 Hc Hl Hu) in Hf. lia.
Qed.

Lemma search_loop_has_video_id (fuel : nat) (query : string) (max_videos : Z)
    (order : string) (videos : list video_record) (page_token : json)
    (st : state) (e : loop_exit) (st1 : state) :
  search_loop fuel query max_videos order videos page_token st = Some (e, st1) ->
  Forall has_video_id videos -> Forall has_video_id (exit_videos e).
Proof.
  revert videos page_token st.
  induction fuel as [|fuel IH]; intros videos page_token st; cbn [search_loop].
  - destruct (negb _); [intros [= <- <-]; auto|discriminate].
  - destruct (negb _); [intros [= <- <-]; auto|].
    destruct (loop_body query max_videos order videos page_token st)
      as [[e' st']|[[videos1 tok1] st']] eqn:Hb.
    + intros [= <- <-]. eapply loop_body_exit; eauto.
    + intros Hs Hv. apply loop_body_next in Hb as (_ & _ & _ & Hk).
      eapply IH; eauto.
Qed.

Lemma search_fuel_enough (st : state) :
  (affordable_searches st < search_fuel st)%nat.
Proof.
  unfold search_fuel, affordable_searches, ledger. rewrite cost_search. lia.
Qed.

Lemma py_slice_to_Forall {A : Type} (P : A -> Prop) (n : Z) (l : list A) :
  Forall P l -> Forall P (py_slice_to n l).
Proof. unfold py_slice_to. destruct (0 <=? n); apply Forall_take. Qed.

(** The gateway hands over what the remote service answered, and the world
    keeps its remote service. *)
Lemma gateway_search_answer (query : string) (max_results : Z)
    (page_token : json) (order : string) (st : state) :
  remote (world (snd (YouTubeAPIClient.search_videos
                        query max_results page_token order st)))
  = remote (world st)
  /\ forall response,
      fst (YouTubeAPIClient.search_videos query max_results page_token order st)
      = Return response ->
      exists n r, remote (world st) n r = RemoteOk response.
Proof.
  unfold YouTubeAPIClient.search_videos.
  destruct (QuotaManager.can_make_request _ _); cbn [negb].
  2: { cbn. split; [reflexivity|discriminate]. }
  unfold perform, execute, _wait_for_rate_limit. cbn [world client].
  match goal with
  | |- context [remote ?w (n_calls ?w) ?r] =>
      assert (Hw : remote w = remote (world st))
        by (destruct (_ <? _); reflexivity);
      destruct (remote w (n_calls w) r) as [resp|status text|] eqn:Ha;
      rewrite Hw in Ha
  end.
  - destruct (search_log_line resp); cbn [fst snd world remote set_quota_manager];
      (split; [exact Hw|]); [|discriminate].
    intros response [= <-]. eauto.
  - destruct ((status =? 403) && contains "quotaExceeded" text);
      cbn [fst snd world remote]; (split; [exact Hw|discriminate]).
  - cbn [fst snd world remote]. split; [exact Hw|discriminate].
Qed.

Lemma collect_items_no_error (items : list json) (videos : list video_record) :
  Forall (fun item => is_Some (extract_video_data item)) items ->
  snd (collect_items items videos) = None.
Proof.
  revert videos. induction items as [|item items IH]; intros videos Hi;
    [reflexivity|].
  inversion Hi as [|? ? [vd Hvd] Hrest]; subst. cbn [collect_items].
  rewrite Hvd. apply IH. exact Hrest.
Qed.

(** With such a service, a round that ends in the handler of the exception
    has added nothing to the list, and a round that goes on keeps the
    service. *)
Lemma loop_body_sound_pages (query : string) (max_videos : Z) (order : string)
    (videos : list video_record) (page_token : json) (st : state) :
  sends_results_only (remote (world st)) ->
  match loop_body query max_videos order videos page_token st with
  | inl (Failed videos1 _, _) => videos1 = videos
  | inl (Stopped _, _) => True
  | inr (_, _, st1) => remote (world st1) = remote (world st)
  end.
Proof.
  intros Hr. unfold loop_body.
  destruct (QuotaManager.can_make_request _ _); cbn [negb]; [|exact I].
  pose proof (gateway_search_answer query
    (Z.min videos_per_page (max_videos - Z.of_nat (length videos)))
    page_token order st) as [Hw Ha].
  destruct (YouTubeAPIClient.search_videos _ _ _ _ _) as [[response|x] st1];
    cbn [fst snd] in *; [|destruct x; auto].
  destruct (Ha response eq_refl) as (n & r & Hn).
  pose proof (Hr n r response Hn) as Hitems. unfold page_items in Hitems.
  destruct response as [| | | | |fields]; try reflexivity. cbn [py_get] in *.
  destruct (py_truthy (dict_get fields "items" (JArr []))); cbn [negb];
    [|exact I].
  destruct (py_iter (dict_get fields "items" (JArr []))) as [its|];
    [|reflexivity].
  cbn [default from_option id] in Hitems.
  pose proof (collect_items_no_error its videos Hitems) as Hc.
  destruct (collect_items its videos) as [videos1 [x|]]; [discriminate|].
  destruct (py_truthy (dict_get fields "nextPageToken" JNull)); cbn [negb];
    [|exact I].
  cbn [world sleep remote]. exact Hw.
Qed.

Lemma search_loop_sound_pages (fuel : nat) (query : string) (max_videos : Z)
    (order : string) (videos : list video_record) (page_token : json)
    (st : state) (videos1 : list video_record) (e : exn) (st1 : state) :
  sends_results_only (remote (world st)) ->
  search_loop fuel query max_videos order videos page_token st
  = Some (Failed videos1 e, st1) ->
  Z.of_nat (length videos1) < max_videos.
Proof.
  revert videos page_token st.
  induction fuel as [|fuel IH]; intros videos page_token st Hr;
    cbn [search_loop];
    destruct (Z.of_nat (length videos) <? max_videos) eqn:Hlen; cbn [negb];
    try discriminate.
  apply Z.ltb_lt in Hlen.
  pose proof (loop_body_sound_pages query max_videos order videos page_token st Hr)
    as Hb.
  destruct (loop_body query max_videos order videos page_token st)
    as [[[vs|vs x] st2]|[[vs tok] st2]].
  - discriminate.
  - intros [= <- <- <-]. subst vs. exact Hlen.
  - apply IH. rewrite Hb. exact Hr.
Qed.

Lemma py_slice_to_length {A : Type} (n : Z) (l : list A) :
  0 <= n -> Z.of_nat (length (py_slice_to n l)) <= n.
Proof.
  intros Hn. unfold py_slice_to.
  replace (0 <=? n) with true by (symmetry; apply Z.leb_le; exact Hn).
  rewrite length_take. lia.
Qed.

(** The cap holds on every run against a service that sends results only:
    the run that exceeds it needs an item the driver cannot read. *)
Lemma search_videos_capped_on_sound_pages (query : string) (max_videos : Z)
    (order : string) (st : state) :
  0 <= max_videos ->
  sends_results_only (remote (world st)) ->
  exists videos st1,
    VideoDataExtractor.search_videos query max_videos order st
    = Some (Return videos, st1)
    /\ Z.of_nat (length videos) <= max_videos.
Proof.
  intros Hmax Hr.
  unfold VideoDataExtractor.search_videos, search_videos_from.
  destruct (search_loop_total (search_fuel st) query max_videos order [] JNull st
              (search_fuel_enough st)) as ([videos|videos x] & st1 & Hs);
    rewrite Hs; eexists _, _; (split; [reflexivity|]).
  - apply py_slice_to_length. exact Hmax.
  - apply search_loop_sound_pages in Hs; [lia|exact Hr].
Qed.

(** The driver always returns, and returns a list. *)
Lemma search_videos_returns (query : string) (max_videos : Z) (order : string)
    (st : state) :
  exists videos st1,
    VideoDataExtractor.search_videos query max_videos order st
    = Some (Return videos, st1).
Proof.
  unfold VideoDataExtractor.search_videos, search_videos_from.
  destruct (search_loop_total (search_fuel st) query max_videos order [] JNull st
              (search_fuel_enough st)) as ([videos|videos x] & st1 & ->); eauto.
Qed.

End Driver.

(** C8. The driver returns a list, and every record of the list has a video
    id that counts as true: it is not the empty string and not [None]. An
    item whose video id does not, as when it has none, adds nothing to the
    list and the loop goes on with the next item. *)
Theorem search_videos_keeps_identified_records
    (query : string) (max_videos : Z) (order : string)
    (st : YouTubeAPIClient.state) :
  (exists videos st1,
      VideoDataExtractor.search_videos query max_videos order st
      = Some (Return videos, st1)
      /\ Forall has_video_id videos
      /\ Forall (fun v => VideoDataExtractor.videoId v <> JStr ""
                          /\ VideoDataExtractor.videoId v <> JNull) videos)
  /\ (forall item rest videos,
        match VideoDataExtractor.extract_video_data item with
        | Some vd =>
            if py_truthy (VideoDataExtractor.videoId vd)
            then VideoDataExtractor.collect_items (item :: rest) videos
                 = VideoDataExtractor.collect_items rest (videos ++ [vd])
            else VideoDataExtractor.collect_items (item :: rest) videos
                 = VideoDataExtractor.collect_items rest videos
        | None => True
        end)
  /\ (forall snippet rest videos,
        VideoDataExtractor.collect_items
          (JObj [("snippet", JObj snippet)] :: rest) videos
        = VideoDataExtractor.collect_items rest videos).
Proof.
  split; [|split].
  - destruct (search_videos_returns query max_videos order st)
      as (videos & st1 & Hs).
    exists videos, st1. split; [exact Hs|].
    assert (Hv : Forall has_video_id videos).
    { unfold VideoDataExtractor.search_videos,
        VideoDataExtractor.search_videos_from in Hs.
      destruct (VideoDataExtractor.search_loop _ _ _ _ _ _ _)
        as [[e st2]|] eqn:Hl; [|discriminate].
      apply search_loop_has_video_id in Hl; [|constructor].
      destruct e as [vs|vs x]; cbn in Hl; injection Hs as <- <-; auto.
      apply py_slice_to_Forall. exact Hl. }
    split; [exact Hv|].
    eapply Forall_impl; [exact Hv|].
    intros v Hid. unfold has_video_id in Hid.
    split; intros Heq; rewrite Heq in Hid; discriminate.
  - intros item rest videos. cbn [VideoDataExtractor.collect_items].
    destruct (VideoDataExtractor.extract_video_data item) as [vd|]; [|exact I].
    destruct (py_truthy (VideoDataExtractor.videoId vd)); reflexivity.
  - intros snippet rest videos. reflexivity.
Qed.

(** C7. When the driver is about to request a page and the ledger does not
    afford a search, or the gateway answers the request by raising
    [QuotaExceededError], the driver stops and returns the list it has
    collected so far; it does not raise, and the ledger is as it was
    before the request. *)
Theorem quota_block_returns_partial
    (fuel : nat) (query : string) (max_videos : Z) (order : string)
    (videos : list VideoDataExtractor.video_record) (page_token : json)
    (st : YouTubeAPIClient.state) :
  Z.of_nat (length videos) < max_videos ->
  QuotaManager.can_make_request (ledger st) "search" = false
  \/ fst (YouTubeAPIClient.search_videos query
            (Z.min VideoDataExtractor.videos_per_page
               (max_videos - Z.of_nat (length videos)))
            page_token order st)
     = Raise QuotaExceededError ->
  exists st1,
    VideoDataExtractor.search_videos_from
      (S fuel) query max_videos order videos page_token st
    = Some (Return videos, st1)
    /\ ledger st1 = ledger st.
Proof.
  intros Hlen Hblock.
  unfold VideoDataExtractor.search_videos_from.
  cbn [VideoDataExtractor.search_loop].
  replace (Z.of_nat (length videos) <? max_videos) with true
    by (symmetry; apply Z.ltb_lt; exact Hlen).
  cbn [negb]. unfold VideoDataExtractor.loop_body. fold (ledger st).
  destruct (QuotaManager.can_make_request (ledger st) "search") eqn:Hc;
    cbn [negb].
  - destruct Hblock as [Hblock|Hblock]; [discriminate|].
    pose proof (gateway_search_quota _ _ _ _ _ Hblock) as Hl.
    destruct (YouTubeAPIClient.search_videos _ _ _ _ _) as [r st1].
    cbn [fst snd] in *. subst r.
    exists st1. rewrite py_slice_to_all by lia. auto.
  - exists st. rewrite py_slice_to_all by lia. auto.
Qed.

(** C7 at work: a ledger of 50 units does not afford the first page, and
    a service that rejects the next page for quota leaves the driver
    with the record of the first. *)
Lemma quota_block_returns_partial_witness :
  (exists st1,
      VideoDataExtractor.search_videos_from 1 "Bach Magnificat" 10 "date"
        [] JNull (fresh_state 50 rejecting_first)
      = Some (Return [], st1)
      /\ ledger st1 = ledger (fresh_state 50 rejecting_first))
  /\ (exists st1,
        VideoDataExtractor.search_videos_from 1 "Bach Magnificat" 10 "date"
          [video_of_channel "v-1" "UC1"] (JStr "CAEQAA")
          (fresh_state 10000 rejecting_first)
        = Some (Return [video_of_channel "v-1" "UC1"], st1)
        /\ ledger st1 = ledger (fresh_state 10000 rejecting_first)).
Proof.
  split.
  - apply (quota_block_returns_partial 0 "Bach Magnificat" 10 "date" [] JNull
             (fresh_state 50 rejecting_first)).
    + vm_compute. reflexivity.
    + left. vm_compute. reflexivity.
  - apply (quota_block_returns_partial 0 "Bach Magnificat" 10 "date"
             [video_of_channel "v-1" "UC1"] (JStr "CAEQAA")
             (fresh_state 10000 rejecting_first)).
    + vm_compute. reflexivity.
    + right. vm_compute. reflexivity.
Defined.

(** ** The campaign *)

Section Campaign.

Import YouTubeAPIClient.
Import VideoDataExtractor.

Variable py_str : json -> string.
Variable json_load : string -> option ProgressTracker.progress_t.
Variable isoformat : Z -> string.

Lemma existsb_eqb_In (q : string) (l : list string) :
  existsb (String.eqb q) l = true <-> q ∈ l.
Proof.
  rewrite existsb_exists. split.
  - intros (x & Hx & Heq). apply String.eqb_eq in Heq. subst x.
    apply list_elem_of_In. exact Hx.
  - intros Hq. exists q. split; [apply list_elem_of_In; exact Hq|].
    apply String.eqb_refl.
Qed.

(** The set the tracker builds holds the completed queries and nothing
    else, so its filter is the filter on the list. *)
Lemma get_remaining_queries_filter (tr : ProgressTracker.t)
    (all_queries : list string) :
  ProgressTracker.get_remaining_queries tr all_queries
  = List.filter
      (fun q => negb (existsb (String.eqb q)
                        (ProgressTracker.completed_queries
                           (ProgressTracker.progress tr))))
      all_queries.
Proof.
  unfold ProgressTracker.get_remaining_queries.
  set (done := ProgressTracker.completed_queries (ProgressTracker.progress tr)).
  induction all_queries as [|q qs IH]; [reflexivity|].
  rewrite filter_cons. cbn [List.filter]. rewrite IH.
  destruct (existsb (String.eqb q) done) eqn:He; cbn [negb].
  - apply existsb_eqb_In in He.
    destruct (decide (q ∉ list_to_set (C := gset string) done)) as [Hn|_];
      [|reflexivity].
    exfalso. apply Hn. apply elem_of_list_to_set. exact He.
  - destruct (decide (q ∉ list_to_set (C := gset string) done)) as [_|Hn];
      [reflexivity|].
    exfalso. apply Hn. intros Hin. apply elem_of_list_to_set in Hin.
    apply existsb_eqb_In in Hin. congruence.
Qed.

Lemma filter_split_length {A : Type} (f : A -> bool) (l : list A) :
  (length (List.filter (fun x => negb (f x)) l) + length (List.filter f l)
   = length l)%nat.
Proof.
  induction l as [|x l IH]; [reflexivity|].
  cbn [List.filter]. destruct (f x); cbn [negb length]; lia.
Qed.

Lemma list_filter_sublist {A : Type} (f : A -> bool) (l : list A) :
  List.filter f l `sublist_of` l.
Proof.
  induction l as [|x l IH]; cbn [List.filter]; [constructor|].
  destruct (f x); [apply sublist_skip|apply sublist_cons]; exact IH.
Qed.

Lemma save_attempted (c : Main.campaign) :
  Main.attempted (Main.save isoformat c) = Main.attempted c
  /\ Main.api (Main.save isoformat c) = Main.api c.
Proof. unfold Main.save. cbn. split; reflexivity. Qed.

(** The loop over the queries ends, and it has called the driver for the
    first so many of them, in their order. *)
Lemma query_loop_attempts (videos_per_query : Z) (queries : list string)
    (c : Main.campaign) :
  exists c1 e k,
    Main.query_loop isoformat videos_per_query queries c
    = Some (c1, e)
    /\ Main.attempted c1 = Main.attempted c ++ take k queries.
Proof.
  revert c. induction queries as [|query rest IH]; intros c;
    cbn [Main.query_loop].
  - exists c, None, 0%nat. rewrite app_nil_r. auto.
  - destruct (remaining (get_quota_usage (Main.api c)) <? 4000).
    { exists c, None, 0%nat. rewrite app_nil_r. auto. }
    destruct (search_videos_returns query videos_per_query "date" (Main.api c))
      as (videos & st1 & ->).
    match goal with
    | |- context [Main.query_loop _ _ rest ?c1] =>
        destruct (IH c1) as (c2 & e & k & Hq & Ha)
    end.
    exists c2, e, (S k). split; [exact Hq|].
    rewrite Ha. destruct (save_attempted
      {| Main.attempted := Main.attempted c ++ [query];
         Main.all_video_data := dict_set (Main.all_video_data c) query videos;
         Main.progress_tracker := Main.progress_tracker c;
         Main.files := Main.files c; Main.api := st1 |}) as [-> _].
    cbn [Main.attempted take]. rewrite <- app_assoc. reflexivity.
Qed.

(** A driver stopped by the ledger leaves a ledger that stops the
    campaign: what cannot pay one search is far below the 4000 units the
    campaign asks for. *)
Lemma query_loop_stops_without_quota (videos_per_query : Z)
    (queries : list string) (c : Main.campaign) :
  QuotaManager.can_make_request (ledger (Main.api c)) "search" = false ->
  Main.query_loop isoformat videos_per_query queries c
  = Some (c, None).
Proof.
  intros Hc. apply can_make_request_false_iff in Hc. rewrite cost_search in Hc.
  destruct queries as [|query rest]; [reflexivity|].
  cbn [Main.query_loop].
  replace (remaining (get_quota_usage (Main.api c)) <? 4000) with true;
    [reflexivity|].
  symmetry. apply Z.ltb_lt. unfold get_quota_usage, remaining,
    QuotaManager.get_remaining_quota. fold (ledger (Main.api c)). lia.
Qed.

Lemma main_with_attempts (phrases : list string) (videos_per_query : Z)
    (files0 : gmap string string) (st0 : state) :
  exists c e,
    Main.main_with py_str json_load isoformat
      phrases videos_per_query files0 st0 = Some (c, e)
    /\ Main.attempted c
       `prefix_of` ProgressTracker.get_remaining_queries
                     (ProgressTracker.init json_load Main.PROGRESS_FILE files0)
                     phrases.
Proof.
  unfold Main.main_with.
  match goal with
  | |- context [Main.query_loop _ _ ?qs ?c0] =>
      destruct (query_loop_attempts videos_per_query qs c0)
        as (c1 & e & k & -> & Ha)
  end.
  cbn [Main.attempted app] in Ha.
  destruct e as [x|].
  - eexists _, _. split; [reflexivity|]. rewrite Ha. apply prefix_take.
  - destruct (ChannelDataExtractor.get_channels_for_multiple_queries _ _ _)
      as [[channels|x] st2];
      (eexists _, _; split; [reflexivity|]); cbn [Main.attempted];
      rewrite Ha; apply prefix_take.
Qed.

End Campaign.

(** C6. The queries a campaign has left are the requested queries that are
    not among the completed queries of the checkpoint, in the order of the
    request: the completed ones, however many, are the ones left out. The
    campaign calls the driver for queries of that list only, in its order,
    from the first one on. *)
Theorem resume_attempts_remaining_queries
    (tr : ProgressTracker.t) (phrases : list string) :
  let completed :=
    ProgressTracker.completed_queries (ProgressTracker.progress tr) in
  let remaining_queries := ProgressTracker.get_remaining_queries tr phrases in
  remaining_queries
  = List.filter (fun q => negb (existsb (String.eqb q) completed)) phrases
  /\ remaining_queries `sublist_of` phrases
  /\ (length remaining_queries
      + length (List.filter (fun q => existsb (String.eqb q) completed) phrases)
      = length phrases)%nat
  /\ (forall q, q ∈ remaining_queries <-> q ∈ phrases /\ q ∉ completed)
  /\ (forall py_str json_load isoformat videos_per_query files0 st0,
        exists c e,
          Main.main_with py_str json_load isoformat
            phrases videos_per_query files0 st0 = Some (c, e)
          /\ Main.attempted c
             `prefix_of` ProgressTracker.get_remaining_queries
                           (ProgressTracker.init json_load Main.PROGRESS_FILE
                              files0)
                           phrases).
Proof.
  intros completed remaining_queries.
  assert (Hf : remaining_queries
               = List.filter (fun q => negb (existsb (String.eqb q) completed))
                   phrases)
    by apply get_remaining_queries_filter.
  split; [exact Hf|]. rewrite Hf.
  split; [apply list_filter_sublist|].
  split; [apply (filter_split_length (fun q => existsb (String.eqb q) completed))|].
  split.
  - intros q. rewrite list_elem_of_In, filter_In, <- list_elem_of_In.
    rewrite negb_true_iff, <- not_true_iff_false, existsb_eqb_In. reflexivity.
  - intros. apply main_with_attempts.
Qed.

(** C3. The campaign at work after a quota rejection: the service rejects
    the first page of the first query for quota while the ledger still
    shows the whole day's budget. The gateway raises
    [QuotaExceededError], the driver returns the empty list for the first
    query, and both campaign runners go on to call the driver for the
    second query; the extraction task does not set its [quota_exceeded]
    flag either. *)
Theorem campaign_goes_on_after_quota_rejection
    (py_str : json -> string)
    (json_load : string -> option ProgressTracker.progress_t)
    (isoformat : Z -> string) :
  let st0 := fresh_state 10000 rejecting_first in
  let phrases := ["Bach Magnificat"; "Mozart Requiem"] in
  fst (YouTubeAPIClient.search_videos "Bach Magnificat" 50 JNull "date" st0)
  = Raise QuotaExceededError
  /\ fst <$> VideoDataExtractor.search_videos "Bach Magnificat" 2000 "date" st0
     = Some (Return [])
  /\ (fun r => Main.attempted (fst r))
       <$> Main.main_with py_str json_load isoformat
             phrases 2000 ∅ st0
     = Some ["Bach Magnificat"; "Mozart Requiem"]
  /\ (fun t => (Api.attempted t, Api.quota_exceeded (Api.extraction_status t)))
       <$> Api.run_extraction_task py_str json_load isoformat
             {| Api.queries := Some phrases; Api.videos_per_query := 2000;
                Api.daily_quota := 10000 |}
             idle_status ∅ (YouTubeAPIClient.world st0)
     = Some (["Bach Magnificat"; "Mozart Requiem"], false).
Proof. vm_compute. repeat split; reflexivity. Qed.

(** C4. The driver on a page that overshoots and then breaks: one record
    is asked for, the page holds two results and a third item whose
    snippet is [null]. The two results are appended, the third item
    raises, and the handler of the exception returns the list as it is:
    two records for a target of one. *)
Theorem error_path_returns_uncapped_list :
  let st0 := fresh_state 10000 (fun _ _ => RemoteOk overshooting_page) in
  fst <$> VideoDataExtractor.search_videos "Bach Magnificat" 1 "date" st0
  = Some (Return [ {| VideoDataExtractor.videoId := JStr "v-1";
                      VideoDataExtractor.title := JStr "Recital";
                      VideoDataExtractor.description := JStr "";
                      VideoDataExtractor.publishedAt := JStr "";
                      VideoDataExtractor.channelTitle := JStr "";
                      VideoDataExtractor.channelId := JStr "UC1" |};
                   {| VideoDataExtractor.videoId := JStr "v-2";
                      VideoDataExtractor.title := JStr "Recital";
                      VideoDataExtractor.description := JStr "";
                      VideoDataExtractor.publishedAt := JStr "";
                      VideoDataExtractor.channelTitle := JStr "";
                      VideoDataExtractor.channelId := JStr "UC1" |} ]).
Proof. vm_compute. reflexivity. Qed.

(** ** The channel pass *)

Section Channels.

Import ChannelDataExtractor.

(** The ids the pass asks for are the ids of the set, each once. *)
Lemma sorted_list_ids (ids : gset string) :
  NoDup (sorted_list ids) /\ forall x, x ∈ sorted_list ids <-> x ∈ ids.
Proof.
  unfold sorted_list. split.
  - rewrite merge_sort_Permutation. apply NoDup_elements.
  - intros x. rewrite merge_sort_Permutation. apply elem_of_elements.
Qed.

(** 30 ids go in one batch, 120 in three. *)
Example batch_starts_examples :
  batch_starts 30 50 = [0%nat] /\ batch_starts 120 50 = [0; 50; 100]%nat.
Proof. split; reflexivity. Qed.

End Channels.

(** C5. The channel pass on an answer that repeats a channel: two videos
    name the channel [UC1], one id is asked for, the answer lists the
    channel twice, and the pass returns both records. *)
Theorem repeated_channel_is_returned_twice (py_str : json -> string) :
  let st0 := fresh_state 10000 repeating_channels in
  let data := [("Bach Magnificat",
                [video_of_channel "v-1" "UC1"; video_of_channel "v-2" " UC1 "])] in
  let out :=
    ChannelDataExtractor.get_channels_for_multiple_queries py_str data st0 in
  trace (YouTubeAPIClient.world (snd out)) = [EvExecute (ChannelsList ["UC1"])]
  /\ match fst out with
     | Return channels =>
         map ChannelDataExtractor.c_channelId channels = [JStr "UC1"; JStr "UC1"]
     | Raise _ => False
     end.
Proof. vm_compute. split; reflexivity. Qed.

(** ** Writing the checkpoint *)

Section Files.

Lemma append_assoc (a b c : string) : (a +:+ b) +:+ c = a +:+ (b +:+ c).
Proof.
  induction a as [|x a IH]; [reflexivity|].
  change (String x ((a +:+ b) +:+ c) = String x (a +:+ (b +:+ c))).
  rewrite IH. reflexivity.
Qed.

Lemma append_empty_r (a : string) : a +:+ "" = a.
Proof.
  induction a as [|x a IH]; [reflexivity|].
  change (String x (a +:+ "") = String x a). rewrite IH. reflexivity.
Qed.

Lemma run_steps_cons (s : fs_step) (steps : list fs_step)
    (files : gmap string string) :
  run_steps (s :: steps) files = run_steps steps (apply_step files s).
Proof. reflexivity. Qed.

(** Appending characters to a file that is there appends them to its
    content, and touches no other file. *)
Lemma run_appends (path : string) (chars : list ascii)
    (files : gmap string string) (content : string) :
  files !! path = Some content ->
  run_steps (map (Append path) chars) files !! path
  = Some (content +:+ string_of_list_ascii chars)
  /\ forall other, other <> path ->
       run_steps (map (Append path) chars) files !! other = files !! other.
Proof.
  revert files content.
  induction chars as [|c chars IH]; intros files content Hf; cbn [map].
  - cbn. rewrite append_empty_r. auto.
  - rewrite run_steps_cons. cbn [apply_step]. rewrite Hf.
    cbn [default from_option id].
    destruct (IH (<[path := content +:+ String c ""]> files)
                (content +:+ String c "")) as [Hp Ho].
    { apply lookup_insert_eq. }
    split.
    + rewrite Hp, append_assoc. reflexivity.
    + intros other Hne. rewrite Ho by exact Hne.
      apply lookup_insert_ne. congruence.
Qed.

(** The file after the first [k] steps of a write: untouched before the
    first step, then cut to nothing and filled from the left. *)
Lemma write_steps_prefix (path text : string) (files : gmap string string)
    (k : nat) :
  run_steps (take k (write_steps path text)) files !! path
  = match k with
    | O => files !! path
    | S n => Some (text_prefix n text)
    end
  /\ forall other, other <> path ->
       run_steps (take k (write_steps path text)) files !! other
       = files !! other.
Proof.
  destruct k as [|n]; [cbn; auto|].
  unfold write_steps, text_prefix. cbn [take]. rewrite run_steps_cons.
  cbn [apply_step].
  rewrite firstn_map.
  destruct (run_appends path (take n (list_ascii_of_string text))
              (<[path := ""]> files) "") as [Hp Ho].
  { apply lookup_insert_eq. }
  split; [exact Hp|].
  intros other Hne. rewrite (Ho other Hne). apply lookup_insert_ne. congruence.
Qed.

Lemma list_ascii_length (text : string) :
  length (list_ascii_of_string text) = String.length text.
Proof.
  induction text as [|c text IH]; [reflexivity|].
  cbn [list_ascii_of_string length String.length]. rewrite IH. reflexivity.
Qed.

Lemma text_prefix_all (text : string) :
  text_prefix (String.length text) text = text.
Proof.
  unfold text_prefix. rewrite take_ge.
  - apply string_of_list_ascii_of_string.
  - rewrite list_ascii_length. lia.
Qed.

Lemma write_steps_length (path text : string) :
  length (write_steps path text) = S (String.length text).
Proof.
  unfold write_steps. cbn [length]. rewrite length_map.
  rewrite list_ascii_length. reflexivity.
Qed.

Lemma write_file_content (path text : string) (files : gmap string string) :
  write_file path text files !! path = Some text
  /\ forall other, other <> path ->
       write_file path text files !! other = files !! other.
Proof.
  unfold write_file.
  rewrite <- (take_ge (write_steps path text) (S (String.length text)))
    by (rewrite write_steps_length; lia).
  destruct (write_steps_prefix path text files (S (String.length text)))
    as [Hp Ho].
  rewrite text_prefix_all in Hp. auto.
Qed.

Lemma crash_states_In (steps : list fs_step) (files fs : gmap string string) :
  fs ∈ crash_states steps files
  <-> exists k, (k <= length steps)%nat /\ fs = run_steps (take k steps) files.
Proof.
  unfold crash_states. rewrite list_elem_of_In, in_map_iff.
  split.
  - intros (k & <- & Hk). apply in_seq in Hk. exists k. split; [lia|reflexivity].
  - intros (k & Hk & ->). exists k. split; [reflexivity|]. apply in_seq. lia.
Qed.

End Files.

(** C9, as the code has it. [save_progress] rewrites the checkpoint in
    place. When it has run to its end the file holds the whole new text.
    A process killed on the way leaves the file as it was before the write
    began, or holding the first so many characters of the new text: among
    these states is the empty file, which is not the new text, since the
    text of a checkpoint is never empty. *)
Theorem save_progress_rewrites_in_place
    (isoformat : Z -> string) (tr : ProgressTracker.t)
    (completed : list string)
    (data : list (string * list VideoDataExtractor.video_record))
    (now : Z) (files : gmap string string) :
  let path := ProgressTracker.progress_file tr in
  let text :=
    json_dumps (Some 2%nat)
      (ProgressTracker.progress_to_json
         (ProgressTracker.new_progress isoformat completed data now)) in
  let steps := ProgressTracker.save_steps isoformat tr completed data now in
  let after :=
    snd (ProgressTracker.save_progress isoformat tr completed data now files) in
  after !! path = Some text
  /\ last (crash_states steps files) = Some after
  /\ Forall (fun fs => fs !! path = files !! path
                       \/ exists n, (n <= String.length text)%nat
                                    /\ fs !! path = Some (text_prefix n text))
       (crash_states steps files)
  /\ (exists fs, fs ∈ crash_states steps files /\ fs !! path = Some "")
  /\ text <> "".
Proof.
  intros path text steps after.
  assert (Hsteps : steps = write_steps path text) by reflexivity.
  assert (Hafter : after = write_file path text files) by reflexivity.
  split; [rewrite Hafter; apply write_file_content|].
  split.
  { unfold crash_states. rewrite seq_S, map_app. cbn [map]. rewrite last_snoc.
    cbn [plus]. rewrite take_ge by lia. reflexivity. }
  split.
  { apply Forall_forall. intros fs Hin.
    apply crash_states_In in Hin as (k & Hk & ->).
    rewrite Hsteps in *. rewrite write_steps_length in Hk.
    destruct (write_steps_prefix path text files k) as [Hp _]. rewrite Hp.
    destruct k as [|n]; [left; reflexivity|].
    right. exists n. split; [lia|reflexivity]. }
  split.
  { exists (run_steps (take 1 steps) files). split.
    - apply crash_states_In. exists 1%nat. split; [|reflexivity].
      rewrite Hsteps, write_steps_length. lia.
    - rewrite Hsteps. apply (write_steps_prefix path text files 1). }
  unfold text, json_dumps, ProgressTracker.progress_to_json.
  cbn [json_dumps_at]. discriminate.
Qed.

(** C9, refuted. The checkpoint of the first query is on disk and the
    campaign saves the checkpoint of the second one; a process killed after
    the file was opened for writing leaves an empty file, which is neither
    the checkpoint before the write nor the one after it. *)
Lemma save_progress_crash_leaves_empty_file :
  let path := Main.PROGRESS_FILE in
  let tr := {| ProgressTracker.progress_file := path;
               ProgressTracker.progress := first_checkpoint |} in
  let files : gmap string string :=
    {[ path := json_dumps (Some 2%nat)
                 (ProgressTracker.progress_to_json first_checkpoint) ]} in
  let completed := ["Bach Magnificat"; "Mozart Requiem"] in
  let now := 1714564800000 in
  let steps := ProgressTracker.save_steps noon tr completed second_data now in
  let after :=
    snd (ProgressTracker.save_progress noon tr completed second_data now files) in
  exists fs,
    fs ∈ crash_states steps files
    /\ fs !! path = Some ""
    /\ fs !! path <> files !! path
    /\ fs !! path <> after !! path.
Proof.
  intros path tr files completed now steps after.
  exists (run_steps (take 1 steps) files). split.
  - apply crash_states_In. exists 1%nat. split; [|reflexivity].
    unfold steps, ProgressTracker.save_steps. rewrite write_steps_length. lia.
  - vm_compute. repeat split; discriminate.
Qed.

(** * Further properties of the gateway and the ledger *)

Section GatewayLedger.

Import YouTubeAPIClient.

(** What a gateway call does to the ledger: nothing, or the one charge of
    its operation, which the ledger afforded. *)
Lemma run_call_ledger (call : gateway_call) (st : state) :
  ledger (snd (run_call call st)) = ledger st
  \/ (QuotaManager.can_make_request (ledger st) (operation_of call) = true
      /\ ledger (snd (run_call call st))
         = QuotaManager.record_request (ledger st) (operation_of call)).
Proof.
  assert (Hp : forall operation r,
             ledger (snd (perform operation r (_wait_for_rate_limit st)))
             = ledger st
             \/ ledger (snd (perform operation r (_wait_for_rate_limit st)))
                = QuotaManager.record_request (ledger st) operation).
  { intros operation r.
    pose proof (perform_after_wait operation r st) as H.
    destruct (next_answer st r); destruct H as [_ H]; auto. }
  destruct call as [query max_results page_token order|ids|ids];
    cbn [run_call operation_of].
  - unfold YouTubeAPIClient.search_videos. fold (ledger st).
    destruct (QuotaManager.can_make_request (ledger st) "search"); cbn [negb];
      [|left; reflexivity].
    specialize (Hp "search"
      (SearchList query (Z.min max_results 50) page_token order)).
    destruct (perform _ _ _) as [[resp|e] st2]; cbn [fst snd] in *;
      [destruct (search_log_line resp)|]; cbn [snd]; destruct Hp; auto.
  - unfold YouTubeAPIClient.get_video_details. fold (ledger st).
    destruct ids as [|i ids]; [left; reflexivity|].
    destruct (QuotaManager.can_make_request (ledger st) "videos"); cbn [negb];
      [|left; reflexivity].
    destruct (Hp "videos" (VideosList (take 50 (i :: ids)))); auto.
  - unfold YouTubeAPIClient.get_channel_details. fold (ledger st).
    destruct ids as [|i ids]; [left; reflexivity|].
    destruct (QuotaManager.can_make_request (ledger st) "channels"); cbn [negb];
      [|left; reflexivity].
    destruct (Hp "channels" (ChannelsList (take 50 (i :: ids)))); auto.
Qed.

Lemma operation_cost_positive (call : gateway_call) :
  0 < QuotaManager.cost (operation_of call).
Proof.
  destruct call; cbn [operation_of];
    rewrite ?cost_search, ?cost_videos, ?cost_channels; lia.
Qed.

End GatewayLedger.

(** X1. A gateway call never spends beyond the limit: a ledger within its
    daily limit stays within it through any of the three calls, whatever
    the remote service answers. The limit itself is never touched, and
    neither [used_quota] nor [request_count] ever goes down. *)
Theorem gateway_keeps_ledger_within_limit
    (call : gateway_call) (st : YouTubeAPIClient.state) :
  QuotaManager.used_quota (ledger st) <= QuotaManager.daily_limit (ledger st) ->
  let st' := snd (run_call call st) in
  QuotaManager.used_quota (ledger st') <= QuotaManager.daily_limit (ledger st')
  /\ QuotaManager.daily_limit (ledger st') = QuotaManager.daily_limit (ledger st)
  /\ QuotaManager.used_quota (ledger st) <= QuotaManager.used_quota (ledger st')
  /\ QuotaManager.request_count (ledger st)
     <= QuotaManager.request_count (ledger st').
Proof.
  intros Hle st'. subst st'.
  pose proof (operation_cost_positive call) as Hpos.
  destruct (run_call_ledger call st) as [-> | [Hc ->]].
  - repeat split; lia.
  - apply can_make_request_iff in Hc.
    cbn [QuotaManager.record_request QuotaManager.used_quota
         QuotaManager.daily_limit QuotaManager.request_count].
    repeat split; lia.
Qed.

(** X1 at work: a search on a ledger that has one search left. *)
Lemma gateway_keeps_ledger_within_limit_witness :
  let st := fresh_state 100 rejecting_first in
  let st' := snd (run_call (SearchPage "Bach Magnificat" 50 JNull "date") st) in
  QuotaManager.used_quota (ledger st') <= QuotaManager.daily_limit (ledger st')
  /\ QuotaManager.daily_limit (ledger st') = QuotaManager.daily_limit (ledger st)
  /\ QuotaManager.used_quota (ledger st) <= QuotaManager.used_quota (ledger st')
  /\ QuotaManager.request_count (ledger st)
     <= QuotaManager.request_count (ledger st').
Proof.
  apply (gateway_keeps_ledger_within_limit
           (SearchPage "Bach Magnificat" 50 JNull "date")
           (fresh_state 100 rejecting_first)).
  vm_compute. discriminate.
Defined.

(** X2. The rate limit. A call that reaches the remote service sends its
    request no sooner than [min_request_interval] after the time the
    client noted for the request before it, and notes the time of the new
    request; it waits only as long as that takes, and not at all when the
    interval has passed. A call that does not reach the service leaves
    clock and note alone. *)
Theorem gateway_spaces_requests
    (call : gateway_call) (st : YouTubeAPIClient.state) :
  let st' := snd (run_call call st) in
  let interval := YouTubeAPIClient.min_request_interval (YouTubeAPIClient.client st) in
  let noted := YouTubeAPIClient.last_request_time (YouTubeAPIClient.client st) in
  let now := clock (YouTubeAPIClient.world st) in
  YouTubeAPIClient.min_request_interval (YouTubeAPIClient.client st') = interval
  /\ if reaches_remote call st then
       clock (YouTubeAPIClient.world st') = Z.max now (noted + interval)
       /\ YouTubeAPIClient.last_request_time (YouTubeAPIClient.client st')
          = clock (YouTubeAPIClient.world st')
       /\ trace (YouTubeAPIClient.world st')
          = trace (YouTubeAPIClient.world st)
            ++ (if now - noted <? interval
                then [EvSleep (interval - (now - noted))] else [])
            ++ [EvExecute (request_of call)]
     else
       clock (YouTubeAPIClient.world st') = now
       /\ YouTubeAPIClient.last_request_time (YouTubeAPIClient.client st') = noted
       /\ trace (YouTubeAPIClient.world st') = trace (YouTubeAPIClient.world st).
Proof.
  cbv zeta.
  assert (Hp : forall operation r,
    let s := snd (YouTubeAPIClient.perform operation r
                    (YouTubeAPIClient._wait_for_rate_limit st)) in
    YouTubeAPIClient.min_request_interval (YouTubeAPIClient.client s)
    = YouTubeAPIClient.min_request_interval (YouTubeAPIClient.client st)
    /\ clock (YouTubeAPIClient.world s)
       = Z.max (clock (YouTubeAPIClient.world st))
           (YouTubeAPIClient.last_request_time (YouTubeAPIClient.client st)
            + YouTubeAPIClient.min_request_interval (YouTubeAPIClient.client st))
    /\ YouTubeAPIClient.last_request_time (YouTubeAPIClient.client s)
       = clock (YouTubeAPIClient.world s)
    /\ trace (YouTubeAPIClient.world s)
       = trace (YouTubeAPIClient.world st)
         ++ (if clock (YouTubeAPIClient.world st)
                - YouTubeAPIClient.last_request_time (YouTubeAPIClient.client st)
                <? YouTubeAPIClient.min_request_interval (YouTubeAPIClient.client st)
             then [EvSleep
                     (YouTubeAPIClient.min_request_interval (YouTubeAPIClient.client st)
                      - (clock (YouTubeAPIClient.world st)
                         - YouTubeAPIClient.last_request_time
                             (YouTubeAPIClient.client st)))]
             else [])
         ++ [EvExecute r]).
  { intros operation r.
    unfold YouTubeAPIClient.perform, execute,
      YouTubeAPIClient._wait_for_rate_limit.
    cbn [YouTubeAPIClient.world YouTubeAPIClient.client].
    destruct (_ <? _) eqn:Hlt;
      [apply Z.ltb_lt in Hlt|apply Z.ltb_ge in Hlt];
      cbn [sleep clock trace remote n_calls];
      match goal with
      | |- context [remote ?w ?n r] => destruct (remote w n r) as [resp|status text|]
      end;
      try destruct ((status =? 403) && contains "quotaExceeded" text);
      cbn [snd YouTubeAPIClient.set_quota_manager YouTubeAPIClient.client
           YouTubeAPIClient.world YouTubeAPIClient.min_request_interval
           YouTubeAPIClient.last_request_time clock trace];
      rewrite <- ?app_assoc; cbn [app];
      repeat split; try reflexivity; lia. }
  destruct call as [query max_results page_token order|ids|ids];
    unfold reaches_remote; cbn [run_call operation_of request_of andb].
  - unfold YouTubeAPIClient.search_videos. fold (ledger st).
    destruct (QuotaManager.can_make_request (ledger st) "search"); cbn [negb];
      [|cbn; auto].
    specialize (Hp "search"
      (SearchList query (Z.min max_results 50) page_token order)).
    destruct (YouTubeAPIClient.perform _ _ _) as [[resp|e] st2];
      cbn [fst snd] in *;
      [destruct (YouTubeAPIClient.search_log_line resp)|]; cbn [snd];
      destruct Hp as (? & ? & ? & ?); auto.
  - unfold YouTubeAPIClient.get_video_details. fold (ledger st).
    destruct ids as [|i ids]; [cbn; auto|]. cbn [andb].
    destruct (QuotaManager.can_make_request (ledger st) "videos"); cbn [negb];
      [|cbn; auto].
    destruct (Hp "videos" (VideosList (take 50 (i :: ids)))) as (? & ? & ? & ?).
    auto.
  - unfold YouTubeAPIClient.get_channel_details. fold (ledger st).
    destruct ids as [|i ids]; [cbn; auto|]. cbn [andb].
    destruct (QuotaManager.can_make_request (ledger st) "channels"); cbn [negb];
      [|cbn; auto].
    destruct (Hp "channels" (ChannelsList (take 50 (i :: ids)))) as (? & ? & ? & ?).
    auto.
Qed.

(** * Further properties of the pagination driver *)

Section DriverAccounts.

Import YouTubeAPIClient.
Import VideoDataExtractor.

(** The trace of a search of the gateway: nothing, or a wait of positive
    length if one is due, and the request. *)
Lemma gateway_search_trace (query : string) (max_results : Z)
    (page_token : json) (order : string) (st : state) :
  exists new,
    trace (world (snd (YouTubeAPIClient.search_videos
                         query max_results page_token order st)))
    = trace (world st) ++ new
    /\ Forall (fun ev => match ev with
                         | EvSleep ms => 0 < ms
                         | EvExecute r =>
                             r = SearchList query (Z.min max_results 50)
                                   page_token order
                         end) new.
Proof.
  unfold YouTubeAPIClient.search_videos.
  destruct (QuotaManager.can_make_request _ _); cbn [negb].
  2: { exists []. rewrite app_nil_r. split; [reflexivity|constructor]. }
  unfold perform, execute, _wait_for_rate_limit. cbn [world client].
  destruct (_ <? _) eqn:Hlt;
    [apply Z.ltb_lt in Hlt|];
    cbn [sleep clock trace remote n_calls];
    match goal with
    | |- context [remote ?w ?n ?r] => destruct (remote w n r) as [resp|status text|]
    end;
    try destruct (search_log_line resp);
    try destruct ((status =? 403) && contains "quotaExceeded" text);
    cbn [snd set_quota_manager world trace];
    rewrite <- ?app_assoc; cbn [app];
    eexists; (split; [reflexivity|]); repeat constructor; lia.
Qed.

(** One round and the books: the limit stays; either the ledger is as it
    was, the loop is left, and at most one request went out, or the round
    was afforded, one request went out and was charged. *)
Lemma loop_body_accounts (query : string) (max_videos : Z) (order : string)
    (videos : list video_record) (page_token : json) (st : state) :
  let out := loop_body query max_videos order videos page_token st in
  let st1 := match out with inl (_, s) => s | inr (_, _, s) => s end in
  (ledger st1 = ledger st
   /\ (n_calls (world st1) = n_calls (world st)
       \/ n_calls (world st1) = S (n_calls (world st)))
   /\ exists e, out = inl (e, st1))
  \/ (QuotaManager.can_make_request (ledger st) "search" = true
      /\ ledger st1 = QuotaManager.record_request (ledger st) "search"
      /\ n_calls (world st1) = S (n_calls (world st))).
Proof.
  cbv zeta. unfold loop_body. fold (ledger st).
  set (m := Z.min videos_per_page (max_videos - Z.of_nat (length videos))).
  pose proof (run_call_ledger (SearchPage query m page_token order) st) as Hl.
  pose proof (run_call_requests (SearchPage query m page_token order) st) as Hn.
  pose proof (gateway_search_ledger query m page_token order st) as [_ Hu].
  unfold reaches_remote in Hn. cbn [run_call operation_of andb] in Hl, Hn.
  fold (ledger st) in Hn.
  destruct (QuotaManager.can_make_request (ledger st) "search") eqn:Hc;
    cbn [negb]; [|left; eauto].
  destruct (YouTubeAPIClient.search_videos query m page_token order st)
    as [[response|x] st1]; cbn [fst snd] in *.
  2: { destruct Hl as [Hl|[_ Hl]];
         [left; destruct x; eauto|right; destruct x; auto]. }
  destruct Hl as [Hl|[_ Hl]].
  - exfalso. specialize (Hu response eq_refl). rewrite Hl in Hu. lia.
  - right.
    destruct (py_get response "items" (JArr [])) as [items|]; [|auto].
    destruct (py_truthy items); cbn [negb]; [|auto].
    destruct (py_iter items) as [its|]; [|auto].
    destruct (collect_items its videos) as [videos1 [x|]]; [auto|].
    destruct (py_get response "nextPageToken" JNull) as [tok|]; [|auto].
    destruct (py_truthy tok); cbn [negb]; auto.
Qed.

(** The books of the whole loop. *)
Lemma search_loop_accounts (fuel : nat) (query : string) (max_videos : Z)
    (order : string) (videos : list video_record) (page_token : json)
    (st : state) (e : loop_exit) (st1 : state) :
  search_loop fuel query max_videos order videos page_token st = Some (e, st1) ->
  let pages := QuotaManager.request_count (ledger st1)
               - QuotaManager.request_count (ledger st) in
  QuotaManager.daily_limit (ledger st1) = QuotaManager.daily_limit (ledger st)
  /\ 0 <= pages
  /\ QuotaManager.used_quota (ledger st1)
     = QuotaManager.used_quota (ledger st) + 100 * pages
  /\ (Z.of_nat (n_calls (world st1)) = Z.of_nat (n_calls (world st)) + pages
      \/ Z.of_nat (n_calls (world st1))
         = Z.of_nat (n_calls (world st)) + pages + 1)
  /\ QuotaManager.used_quota (ledger st1)
     <= Z.max (QuotaManager.used_quota (ledger st))
          (QuotaManager.daily_limit (ledger st)).
Proof.
  revert videos page_token st.
  induction fuel as [|fuel IH]; intros videos page_token st; cbn [search_loop];
    (destruct (negb _); [intros [= <- <-]; cbv zeta; repeat split; lia|]);
    [discriminate|].
  pose proof (loop_body_accounts query max_videos order videos page_token st)
    as Hb. cbv zeta in Hb.
  destruct (loop_body query max_videos order videos page_token st)
    as [[e' st']|[[videos1 tok1] st']].
  - intros [= <- <-]. cbv zeta.
    destruct Hb as [(Hl & Hn & _)|(Hc & Hl & Hn)]; rewrite Hl.
    + repeat split; lia.
    + apply can_make_request_iff in Hc. rewrite cost_search in Hc.
      cbn [QuotaManager.record_request QuotaManager.used_quota
           QuotaManager.daily_limit QuotaManager.request_count].
      rewrite cost_search, Hn. repeat split; lia.
  - intros Hs. specialize (IH _ _ _ Hs). cbv zeta in IH.
    destruct Hb as [(_ & _ & x & Hx)|(Hc & Hl & Hn)]; [discriminate|].
    apply can_make_request_iff in Hc. rewrite cost_search in Hc.
    rewrite Hl, Hn in IH.
    cbn [QuotaManager.record_request QuotaManager.used_quota
         QuotaManager.daily_limit QuotaManager.request_count] in IH.
    rewrite cost_search in IH. cbv zeta.
    destruct IH as (H1 & H2 & H3 & H4 & H5).
    repeat split; try lia.
Qed.

(** The trace of one round, and of the loop. *)
Lemma loop_body_trace (query : string) (max_videos : Z) (order : string)
    (videos : list video_record) (page_token : json) (st : state) :
  Z.of_nat (length videos) < max_videos ->
  let out := loop_body query max_videos order videos page_token st in
  let st1 := match out with inl (_, s) => s | inr (_, _, s) => s end in
  exists new,
    trace (world st1) = trace (world st) ++ new
    /\ Forall (driver_event query order) new.
Proof.
  intros Hlen. cbv zeta. unfold loop_body.
  set (m := Z.min videos_per_page (max_videos - Z.of_nat (length videos))).
  assert (Hm : 1 <= Z.min m 50 <= 50) by (unfold m, videos_per_page; lia).
  pose proof (gateway_search_trace query m page_token order st)
    as (new & Ht & Hnew).
  assert (Hev : Forall (driver_event query order) new).
  { eapply Forall_impl; [exact Hnew|].
    intros [ms|r]; cbn [driver_event]; [auto|]. intros ->. auto. }
  assert (Hnil : exists new0,
             trace (world st) = trace (world st) ++ new0
             /\ Forall (driver_event query order) new0).
  { exists []. rewrite app_nil_r. split; [reflexivity|constructor]. }
  destruct (QuotaManager.can_make_request _ _); cbn [negb]; [|exact Hnil].
  destruct (YouTubeAPIClient.search_videos query m page_token order st)
    as [[response|x] st1]; cbn [fst snd] in *; [|destruct x; eauto].
  destruct (py_get response "items" (JArr [])) as [items|]; [|eauto].
  destruct (py_truthy items); cbn [negb]; [|eauto].
  destruct (py_iter items) as [its|]; [|eauto].
  destruct (collect_items its videos) as [videos1 [x|]]; [eauto|].
  destruct (py_get response "nextPageToken" JNull) as [tok|]; [|eauto].
  destruct (py_truthy tok); cbn [negb]; [|eauto].
  cbn [world sleep trace]. exists (new ++ [EvSleep 500]).
  rewrite Ht, app_assoc. split; [reflexivity|].
  apply Forall_app. split; [exact Hev|]. repeat constructor.
Qed.

Lemma search_loop_trace (fuel : nat) (query : string) (max_videos : Z)
    (order : string) (videos : list video_record) (page_token : json)
    (st : state) (e : loop_exit) (st1 : state) :
  search_loop fuel query max_videos order videos page_token st = Some (e, st1) ->
  exists new,
    trace (world st1) = trace (world st) ++ new
    /\ Forall (driver_event query order) new.
Proof.
  revert videos page_token st.
  induction fuel as [|fuel IH]; intros videos page_token st; cbn [search_loop];
    destruct (Z.of_nat (length videos) <? max_videos) eqn:Hlen; cbn [negb];
    try discriminate;
    try (intros [= <- <-]; exists []; rewrite app_nil_r;
         split; [reflexivity|constructor]).
  apply Z.ltb_lt in Hlen.
  pose proof (loop_body_trace query max_videos order videos page_token st Hlen)
    as Hb. cbv zeta in Hb.
  destruct (loop_body query max_videos order videos page_token st)
    as [[e' st']|[[videos1 tok1] st']].
  - intros [= <- <-]. exact Hb.
  - intros Hs. destruct (IH _ _ _ Hs) as (new2 & Ht2 & Hn2).
    destruct Hb as (new1 & Ht1 & Hn1).
    exists (new1 ++ new2). rewrite Ht2, Ht1, app_assoc.
    split; [reflexivity|]. apply Forall_app. auto.
Qed.

(** What is kept of items that can all be read. *)
Lemma collect_items_kept (items : list json) (videos : list video_record) :
  Forall (fun item => is_Some (extract_video_data item)) items ->
  collect_items items videos = (videos ++ kept_records items, None).
Proof.
  revert videos. induction items as [|item items IH]; intros videos Hi.
  - cbn. rewrite app_nil_r. reflexivity.
  - inversion Hi as [|? ? [vd Hvd] Hrest]; subst.
    cbn [collect_items]. rewrite Hvd. rewrite (IH _ Hrest).
    unfold kept_records. cbn [omap list_omap]. rewrite Hvd.
    cbn [List.filter].
    destruct (py_truthy (videoId vd)); [|reflexivity].
    rewrite <- app_assoc. reflexivity.
Qed.

End DriverAccounts.

(** X3. The driver and the ledger. A search for a query always returns;
    it leaves the daily limit alone, charges 100 units for each page it
    was given and nothing else, sends at most one request that is not
    charged (the one that failed), and does not take the used quota beyond
    the limit. *)
Theorem search_videos_pays_per_page
    (query : string) (max_videos : Z) (order : string)
    (st : YouTubeAPIClient.state) :
  exists videos st1,
    VideoDataExtractor.search_videos query max_videos order st
    = Some (Return videos, st1)
    /\ let pages := QuotaManager.request_count (ledger st1)
                    - QuotaManager.request_count (ledger st) in
       QuotaManager.daily_limit (ledger st1) = QuotaManager.daily_limit (ledger st)
       /\ 0 <= pages
       /\ QuotaManager.used_quota (ledger st1)
          = QuotaManager.used_quota (ledger st) + 100 * pages
       /\ (Z.of_nat (n_calls (YouTubeAPIClient.world st1))
           = Z.of_nat (n_calls (YouTubeAPIClient.world st)) + pages
           \/ Z.of_nat (n_calls (YouTubeAPIClient.world st1))
              = Z.of_nat (n_calls (YouTubeAPIClient.world st)) + pages + 1)
       /\ QuotaManager.used_quota (ledger st1)
          <= Z.max (QuotaManager.used_quota (ledger st))
               (QuotaManager.daily_limit (ledger st)).
Proof.
  unfold VideoDataExtractor.search_videos, VideoDataExtractor.search_videos_from.
  destruct (search_loop_total (VideoDataExtractor.search_fuel st) query
              max_videos order [] JNull st (search_fuel_enough st))
    as (e & st1 & Hs).
  rewrite Hs. apply search_loop_accounts in Hs.
  destruct e as [videos|videos x]; eexists _, st1; (split; [reflexivity|exact Hs]).
Qed.

(** X4. What the driver sends. Everything a search for a query adds to the
    trace is a wait of positive length or a search request for that very
    query in the order asked for, with a page size between 1 and 50; what
    was in the trace before stays in front. *)
Theorem search_videos_sends_bounded_pages
    (query : string) (max_videos : Z) (order : string)
    (st : YouTubeAPIClient.state) :
  exists videos st1 new,
    VideoDataExtractor.search_videos query max_videos order st
    = Some (Return videos, st1)
    /\ trace (YouTubeAPIClient.world st1)
       = trace (YouTubeAPIClient.world st) ++ new
    /\ Forall (driver_event query order) new.
Proof.
  unfold VideoDataExtractor.search_videos, VideoDataExtractor.search_videos_from.
  destruct (search_loop_total (VideoDataExtractor.search_fuel st) query
              max_videos order [] JNull st (search_fuel_enough st))
    as (e & st1 & Hs).
  rewrite Hs. apply search_loop_trace in Hs as (new & Ht & Hn).
  destruct e as [videos|videos x]; eexists _, st1, new; auto.
Qed.

(** X5. A target of zero or less: the driver returns the empty list at
    once; no request is sent, nothing is charged, the state is the one it
    was given. *)
Theorem search_videos_without_target
    (query : string) (max_videos : Z) (order : string)
    (st : YouTubeAPIClient.state) :
  max_videos <= 0 ->
  VideoDataExtractor.search_videos query max_videos order st
  = Some (Return [], st).
Proof.
  intros Hmax.
  unfold VideoDataExtractor.search_videos, VideoDataExtractor.search_videos_from,
    VideoDataExtractor.search_fuel.
  cbn [VideoDataExtractor.search_loop length].
  replace (Z.of_nat 0 <? max_videos) with false
    by (symmetry; apply Z.ltb_ge; lia).
  cbn [negb]. unfold py_slice_to.
  destruct (0 <=? max_videos); rewrite take_nil; reflexivity.
Qed.

Lemma search_videos_without_target_witness :
  VideoDataExtractor.search_videos "Bach Magnificat" (-3) "date"
    (fresh_state 10000 rejecting_first)
  = Some (Return [], fresh_state 10000 rejecting_first).
Proof.
  apply (search_videos_without_target "Bach Magnificat" (-3) "date"
           (fresh_state 10000 rejecting_first)).
  vm_compute. discriminate.
Defined.

Section DriverPages.

Import YouTubeAPIClient.
Import VideoDataExtractor.

(** A search the ledger affords and the service answers is handed over and
    charged. *)
Lemma gateway_search_answered (query : string) (max_results : Z)
    (page_token : json) (order : string) (st : state) (fields : list (string * json))
    (items : list json) :
  QuotaManager.can_make_request (ledger st) "search" = true ->
  next_answer st (SearchList query (Z.min max_results 50) page_token order)
  = RemoteOk (JObj fields) ->
  dict_get fields "items" (JArr []) = JArr items ->
  exists st1,
    YouTubeAPIClient.search_videos query max_results page_token order st
    = (Return (JObj fields), st1)
    /\ ledger st1 = QuotaManager.record_request (ledger st) "search"
    /\ n_calls (world st1) = S (n_calls (world st)).
Proof.
  intros Hc Ha Hi.
  pose proof (run_call_requests (SearchPage query max_results page_token order) st)
    as Hn.
  unfold reaches_remote in Hn. cbn [run_call operation_of andb] in Hn.
  fold (ledger st) in Hn. rewrite Hc in Hn.
  revert Hn. unfold YouTubeAPIClient.search_videos. fold (ledger st).
  rewrite Hc. cbn [negb].
  pose proof (perform_after_wait "search"
    (SearchList query (Z.min max_results 50) page_token order) st) as H.
  rewrite Ha in H. destruct (perform _ _ _) as [r st2]. cbn [fst snd] in H.
  destruct H as [-> Hl].
  unfold search_log_line. cbn [py_get]. rewrite Hi. cbn [py_len].
  intros Hn. exists st2. auto.
Qed.

End DriverPages.

(** X6. A last page. When the ledger affords a search and the service
    answers the first request with a page of items the driver can read
    that names no next page, the driver returns the records of the items
    that have a video id, in the order of the page and cut to the target,
    after this one request, which is charged. *)
Theorem search_videos_of_last_page
    (query : string) (max_videos : Z) (order : string)
    (st : YouTubeAPIClient.state)
    (fields : list (string * json)) (items : list json) :
  0 < max_videos ->
  QuotaManager.can_make_request (ledger st) "search" = true ->
  next_answer st (SearchList query (Z.min max_videos 50) JNull order)
  = RemoteOk (JObj fields) ->
  dict_get fields "items" (JArr []) = JArr items ->
  Forall (fun item => is_Some (VideoDataExtractor.extract_video_data item)) items ->
  py_truthy (dict_get fields "nextPageToken" JNull) = false ->
  exists st1,
    VideoDataExtractor.search_videos query max_videos order st
    = Some (Return (py_slice_to max_videos (kept_records items)), st1)
    /\ ledger st1 = QuotaManager.record_request (ledger st) "search"
    /\ n_calls (YouTubeAPIClient.world st1)
       = S (n_calls (YouTubeAPIClient.world st)).
Proof.
  intros Hmax Hc Ha Hi Hread Htok.
  unfold VideoDataExtractor.search_videos, VideoDataExtractor.search_videos_from,
    VideoDataExtractor.search_fuel.
  cbn [VideoDataExtractor.search_loop length].
  replace (Z.of_nat 0 <? max_videos) with true
    by (symmetry; apply Z.ltb_lt; lia).
  cbn [negb]. unfold VideoDataExtractor.loop_body. fold (ledger st).
  rewrite Hc. cbn [negb length].
  replace (Z.min VideoDataExtractor.videos_per_page (max_videos - Z.of_nat 0))
    with (Z.min 50 max_videos)
    by (unfold VideoDataExtractor.videos_per_page; lia).
  assert (Ha' : next_answer st
                  (SearchList query (Z.min (Z.min 50 max_videos) 50) JNull order)
                = RemoteOk (JObj fields)).
  { replace (Z.min (Z.min 50 max_videos) 50) with (Z.min max_videos 50) by lia.
    exact Ha. }
  destruct (gateway_search_answered query (Z.min 50 max_videos) JNull order st
              fields items Hc Ha' Hi) as (st1 & -> & Hl & Hn).
  cbn [py_get]. rewrite Hi.
  destruct items as [|item items'].
  - cbn [py_truthy negb]. exists st1. auto.
  - cbn [py_truthy negb py_iter].
    rewrite (collect_items_kept (item :: items') [] Hread). cbn [app].
    rewrite Htok. cbn [negb]. exists st1. auto.
Qed.

(** X6 at work: a page of two results for a target of ten. *)
Lemma search_videos_of_last_page_witness :
  let answers : nat -> request -> remote_outcome :=
    fun _ _ => RemoteOk (JObj [("items", JArr [raw_video "v-1" "UC1";
                                               raw_video "v-2" "UC2"])]) in
  let st := fresh_state 10000 answers in
  exists st1,
    VideoDataExtractor.search_videos "Bach Magnificat" 10 "date" st
    = Some (Return (py_slice_to 10
                      (kept_records [raw_video "v-1" "UC1"; raw_video "v-2" "UC2"])),
            st1)
    /\ ledger st1 = QuotaManager.record_request (ledger st) "search"
    /\ n_calls (YouTubeAPIClient.world st1)
       = S (n_calls (YouTubeAPIClient.world st)).
Proof.
  intros answers st.
  apply (search_videos_of_last_page "Bach Magnificat" 10 "date" st
           [("items", JArr [raw_video "v-1" "UC1"; raw_video "v-2" "UC2"])]
           [raw_video "v-1" "UC1"; raw_video "v-2" "UC2"]).
  - lia.
  - vm_compute. reflexivity.
  - vm_compute. reflexivity.
  - vm_compute. reflexivity.
  - repeat constructor; vm_compute; eauto.
  - vm_compute. reflexivity.
Defined.

(** * Further properties of the channel pass *)

Section ChannelIds.

Import VideoDataExtractor.
Import ChannelDataExtractor.

(** The set after the loop over the videos: the ids the videos name are
    added, but for the empty one; the loop raises when a [channelId] is not
    a string. *)
Lemma add_channel_ids_spec (videos : list video_record) (ids : gset string) :
  match add_channel_ids videos ids with
  | Some ids1 =>
      Forall (fun v => exists s, channelId v = JStr s) videos
      /\ forall id, id ∈ ids1
                    <-> id ∈ ids
                        \/ (id <> "" /\ exists v, v ∈ videos /\ names_channel v id)
  | None => Exists (fun v => forall s, channelId v <> JStr s) videos
  end.
Proof.
  revert ids. induction videos as [|v videos IH]; intros ids;
    cbn [add_channel_ids].
  - split; [constructor|]. intros id. split; [auto|].
    intros [H|(_ & v & Hv & _)]; [exact H|]. inversion Hv.
  - destruct (channelId v) as [| | |s| |] eqn:Hc;
      try (apply Exists_cons_hd; intros s'; congruence).
    set (ids' := if negb (String.eqb (strip s) "") then {[strip s]} ∪ ids else ids).
    specialize (IH ids').
    destruct (add_channel_ids videos ids') as [ids1|];
      [|apply Exists_cons_tl; exact IH].
    destruct IH as [Hall Hmem]. split; [constructor; eauto|].
    intros id. rewrite Hmem. unfold ids'. split.
    + intros [Hin|(Hne & w & Hw & Hn)].
      * destruct (String.eqb (strip s) "") eqn:He; cbn [negb] in Hin; [auto|].
        apply elem_of_union in Hin as [Hin|Hin]; [|auto].
        apply elem_of_singleton in Hin. subst id. right. split.
        -- apply String.eqb_neq. exact He.
        -- exists v. split; [left|exists s; auto].
      * right. split; [exact Hne|]. exists w. split; [right; exact Hw|exact Hn].
    + intros [Hin|(Hne & w & Hw & Hn)].
      * left. destruct (negb _); [apply elem_of_union; auto|exact Hin].
      * apply elem_of_cons in Hw as [->|Hw].
        -- left. destruct Hn as (s' & Hs' & Hstrip).
           rewrite Hc in Hs'. injection Hs' as <-. subst id.
           apply String.eqb_neq in Hne. rewrite Hne. cbn [negb].
           apply elem_of_union. left. apply elem_of_singleton. reflexivity.
        -- right. split; [exact Hne|]. exists w. auto.
Qed.

Lemma add_channel_ids_app (videos1 videos2 : list video_record)
    (ids : gset string) :
  add_channel_ids (videos1 ++ videos2) ids
  = match add_channel_ids videos1 ids with
    | Some ids1 => add_channel_ids videos2 ids1
    | None => None
    end.
Proof.
  revert ids. induction videos1 as [|v videos1 IH]; intros ids; [reflexivity|].
  cbn [app add_channel_ids]. destruct (channelId v); try reflexivity. apply IH.
Qed.

Lemma add_all_channel_ids_concat (entries : list (string * list video_record))
    (ids : gset string) :
  add_all_channel_ids entries ids
  = add_channel_ids (concat (map snd entries)) ids.
Proof.
  revert ids. induction entries as [|[query videos] entries IH]; intros ids;
    [reflexivity|].
  cbn [add_all_channel_ids map snd concat]. rewrite add_channel_ids_app.
  destruct (add_channel_ids videos ids); [apply IH|reflexivity].
Qed.

Lemma add_blank_channel_ids (videos : list video_record) (ids : gset string) :
  Forall (fun v => names_channel v "") videos ->
  add_channel_ids videos ids = Some ids.
Proof.
  induction 1 as [|v videos (s & Hs & Hstrip) _ IH]; [reflexivity|].
  cbn [add_channel_ids]. rewrite Hs, Hstrip. exact IH.
Qed.

Lemma sorted_list_sorted (ids : gset string) :
  Sorted (fun a b => String.leb a b) (sorted_list ids).
Proof.
  unfold sorted_list. apply Sorted_merge_sort.
  intros a b. destruct (String.leb_total a b) as [H|H]; rewrite H; [left|right];
    exact I.
Qed.

End ChannelIds.

(** X7. The ids of the channels of a list of videos. When every
    [channelId] is a string the function returns the ids the videos name,
    white space stripped and the empty id left out: each of them once, in
    ascending order of their code points. When some [channelId] is not a
    string, it raises [AttributeError]. *)
Theorem extract_unique_channel_ids_sorted_set
    (videos : list VideoDataExtractor.video_record) :
  match ChannelDataExtractor.extract_unique_channel_ids videos with
  | Return ids =>
      Forall (fun v => exists s, VideoDataExtractor.channelId v = JStr s) videos
      /\ NoDup ids
      /\ Sorted (fun a b => String.leb a b) ids
      /\ forall id, id ∈ ids
                    <-> id <> "" /\ exists v, v ∈ videos /\ names_channel v id
  | Raise e =>
      e = AttributeError
      /\ Exists (fun v => forall s, VideoDataExtractor.channelId v <> JStr s)
           videos
  end.
Proof.
  unfold ChannelDataExtractor.extract_unique_channel_ids.
  pose proof (add_channel_ids_spec videos ∅) as H.
  destruct (ChannelDataExtractor.add_channel_ids videos ∅) as [ids|]; [|auto].
  destruct H as [Hall Hmem].
  destruct (sorted_list_ids ids) as [Hnd Hin].
  split; [exact Hall|]. split; [exact Hnd|].
  split; [apply sorted_list_sorted|].
  intros id. rewrite Hin, Hmem. split.
  - intros [Hid|H]; [apply not_elem_of_empty in Hid; contradiction|exact H].
  - intros H. right. exact H.
Qed.

(** X8. The pass over several queries is the pass over their videos taken
    together: [get_channels_for_multiple_queries] on a mapping returns
    what [get_channels_for_videos] returns on the videos of all its
    entries, one after the other, and leaves the same state. *)
Theorem multiple_queries_as_one_list (py_str : json -> string)
    (query_video_data : list (string * list VideoDataExtractor.video_record))
    (st : YouTubeAPIClient.state) :
  ChannelDataExtractor.get_channels_for_multiple_queries py_str
    query_video_data st
  = ChannelDataExtractor.get_channels_for_videos py_str
      (concat (map snd query_video_data)) st.
Proof.
  unfold ChannelDataExtractor.get_channels_for_multiple_queries,
    ChannelDataExtractor.get_channels_for_videos,
    ChannelDataExtractor.extract_unique_channel_ids.
  rewrite add_all_channel_ids_concat.
  destruct (ChannelDataExtractor.add_channel_ids _ ∅) as [ids|]; [|reflexivity].
  destruct (ChannelDataExtractor.sorted_list ids) as [|id rest] eqn:Hs;
    reflexivity.
Qed.

(** X9. Videos that name no channel cost nothing: when every [channelId]
    is a string that is empty or white space only, as when there is no
    video at all, both passes return the empty list and the state they
    were given; no request is sent. *)
Theorem no_channel_no_request (py_str : json -> string)
    (query_video_data : list (string * list VideoDataExtractor.video_record))
    (st : YouTubeAPIClient.state) :
  Forall (fun v => names_channel v "") (concat (map snd query_video_data)) ->
  ChannelDataExtractor.get_channels_for_multiple_queries py_str
    query_video_data st = (Return [], st)
  /\ ChannelDataExtractor.get_channels_for_videos py_str
       (concat (map snd query_video_data)) st = (Return [], st).
Proof.
  intros Hblank.
  assert (Hids : ChannelDataExtractor.add_channel_ids
                   (concat (map snd query_video_data)) ∅ = Some ∅)
    by (apply add_blank_channel_ids; exact Hblank).
  unfold ChannelDataExtractor.get_channels_for_multiple_queries,
    ChannelDataExtractor.get_channels_for_videos,
    ChannelDataExtractor.extract_unique_channel_ids.
  rewrite add_all_channel_ids_concat, Hids.
  replace (ChannelDataExtractor.sorted_list ∅) with (@nil string)
    by (vm_compute; reflexivity).
  split; reflexivity.
Qed.

(** X9 at work: two videos whose channel id is blank. *)
Lemma no_channel_no_request_witness :
  let data := [("Bach Magnificat",
                [video_of_channel "v-1" ""; video_of_channel "v-2" "  "])] in
  let st := fresh_state 10000 repeating_channels in
  ChannelDataExtractor.get_channels_for_multiple_queries (fun _ => "") data st
  = (Return [], st)
  /\ ChannelDataExtractor.get_channels_for_videos (fun _ => "")
       (concat (map snd data)) st = (Return [], st).
Proof.
  intros data st.
  apply (no_channel_no_request (fun _ => "") data st).
  repeat constructor; eexists; (split; [reflexivity|vm_compute; reflexivity]).
Defined.

Section ChannelBatches.

Import YouTubeAPIClient.
Import ChannelDataExtractor.

(** What a gateway call adds to the requests of the trace; the remote
    service stays the one it was. *)
Lemma run_call_sent (call : gateway_call) (st : state) :
  requests_of (trace (world (snd (run_call call st))))
  = requests_of (trace (world st))
    ++ (if reaches_remote call st then [request_of call] else [])
  /\ remote (world (snd (run_call call st))) = remote (world st).
Proof.
  assert (Hp : forall operation r,
    let s := snd (perform operation r (_wait_for_rate_limit st)) in
    requests_of (trace (world s)) = requests_of (trace (world st)) ++ [r]
    /\ remote (world s) = remote (world st)).
  { intros operation r. unfold perform, execute, _wait_for_rate_limit.
    cbn [world client].
    destruct (_ <? _); cbn [sleep clock trace remote n_calls];
      match goal with
      | |- context [remote ?w ?n r] => destruct (remote w n r) as [resp|status text|]
      end;
      try destruct ((status =? 403) && contains "quotaExceeded" text);
      cbn [snd set_quota_manager client world trace remote];
      unfold requests_of; rewrite ?omap_app; cbn [omap list_omap];
      rewrite ?app_nil_r; split; reflexivity. }
  assert (Hnil : requests_of (trace (world st))
                 = requests_of (trace (world st)) ++ []
                 /\ remote (world st) = remote (world st))
    by (rewrite app_nil_r; auto).
  destruct call as [query max_results page_token order|ids|ids];
    unfold reaches_remote; cbn [run_call operation_of request_of andb].
  - unfold YouTubeAPIClient.search_videos. fold (ledger st).
    destruct (QuotaManager.can_make_request (ledger st) "search"); cbn [negb];
      [|exact Hnil].
    specialize (Hp "search"
      (SearchList query (Z.min max_results 50) page_token order)).
    destruct (perform _ _ _) as [[resp|e] st2]; cbn [fst snd] in *;
      [destruct (search_log_line resp)|]; exact Hp.
  - unfold YouTubeAPIClient.get_video_details. fold (ledger st).
    destruct ids as [|i ids]; [exact Hnil|]. cbn [andb].
    destruct (QuotaManager.can_make_request (ledger st) "videos"); cbn [negb];
      [apply Hp|exact Hnil].
  - unfold YouTubeAPIClient.get_channel_details. fold (ledger st).
    destruct ids as [|i ids]; [exact Hnil|]. cbn [andb].
    destruct (QuotaManager.can_make_request (ledger st) "channels"); cbn [negb];
      [apply Hp|exact Hnil].
Qed.

(** Cutting a list into pieces of fifty loses nothing. *)
Lemma pieces_concat (m : nat) (l : list string) :
  (length l <= m * 50)%nat ->
  concat (map (fun k => take 50 (drop (k * 50) l)) (seq 0 m)) = l.
Proof.
  revert l. induction m as [|m IH]; intros l Hl.
  - destruct l; [reflexivity|cbn in Hl; lia].
  - cbn [seq map concat]. rewrite <- seq_shift, map_map.
    rewrite (map_ext _ (fun k => take 50 (drop (k * 50) (drop 50 l)))).
    + rewrite IH by (rewrite length_drop; lia).
      cbn [Nat.mul]. rewrite drop_0. apply take_drop.
    + intros k. rewrite drop_drop. reflexivity.
Qed.

Lemma py_slice_fifty (i : nat) (l : list string) :
  py_slice i (i + 50) l = take 50 (drop i l).
Proof. unfold py_slice. replace (i + 50 - i)%nat with 50%nat by lia. reflexivity. Qed.

Lemma channel_batches_pieces (ids : list string) :
  channel_batches ids
  = map (fun k => take 50 (drop (k * 50) ids)) (seq 0 ((length ids + 49) / 50)).
Proof.
  unfold channel_batches, batch_starts. rewrite map_map.
  replace (length ids + 50 - 1)%nat with (length ids + 49)%nat by lia.
  apply map_ext. intros k. apply py_slice_fifty.
Qed.

Lemma batch_count_bounds (n : nat) :
  (n <= (n + 49) / 50 * 50)%nat
  /\ forall k, (k < (n + 49) / 50)%nat -> (k * 50 < n)%nat.
Proof.
  pose proof (Nat.div_mod_eq (n + 49) 50) as Hd.
  pose proof (Nat.mod_upper_bound (n + 49) 50) as Hm.
  split; [lia|]. intros k Hk. nia.
Qed.

End ChannelBatches.

(** X10. The batches of the channel pass. The ids are cut, in their order,
    into batches that together are the list of ids again; each batch holds
    between 1 and 50 ids, and there are as many as the count of ids
    divided by 50, rounded up. *)
Theorem channel_batches_partition (ids : list string) :
  concat (channel_batches ids) = ids
  /\ Forall (fun batch => (1 <= length batch <= 50)%nat) (channel_batches ids)
  /\ length (channel_batches ids) = ((length ids + 49) / 50)%nat
  /\ channel_batches ids
     = map (fun i => py_slice i (i + 50) ids)
         (ChannelDataExtractor.batch_starts (length ids) 50).
Proof.
  destruct (batch_count_bounds (length ids)) as [Hall Hk].
  rewrite channel_batches_pieces.
  split; [apply pieces_concat; exact Hall|].
  split.
  { apply Forall_forall. intros batch Hin.
    apply list_elem_of_In, in_map_iff in Hin as (k & <- & Hin).
    apply in_seq in Hin. specialize (Hk k ltac:(lia)).
    rewrite length_take, length_drop. lia. }
  split; [rewrite length_map, length_seq; reflexivity|].
  symmetry. apply channel_batches_pieces.
Qed.

Section ChannelRequests.

Import YouTubeAPIClient.
Import ChannelDataExtractor.

Variable py_str : json -> string.

Lemma requests_of_sleep (st : state) (ms : Z) :
  requests_of (trace (sleep ms (world st))) = requests_of (trace (world st)).
Proof.
  unfold requests_of. cbn [sleep trace]. rewrite omap_app. cbn.
  apply app_nil_r.
Qed.

(** The gateway on a batch that is not empty and that the ledger affords:
    the batch is requested as it is, and the ledger is as before or
    charged one unit. *)
Lemma gateway_channels_batch (i : nat) (ids : list string) (st : state) :
  (i < length ids)%nat ->
  QuotaManager.can_make_request (ledger st) "channels" = true ->
  let out := YouTubeAPIClient.get_channel_details (py_slice i (i + 50) ids) st in
  requests_of (trace (world (snd out)))
  = requests_of (trace (world st)) ++ [ChannelsList (py_slice i (i + 50) ids)]
  /\ remote (world (snd out)) = remote (world st)
  /\ n_calls (world (snd out)) = S (n_calls (world st))
  /\ QuotaManager.daily_limit (ledger (snd out))
     = QuotaManager.daily_limit (ledger st)
  /\ QuotaManager.used_quota (ledger st)
     <= QuotaManager.used_quota (ledger (snd out))
     <= QuotaManager.used_quota (ledger st) + 1.
Proof.
  intros Hi Hc. cbv zeta.
  set (batch := py_slice i (i + 50) ids).
  assert (Hb : batch <> [] /\ take 50 batch = batch).
  { unfold batch. rewrite py_slice_fifty. split.
    - intros H. apply (f_equal length) in H.
      rewrite length_take, length_drop in H. cbn [length] in H. lia.
    - rewrite take_take. f_equal. }
  destruct Hb as [Hne Htake].
  pose proof (run_call_sent (FetchChannelDetails batch) st) as [Hs Hr].
  pose proof (run_call_requests (FetchChannelDetails batch) st) as Hn.
  pose proof (run_call_ledger (FetchChannelDetails batch) st) as Hl.
  unfold reaches_remote in Hs, Hn.
  cbn [run_call operation_of request_of andb] in Hs, Hr, Hn, Hl.
  fold (ledger st) in Hs, Hn. rewrite Hc, Htake in Hs. rewrite Hc in Hn.
  destruct batch as [|b batch']; [congruence|]. cbn [andb] in Hs, Hn.
  repeat (split; [assumption|]).
  destruct Hl as [-> | [_ ->]];
    cbn [QuotaManager.record_request QuotaManager.daily_limit
         QuotaManager.used_quota]; rewrite ?cost_channels; lia.
Qed.

(** The loop over the batches: it asks for the batches of the first so
    many starts, in their order, one request each, and charges no more
    units than it made requests. *)
Lemma batch_loop_requests (starts : list nat) (ids : list string)
    (channels : list channel_record) (st : state) :
  Forall (fun i => (i < length ids)%nat) starts ->
  let out := batch_loop py_str starts ids channels st in
  exists k,
    (k <= length starts)%nat
    /\ requests_of (trace (world (snd out)))
       = requests_of (trace (world st))
         ++ map (fun i => ChannelsList (py_slice i (i + 50) ids)) (take k starts)
    /\ n_calls (world (snd out)) = (n_calls (world st) + k)%nat
    /\ QuotaManager.daily_limit (ledger (snd out))
       = QuotaManager.daily_limit (ledger st)
    /\ QuotaManager.used_quota (ledger st)
       <= QuotaManager.used_quota (ledger (snd out))
       <= QuotaManager.used_quota (ledger st) + Z.of_nat k.
Proof.
  revert channels st.
  induction starts as [|i starts IH]; intros channels st Hstarts; cbv zeta.
  - exists 0%nat. cbn. rewrite app_nil_r. repeat split; lia.
  - inversion Hstarts as [|? ? Hi Hrest]; subst.
    cbn [batch_loop]. fold (ledger st).
    destruct (QuotaManager.can_make_request (ledger st) "channels") eqn:Hc;
      cbn [negb].
    2: { exists 0%nat. cbn. rewrite app_nil_r. repeat split; lia. }
    pose proof (gateway_channels_batch i ids st Hi Hc) as Hg. cbv zeta in Hg.
    destruct (YouTubeAPIClient.get_channel_details (py_slice i (i + 50) ids) st)
      as [r st1]. cbn [fst snd] in Hg.
    destruct Hg as (Hs & Hr & Hn & Hl & Hu).
    assert (Hstop : forall c : list channel_record,
      exists k, (k <= length (i :: starts))%nat
        /\ requests_of (trace (world (snd (c, st1))))
           = requests_of (trace (world st))
             ++ map (fun i => ChannelsList (py_slice i (i + 50) ids))
                  (take k (i :: starts))
        /\ n_calls (world (snd (c, st1))) = (n_calls (world st) + k)%nat
        /\ QuotaManager.daily_limit (ledger (snd (c, st1)))
           = QuotaManager.daily_limit (ledger st)
        /\ QuotaManager.used_quota (ledger st)
           <= QuotaManager.used_quota (ledger (snd (c, st1)))
           <= QuotaManager.used_quota (ledger st) + Z.of_nat k).
    { intros c. exists 1%nat. cbn [snd take map length].
      repeat split; try lia; assumption. }
    assert (Hgo : forall (c : list channel_record) st2,
      requests_of (trace (world st2)) = requests_of (trace (world st1)) ->
      n_calls (world st2) = n_calls (world st1) ->
      ledger st2 = ledger st1 ->
      exists k, (k <= length (i :: starts))%nat
        /\ requests_of (trace (world (snd (batch_loop py_str starts ids c st2))))
           = requests_of (trace (world st))
             ++ map (fun i => ChannelsList (py_slice i (i + 50) ids))
                  (take k (i :: starts))
        /\ n_calls (world (snd (batch_loop py_str starts ids c st2)))
           = (n_calls (world st) + k)%nat
        /\ QuotaManager.daily_limit (ledger (snd (batch_loop py_str starts ids c st2)))
           = QuotaManager.daily_limit (ledger st)
        /\ QuotaManager.used_quota (ledger st)
           <= QuotaManager.used_quota
                (ledger (snd (batch_loop py_str starts ids c st2)))
           <= QuotaManager.used_quota (ledger st) + Z.of_nat k).
    { intros c st2 Hs2 Hn2 Hl2.
      destruct (IH c st2 Hrest) as (k & Hk & Hs3 & Hn3 & Hl3 & Hu3).
      exists (S k). cbn [take map length].
      rewrite Hs3, Hn3, Hl3, Hs2, Hn2, Hl2, Hs, Hn, Hl, <- app_assoc.
      rewrite Hl2 in Hu3.
      repeat split; try lia. }
    destruct r as [response|x].
    + destruct (py_get response "items" (JArr [])) as [items|]; [|auto].
      destruct (py_iter items) as [its|]; [|auto].
      destruct (append_channels py_str its channels) as [channels1 [|]]; [auto|].
      destruct (i + 50 <? length ids)%nat; [|auto].
      apply Hgo; [apply requests_of_sleep|reflexivity|reflexivity].
    + destruct x; auto.
Qed.

End ChannelRequests.

(** X11. What the channel pass sends. For a list of ids, the pass asks for
    the batches of the list one after the other, one request for each
    batch as it is, from the first batch on; it may stop before the last.
    It sends nothing else, leaves the daily limit alone, and charges no
    more units than it sent requests. *)
Theorem channel_pass_requests_batches_in_order (py_str : json -> string)
    (ids : list string) (st : YouTubeAPIClient.state) :
  let out := ChannelDataExtractor.get_channel_details py_str ids st in
  exists k,
    (k <= length (channel_batches ids))%nat
    /\ requests_of (trace (YouTubeAPIClient.world (snd out)))
       = requests_of (trace (YouTubeAPIClient.world st))
         ++ map ChannelsList (take k (channel_batches ids))
    /\ n_calls (YouTubeAPIClient.world (snd out))
       = (n_calls (YouTubeAPIClient.world st) + k)%nat
    /\ QuotaManager.daily_limit (ledger (snd out))
       = QuotaManager.daily_limit (ledger st)
    /\ QuotaManager.used_quota (ledger st)
       <= QuotaManager.used_quota (ledger (snd out))
       <= QuotaManager.used_quota (ledger st) + Z.of_nat k.
Proof.
  cbv zeta. unfold ChannelDataExtractor.get_channel_details.
  destruct ids as [|id ids'].
  { exists 0%nat. cbn. rewrite app_nil_r. repeat split; lia. }
  set (ids := id :: ids').
  assert (Hstarts : Forall (fun i => (i < length ids)%nat)
                      (ChannelDataExtractor.batch_starts (length ids) 50)).
  { destruct (batch_count_bounds (length ids)) as [_ Hk].
    unfold ChannelDataExtractor.batch_starts.
    replace (length ids + 50 - 1)%nat with (length ids + 49)%nat by lia.
    apply Forall_forall. intros i Hin.
    apply list_elem_of_In, in_map_iff in Hin as (k & <- & Hin).
    apply in_seq in Hin. apply Hk. lia. }
  destruct (batch_loop_requests py_str _ ids [] st Hstarts)
    as (k & Hk & Hs & Hn & Hl & Hu).
  exists k. unfold channel_batches.
  rewrite length_map, firstn_map, map_map.
  repeat split; try assumption; apply Hu.
Qed.

Section ChannelFailures.

Import YouTubeAPIClient.
Import ChannelDataExtractor.

Variable py_str : json -> string.

(** The gateway on a batch whose request fails: the exception it raises
    tells a quota rejection from the rest; the ledger is as before. *)
Lemma gateway_channels_fails (batch : list string) (st : state) :
  batch <> [] ->
  QuotaManager.can_make_request (ledger st) "channels" = true ->
  let out := YouTubeAPIClient.get_channel_details batch st in
  ledger (snd out) = ledger st
  /\ remote (world (snd out)) = remote (world st)
  /\ n_calls (world (snd out)) = S (n_calls (world st))
  /\ (signals_quota (next_answer st (ChannelsList (take 50 batch))) ->
      fst out = Raise QuotaExceededError)
  /\ (fails_otherwise (next_answer st (ChannelsList (take 50 batch))) ->
      exists e, fst out = Raise e /\ e <> QuotaExceededError)
  \/ exists response, next_answer st (ChannelsList (take 50 batch)) = RemoteOk response.
Proof.
  intros Hne Hc. cbv zeta. unfold YouTubeAPIClient.get_channel_details.
  fold (ledger st). rewrite Hc. cbn [negb].
  destruct batch as [|b batch']; [congruence|].
  set (r := ChannelsList (take 50 (b :: batch'))).
  destruct (wait_keeps_remote st) as [Ha Hl].
  assert (Hr : remote (world (_wait_for_rate_limit st)) = remote (world st)
               /\ n_calls (world (_wait_for_rate_limit st)) = n_calls (world st)).
  { unfold _wait_for_rate_limit. cbn [world]. destruct (_ <? _); auto. }
  destruct Hr as [Hr Hn].
  assert (Hans : next_answer (_wait_for_rate_limit st) r = next_answer st r)
    by (rewrite Ha; reflexivity).
  unfold perform, execute. unfold next_answer in Hans. rewrite Hans.
  fold (next_answer st r).
  destruct (next_answer st r) as [response|status text|]; [right; eauto|left|left].
  - cbn [signals_quota fails_otherwise]. unfold ledger in *.
    destruct ((status =? 403) && contains "quotaExceeded" text);
      cbn [fst snd world client remote n_calls];
      rewrite Hl, Hr, Hn; repeat split; try reflexivity; try discriminate;
      intros _; eexists; split; [reflexivity|discriminate].
  - cbn [signals_quota fails_otherwise fst snd world client remote n_calls].
    unfold ledger in *. cbn [client]. rewrite Hl, Hr, Hn.
    repeat split; try reflexivity; try contradiction.
    intros _. eexists. split; [reflexivity|discriminate].
Qed.

(** With a service that fails every request, but never for quota, the
    loop goes through every batch. *)
Lemma batch_loop_all_failing (starts : list nat) (ids : list string)
    (channels : list channel_record) (st : state) :
  Forall (fun i => (i < length ids)%nat) starts ->
  (forall n r, fails_otherwise (remote (world st) n r)) ->
  QuotaManager.can_make_request (ledger st) "channels" = true ->
  let out := batch_loop py_str starts ids channels st in
  fst out = channels
  /\ ledger (snd out) = ledger st
  /\ n_calls (world (snd out)) = (n_calls (world st) + length starts)%nat.
Proof.
  revert st. induction starts as [|i starts IH]; intros st Hstarts Hfail Hc;
    cbv zeta.
  - cbn. repeat split; lia.
  - inversion Hstarts as [|? ? Hi Hrest]; subst.
    cbn [batch_loop]. fold (ledger st). rewrite Hc. cbn [negb].
    assert (Hne : py_slice i (i + 50) ids <> []).
    { rewrite py_slice_fifty. intros H. apply (f_equal length) in H.
      rewrite length_take, length_drop in H. cbn [length] in H. lia. }
    destruct (gateway_channels_fails _ st Hne Hc)
      as [(Hl & Hr & Hn & _ & Hother)|[response Hresp]].
    2: { specialize (Hfail (n_calls (world st))
                       (ChannelsList (take 50 (py_slice i (i + 50) ids)))).
         unfold next_answer in Hresp. rewrite Hresp in Hfail. contradiction. }
    destruct (Hother (Hfail _ _)) as (e & He & Hnq).
    destruct (YouTubeAPIClient.get_channel_details (py_slice i (i + 50) ids) st)
      as [r st1]. cbn [fst snd] in *. subst r.
    assert (Hnext : let out := batch_loop py_str starts ids channels st1 in
                    fst out = channels
                    /\ ledger (snd out) = ledger st1
                    /\ n_calls (world (snd out))
                       = (n_calls (world st1) + length starts)%nat).
    { apply IH; [exact Hrest| |rewrite Hl; exact Hc].
      intros n r. rewrite Hr. apply Hfail. }
    cbv zeta in Hnext. rewrite Hl, Hn in Hnext.
    cbn [length]. replace (n_calls (world st) + S (length starts))%nat
      with (S (n_calls (world st)) + length starts)%nat by lia.
    destruct e; try exact Hnext. congruence.
Qed.

End ChannelFailures.

(** X12. A failure that is no quota rejection costs the channel pass one
    batch only: against a service that fails every request in such a way,
    and with a ledger that affords a channel request, the pass still sends
    a request for every batch; it returns no record and charges nothing. *)
Theorem channel_pass_tries_every_batch (py_str : json -> string)
    (ids : list string) (st : YouTubeAPIClient.state) :
  (forall n r, fails_otherwise (remote (YouTubeAPIClient.world st) n r)) ->
  QuotaManager.can_make_request (ledger st) "channels" = true ->
  let out := ChannelDataExtractor.get_channel_details py_str ids st in
  fst out = []
  /\ ledger (snd out) = ledger st
  /\ n_calls (YouTubeAPIClient.world (snd out))
     = (n_calls (YouTubeAPIClient.world st) + length (channel_batches ids))%nat.
Proof.
  intros Hfail Hc. cbv zeta. unfold ChannelDataExtractor.get_channel_details.
  destruct ids as [|id ids'].
  { cbn. repeat split; lia. }
  set (ids := id :: ids').
  assert (Hstarts : Forall (fun i => (i < length ids)%nat)
                      (ChannelDataExtractor.batch_starts (length ids) 50)).
  { destruct (batch_count_bounds (length ids)) as [_ Hk].
    unfold ChannelDataExtractor.batch_starts.
    replace (length ids + 50 - 1)%nat with (length ids + 49)%nat by lia.
    apply Forall_forall. intros i Hin.
    apply list_elem_of_In, in_map_iff in Hin as (k & <- & Hin).
    apply in_seq in Hin. apply Hk. lia. }
  unfold channel_batches. rewrite length_map.
  apply (batch_loop_all_failing py_str _ ids [] st Hstarts Hfail Hc).
Qed.

(** X12 at work: 120 channels and a service that is down make three
    requests. *)
Lemma channel_pass_tries_every_batch_witness :
  let ids := map (fun n : nat => String (ascii_of_nat (33 + n)) "") (seq 0 120) in
  let st := fresh_state 10000 (fun _ _ => RemoteFailure) in
  let out := ChannelDataExtractor.get_channel_details (fun _ => "") ids st in
  fst out = []
  /\ ledger (snd out) = ledger st
  /\ n_calls (YouTubeAPIClient.world (snd out))
     = (n_calls (YouTubeAPIClient.world st) + length (channel_batches ids))%nat.
Proof.
  intros ids st.
  apply (channel_pass_tries_every_batch (fun _ => "") ids st).
  - intros n r. exact I.
  - vm_compute. reflexivity.
Defined.

(** X13. A quota rejection ends the channel pass: when the service rejects
    the request of the first batch for quota, the pass returns no record
    after this one request, whatever the number of batches, and charges
    nothing. *)
Theorem channel_pass_stops_on_quota_rejection (py_str : json -> string)
    (ids : list string) (st : YouTubeAPIClient.state) :
  ids <> [] ->
  QuotaManager.can_make_request (ledger st) "channels" = true ->
  signals_quota (next_answer st (ChannelsList (take 50 ids))) ->
  let out := ChannelDataExtractor.get_channel_details py_str ids st in
  fst out = []
  /\ ledger (snd out) = ledger st
  /\ n_calls (YouTubeAPIClient.world (snd out))
     = S (n_calls (YouTubeAPIClient.world st)).
Proof.
  intros Hne Hc Hq. cbv zeta. unfold ChannelDataExtractor.get_channel_details.
  destruct ids as [|id ids']; [congruence|].
  set (ids := id :: ids') in *.
  assert (Hstarts : ChannelDataExtractor.batch_starts (length ids) 50
                    = 0%nat :: map (fun k => (S k * 50)%nat)
                                 (seq 0 ((length ids + 49) / 50 - 1))).
  { unfold ChannelDataExtractor.batch_starts.
    replace (length ids + 50 - 1)%nat with (length ids + 49)%nat by lia.
    destruct ((length ids + 49) / 50)%nat as [|m] eqn:Hm.
    - exfalso. destruct (batch_count_bounds (length ids)) as [Hall _].
      rewrite Hm in Hall. unfold ids in Hall. cbn [length] in Hall. lia.
    - cbn [seq map]. rewrite <- seq_shift, map_map.
      replace (S m - 1)%nat with m by lia. reflexivity. }
  rewrite Hstarts. cbn [ChannelDataExtractor.batch_loop]. fold (ledger st).
  rewrite Hc. cbn [negb].
  assert (Hb : take 50 (py_slice 0 (0 + 50) ids) = take 50 ids).
  { rewrite py_slice_fifty, drop_0, take_take. f_equal. }
  assert (Hbne : py_slice 0 (0 + 50) ids <> []).
  { rewrite py_slice_fifty, drop_0. unfold ids. cbn. discriminate. }
  destruct (gateway_channels_fails _ st Hbne Hc)
    as [(Hl & _ & Hn & Hquota & _)|[response Hresp]].
  2: { rewrite Hb in Hresp. rewrite Hresp in Hq. contradiction. }
  rewrite Hb in Hquota. specialize (Hquota Hq).
  destruct (YouTubeAPIClient.get_channel_details (py_slice 0 (0 + 50) ids) st)
    as [r st1]. cbn [fst snd] in *. subst r. auto.
Qed.

(** X13 at work: the service rejects the first of three batches. *)
Lemma channel_pass_stops_on_quota_rejection_witness :
  let ids := map (fun n : nat => String (ascii_of_nat (33 + n)) "") (seq 0 120) in
  let st := fresh_state 10000 rejecting_first in
  let out := ChannelDataExtractor.get_channel_details (fun _ => "") ids st in
  fst out = []
  /\ ledger (snd out) = ledger st
  /\ n_calls (YouTubeAPIClient.world (snd out))
     = S (n_calls (YouTubeAPIClient.world st)).
Proof.
  intros ids st.
  apply (channel_pass_stops_on_quota_rejection (fun _ => "") ids st).
  - vm_compute. discriminate.
  - vm_compute. reflexivity.
  - vm_compute. reflexivity.
Defined.

(** * Further properties of the campaign *)

Section Dicts.

Context {V : Type}.

Lemma dict_set_keys (d : list (string * V)) (key : string) (value : V) (k : string) :
  k ∈ dict_keys (dict_set d key value) <-> k = key \/ k ∈ dict_keys d.
Proof.
  unfold dict_keys. induction d as [|[k0 v0] d IH]; cbn [dict_set map fst].
  - rewrite elem_of_cons. split; [intros [H|H]; auto|intros [H|H]; auto].
  - destruct (String.eqb k0 key) eqn:He; cbn [map fst]; rewrite !elem_of_cons.
    + apply String.eqb_eq in He. subst k0. tauto.
    + rewrite IH. tauto.
Qed.

Lemma dict_set_NoDup (d : list (string * V)) (key : string) (value : V) :
  NoDup (dict_keys d) -> NoDup (dict_keys (dict_set d key value)).
Proof.
  unfold dict_keys. induction d as [|[k0 v0] d IH]; cbn [dict_set map fst];
    intros Hnd.
  - apply NoDup_singleton.
  - apply NoDup_cons in Hnd as [Hnot Hnd].
    destruct (String.eqb k0 key) eqn:He; cbn [map fst].
    + apply NoDup_cons. auto.
    + apply NoDup_cons. split; [|auto].
      intros Hin. apply (dict_set_keys d key value k0) in Hin as [Hin|Hin]; [|auto].
      apply String.eqb_neq in He. congruence.
Qed.

Lemma dict_set_other (d : list (string * V)) (key : string) (value : V)
    (k : string) (v : V) :
  k <> key -> In (k, v) d -> In (k, v) (dict_set d key value).
Proof.
  intros Hne. induction d as [|[k0 v0] d IH]; cbn [dict_set In]; [tauto|].
  intros [[= -> ->]|Hin].
  - apply String.eqb_neq in Hne. rewrite Hne. left. reflexivity.
  - destruct (String.eqb k0 key); [right; exact Hin|right; auto].
Qed.

Lemma dict_set_length (d : list (string * V)) (key : string) (value : V) :
  (length d <= length (dict_set d key value))%nat.
Proof.
  induction d as [|[k0 v0] d IH]; cbn [dict_set length]; [lia|].
  destruct (String.eqb k0 key); cbn [length]; lia.
Qed.

End Dicts.

Section CampaignRecords.

Import YouTubeAPIClient.
Import VideoDataExtractor.

Variable isoformat : Z -> string.

Lemma save_saved (c : Main.campaign) : saved isoformat (Main.save isoformat c).
Proof.
  unfold saved, Main.save, ProgressTracker.save_progress,
    ProgressTracker.save_steps.
  cbn [Main.progress_tracker Main.files Main.all_video_data Main.api
       ProgressTracker.progress ProgressTracker.progress_file].
  split; [reflexivity|]. apply write_file_content.
Qed.

(** The loop over the queries, and what it leaves: the exception handler
    is never entered; the data holds the queries it held and the attempted
    ones; the entries of the other queries are as they were; after an
    attempt the checkpoint is the one of the data. *)
Lemma query_loop_records (videos_per_query : Z) (queries : list string)
    (c : Main.campaign) :
  exists c1 new,
    Main.query_loop isoformat videos_per_query queries c = Some (c1, None)
    /\ Main.attempted c1 = Main.attempted c ++ new
    /\ new `prefix_of` queries
    /\ (forall q, q ∈ dict_keys (Main.all_video_data c1)
                  <-> q ∈ dict_keys (Main.all_video_data c) \/ q ∈ new)
    /\ (forall q vs, In (q, vs) (Main.all_video_data c) -> q ∉ new ->
                     In (q, vs) (Main.all_video_data c1))
    /\ ProgressTracker.progress_file (Main.progress_tracker c1)
       = ProgressTracker.progress_file (Main.progress_tracker c)
    /\ match new with
       | [] => c1 = c
       | _ => saved isoformat c1
       end.
Proof.
  revert c. induction queries as [|query rest IH]; intros c;
    cbn [Main.query_loop].
  - exists c, []. rewrite app_nil_r.
    repeat split; auto; try apply prefix_nil; try tauto.
    intros [H|H]; [exact H|inversion H].
  - destruct (remaining (get_quota_usage (Main.api c)) <? 4000).
    { exists c, []. rewrite app_nil_r.
      repeat split; auto; try apply prefix_nil; try tauto.
      intros [H|H]; [exact H|inversion H]. }
    destruct (search_videos_returns query videos_per_query "date" (Main.api c))
      as (videos & st1 & ->).
    set (c1 := {| Main.attempted := Main.attempted c ++ [query];
                  Main.all_video_data :=
                    dict_set (Main.all_video_data c) query videos;
                  Main.progress_tracker := Main.progress_tracker c;
                  Main.files := Main.files c; Main.api := st1 |}).
    destruct (IH (Main.save isoformat c1))
      as (c2 & new & Hq & Ha & Hp & Hk & He & Hf & Hs).
    exists c2, (query :: new).
    assert (Hsave : Main.attempted (Main.save isoformat c1) = Main.attempted c1
                    /\ Main.all_video_data (Main.save isoformat c1)
                       = Main.all_video_data c1
                    /\ ProgressTracker.progress_file
                         (Main.progress_tracker (Main.save isoformat c1))
                       = ProgressTracker.progress_file (Main.progress_tracker c1))
      by (unfold Main.save; cbn; auto).
    destruct Hsave as (Hsa & Hsd & Hsf).
    rewrite Hsa in Ha. rewrite Hsd in Hk, He. rewrite Hsf in Hf.
    split; [exact Hq|].
    split; [rewrite Ha; unfold c1; cbn [Main.attempted];
            rewrite <- app_assoc; reflexivity|].
    split; [apply prefix_cons; exact Hp|].
    split.
    { intros q. rewrite Hk. unfold c1. cbn [Main.all_video_data].
      rewrite dict_set_keys, elem_of_cons. tauto. }
    split.
    { intros q vs Hin Hnot. apply He.
      - unfold c1. cbn [Main.all_video_data]. apply dict_set_other; [|exact Hin].
        intros ->. apply Hnot. left.
      - intros H. apply Hnot. right. exact H. }
    split; [exact Hf|].
    destruct new as [|q new']; [rewrite Hs; apply save_saved|exact Hs].
Qed.

End CampaignRecords.

(** X14. What a campaign of [main] leaves. The video phase never ends in
    its exception handler. The data of the campaign holds the queries of
    the checkpoint it started from and the queries it attempted, and
    nothing else; the videos of the queries it did not attempt are the
    ones of the checkpoint. After an attempt the tracker holds the data
    with all its queries as completed. The checkpoint file is removed when
    the data has as many queries as were asked for; otherwise it holds the
    text of the tracker's checkpoint, or is as it was when nothing was
    attempted. *)
Theorem main_records_every_attempt
    (py_str : json -> string)
    (json_load : string -> option ProgressTracker.progress_t)
    (isoformat : Z -> string) (phrases : list string) (videos_per_query : Z)
    (files0 : gmap string string) (st0 : YouTubeAPIClient.state) :
  let completed_data :=
    ProgressTracker.get_completed_data
      (ProgressTracker.init json_load Main.PROGRESS_FILE files0) in
  exists c channels,
    Main.main_with py_str json_load isoformat phrases videos_per_query files0 st0
    = Some (c, Main.Finished channels)
    /\ (forall q, q ∈ dict_keys (Main.all_video_data c)
                  <-> q ∈ dict_keys completed_data \/ q ∈ Main.attempted c)
    /\ (forall q vs, In (q, vs) completed_data -> q ∉ Main.attempted c ->
                     In (q, vs) (Main.all_video_data c))
    /\ match Main.attempted c with
       | [] => Main.all_video_data c = completed_data
       | _ =>
           ProgressTracker.completed_queries
             (ProgressTracker.progress (Main.progress_tracker c))
           = dict_keys (Main.all_video_data c)
           /\ ProgressTracker.video_data
                (ProgressTracker.progress (Main.progress_tracker c))
              = Main.all_video_data c
       end
    /\ Main.files c !! Main.PROGRESS_FILE
       = if (length (Main.all_video_data c) =? length phrases)%nat then None
         else match Main.attempted c with
              | [] => files0 !! Main.PROGRESS_FILE
              | _ => Some (json_dumps (Some 2%nat)
                             (ProgressTracker.progress_to_json
                                (ProgressTracker.progress
                                   (Main.progress_tracker c))))
              end.
Proof.
  cbv zeta. unfold Main.main_with.
  set (tracker := ProgressTracker.init json_load Main.PROGRESS_FILE files0).
  set (c0 := {| Main.attempted := [];
                Main.all_video_data := ProgressTracker.get_completed_data tracker;
                Main.progress_tracker := tracker; Main.files := files0;
                Main.api := st0 |}).
  destruct (query_loop_records isoformat videos_per_query
              (ProgressTracker.get_remaining_queries tracker phrases) c0)
    as (c1 & new & -> & Ha & _ & Hk & He & Hf & Hs).
  cbn [Main.attempted Main.all_video_data Main.progress_tracker app] in Ha, Hk, He, Hf.
  destruct (ChannelDataExtractor.get_channels_for_multiple_queries py_str
              (Main.all_video_data c1) (Main.api c1)) as [r st2].
  assert (Hfinal : exists channels,
    (let '(channels, st3) :=
       match r with
       | Return channel_data => (channel_data, st2)
       | Raise _ => ([], st2)
       end in
     Some ({| Main.attempted := Main.attempted c1;
              Main.all_video_data := Main.all_video_data c1;
              Main.progress_tracker := Main.progress_tracker c1;
              Main.files :=
                if (length (Main.all_video_data c1) =? length phrases)%nat
                then delete Main.PROGRESS_FILE (Main.files c1)
                else Main.files c1;
              Main.api := st3 |}, Main.Finished channels))
    = Some ({| Main.attempted := Main.attempted c1;
               Main.all_video_data := Main.all_video_data c1;
               Main.progress_tracker := Main.progress_tracker c1;
               Main.files :=
                 if (length (Main.all_video_data c1) =? length phrases)%nat
                 then delete Main.PROGRESS_FILE (Main.files c1)
                 else Main.files c1;
               Main.api := st2 |}, Main.Finished channels))
    by (destruct r; eauto).
  destruct Hfinal as [channels Hfinal].
  eexists _, channels. split.
  { destruct r; cbn in Hfinal |- *; exact Hfinal || (injection Hfinal as <-; reflexivity). }
  cbn [Main.attempted Main.all_video_data Main.progress_tracker Main.files].
  rewrite Ha.
  split; [exact Hk|]. split; [exact He|].
  assert (Hpath : ProgressTracker.progress_file (Main.progress_tracker c1)
                  = Main.PROGRESS_FILE)
    by (rewrite Hf; reflexivity).
  split.
  - destruct new as [|q new']; [rewrite Hs; reflexivity|].
    destruct Hs as [-> _]. split; reflexivity.
  - destruct (length (Main.all_video_data c1) =? length phrases)%nat.
    + apply lookup_delete_eq.
    + destruct new as [|q new']; [rewrite Hs; reflexivity|].
      destruct Hs as [_ Hfile]. rewrite Hpath in Hfile. exact Hfile.
Qed.

Section TaskLoop.

Import YouTubeAPIClient.
Import VideoDataExtractor.

Variable isoformat : Z -> string.

(** The loop of the extraction task reads nothing of the status: two tasks
    with the same work to do end with the same work done. The flags
    [is_running] and [quota_exceeded] come out as they went in, and the
    one error the loop can add is the one of the quota guard. *)
Lemma task_loop_work (videos_per_query : Z) (queries : list string)
    (t t' : Api.task) :
  same_work t t' ->
  exists t1 t1',
    Api.query_loop isoformat videos_per_query queries t = Some t1
    /\ Api.query_loop isoformat videos_per_query queries t' = Some t1'
    /\ same_work t1 t1'
    /\ Api.quota_exceeded (Api.extraction_status t1)
       = Api.quota_exceeded (Api.extraction_status t)
    /\ Api.is_running (Api.extraction_status t1)
       = Api.is_running (Api.extraction_status t)
    /\ (Api.errors (Api.extraction_status t1)
        = Api.errors (Api.extraction_status t)
        \/ Api.errors (Api.extraction_status t1)
           = Api.errors (Api.extraction_status t)
             ++ [Api.InsufficientQuotaRemaining]).
Proof.
  revert t t'. induction queries as [|query rest IH];
    intros t t' (Ha & Hd & Hf & Hs); cbn [Api.query_loop].
  - exists t, t'. unfold same_work. auto 10.
  - cbn [Api.set_status Api.api]. rewrite <- Hs.
    destruct (remaining (get_quota_usage (Api.api t)) <? 4000).
    { eexists _, _. split; [reflexivity|]. split; [reflexivity|].
      unfold same_work. cbn. auto 10. }
    destruct (search_videos_returns query videos_per_query "date" (Api.api t))
      as (videos & st1 & ->).
    match goal with
    | |- context [Api.query_loop _ _ rest ?u = Some _ /\
                  Api.query_loop _ _ rest ?u' = Some _ /\ _] =>
        destruct (IH u u') as (t1 & t1' & H1 & H1' & Hw & Hq & Hr & He)
    end.
    { unfold same_work, Api.record_query. cbn. rewrite Ha, Hd, Hf. auto. }
    exists t1, t1'. repeat (split; [assumption|]).
    cbn in Hq, Hr, He. auto.
Qed.

(** The loop of the task and the loop of [main] do the same work. *)
Lemma task_loop_as_main (videos_per_query : Z) (queries : list string)
    (c : Main.campaign) (t : Api.task) :
  Main.attempted c = Api.attempted t ->
  Main.all_video_data c = Api.all_video_data t ->
  Main.api c = Api.api t ->
  exists c1 t1,
    Main.query_loop isoformat videos_per_query queries c = Some (c1, None)
    /\ Api.query_loop isoformat videos_per_query queries t = Some t1
    /\ Main.attempted c1 = Api.attempted t1
    /\ Main.all_video_data c1 = Api.all_video_data t1
    /\ Main.api c1 = Api.api t1.
Proof.
  revert c t. induction queries as [|query rest IH]; intros c t Ha Hd Hs;
    cbn [Main.query_loop Api.query_loop].
  - eauto 10.
  - cbn [Api.set_status Api.api]. rewrite <- Hs.
    destruct (remaining (get_quota_usage (Main.api c)) <? 4000).
    { eexists _, _. split; [reflexivity|]. split; [reflexivity|]. cbn. auto. }
    destruct (search_videos_returns query videos_per_query "date" (Main.api c))
      as (videos & st1 & ->).
    apply IH; unfold Main.save, Api.record_query; cbn; congruence.
Qed.

End TaskLoop.

Section TaskRun.

Import YouTubeAPIClient.
Import ChannelDataExtractor.

Variable py_str : json -> string.

(** The channel pass raises [AttributeError] or nothing. *)
Lemma channel_pass_raises (data : list (string * list VideoDataExtractor.video_record))
    (st : state) (e : exn) :
  fst (get_channels_for_multiple_queries py_str data st) = Raise e ->
  e = AttributeError.
Proof.
  unfold get_channels_for_multiple_queries.
  destruct (add_all_channel_ids data ∅) as [ids|]; [|intros [= <-]; reflexivity].
  destruct (get_channel_details py_str (sorted_list ids) st). discriminate.
Qed.

(** The channel phase of the task does not touch the queries or the flags,
    and the one error it can add is an [AttributeError] of the pass. *)
Lemma channel_phase_status (t : Api.task) :
  Api.attempted (Api.channel_phase py_str t) = Api.attempted t
  /\ Api.all_video_data (Api.channel_phase py_str t) = Api.all_video_data t
  /\ Api.quota_exceeded (Api.extraction_status (Api.channel_phase py_str t))
     = Api.quota_exceeded (Api.extraction_status t)
  /\ Api.is_running (Api.extraction_status (Api.channel_phase py_str t))
     = Api.is_running (Api.extraction_status t)
  /\ (Api.errors (Api.extraction_status (Api.channel_phase py_str t))
      = Api.errors (Api.extraction_status t)
      \/ Api.errors (Api.extraction_status (Api.channel_phase py_str t))
         = Api.errors (Api.extraction_status t)
           ++ [Api.ChannelCollectionError AttributeError]).
Proof.
  unfold Api.channel_phase.
  destruct (Api.all_video_data t) as [|entry data] eqn:Hd; [rewrite Hd; auto 10|].
  destruct (Api.quota_exceeded (Api.extraction_status t)) eqn:Hq;
    [rewrite Hd, Hq; auto 10|].
  pose proof (channel_pass_raises (entry :: data) (Api.api t)) as Hr.
  destruct (get_channels_for_multiple_queries py_str (entry :: data) (Api.api t))
    as [[channels|e] st1]; cbn [fst] in Hr.
  - cbn. auto 10.
  - rewrite (Hr e eq_refl). cbn. auto 10.
Qed.

End TaskRun.


(** X16. The task of the web service and the campaign of [main] do the
    same work: started on the same files with the same queries, target
    and daily quota, against the same world, they attempt the same queries
    and end with the same video data. *)
Theorem extraction_task_works_as_main
    (py_str : json -> string)
    (json_load : string -> option ProgressTracker.progress_t)
    (isoformat : Z -> string) (query : string) (queries : list string)
    (videos_per_query daily_quota : Z)
    (s0 : Api.status) (files0 : gmap string string) (w0 : World) :
  let config := {| Api.queries := Some (query :: queries);
                   Api.videos_per_query := videos_per_query;
                   Api.daily_quota := daily_quota |} in
  let st0 := {| YouTubeAPIClient.client := YouTubeAPIClient.init daily_quota;
                YouTubeAPIClient.world := w0 |} in
  exists c e t,
    Main.main_with py_str json_load isoformat (query :: queries)
      videos_per_query files0 st0 = Some (c, e)
    /\ Api.run_extraction_task py_str json_load isoformat config s0 files0 w0
       = Some t
    /\ Api.attempted t = Main.attempted c
    /\ Api.all_video_data t = Main.all_video_data c.
Proof.
  cbv zeta. unfold Main.main_with, Api.run_extraction_task, Api.load_progress.
  cbn [Api.queries Api.videos_per_query Api.daily_quota].
  match goal with
  | |- context [Main.query_loop _ ?v ?qs ?c0] =>
      match goal with
      | |- context [Api.query_loop _ _ ?qs' ?t0] =>
          destruct (task_loop_as_main isoformat v qs c0 t0)
            as (c1 & t1 & -> & Ht & Ha & Hd & Hs); try reflexivity
      end
  end.
  unfold ProgressTracker.get_remaining_queries, ProgressTracker.init in Ht.
  cbn [ProgressTracker.progress] in Ht. unfold Main.PROGRESS_FILE in Ht.
  rewrite Ht.
  destruct (channel_phase_status py_str t1) as (Ha2 & Hd2 & _).
  destruct (ChannelDataExtractor.get_channels_for_multiple_queries py_str
              (Main.all_video_data c1) (Main.api c1)) as [[channels|x] st2];
    eexists _, _, _; (split; [reflexivity|]); (split; [reflexivity|]);
    cbn [Api.set_status Api.attempted Api.all_video_data Main.attempted
         Main.all_video_data]; split; congruence.
Qed.

(** X17. A stop request does not stop the task. [stop_extraction] is
    refused when nothing runs and otherwise clears [is_running]; the loop
    over the queries goes on as if nothing had been asked: from any point
    of the task it attempts the same queries, collects the same data,
    writes the same files and makes the same remote calls with the stopped
    status as with the running one. *)
Theorem stop_request_changes_no_work
    (isoformat : Z -> string) (videos_per_query : Z) (queries : list string)
    (t : Api.task) (stopped : Api.status) :
  Api.stop_extraction (Api.extraction_status t) = Some stopped ->
  Api.is_running (Api.extraction_status t) = true
  /\ Api.is_running stopped = false
  /\ exists t1 t2,
       Api.query_loop isoformat videos_per_query queries t = Some t1
       /\ Api.query_loop isoformat videos_per_query queries
            (Api.set_status (fun _ => stopped) t) = Some t2
       /\ same_work t1 t2.
Proof.
  unfold Api.stop_extraction.
  destruct (Api.is_running (Api.extraction_status t)) eqn:Hr; cbn [negb];
    [|discriminate].
  intros [= <-]. split; [reflexivity|]. split; [reflexivity|].
  destruct (task_loop_work isoformat videos_per_query queries t
              (Api.set_status
                 (fun _ => {| Api.is_running := false;
                              Api.completed_queries :=
                                Api.completed_queries (Api.extraction_status t);
                              Api.videos_collected :=
                                Api.videos_collected (Api.extraction_status t);
                              Api.channels_collected :=
                                Api.channels_collected (Api.extraction_status t);
                              Api.quota_used :=
                                Api.quota_used (Api.extraction_status t);
                              Api.quota_exceeded :=
                                Api.quota_exceeded (Api.extraction_status t);
                              Api.errors := Api.errors (Api.extraction_status t) |})
                 t))
    as (t1 & t2 & H1 & H2 & Hw & _).
  { unfold same_work. cbn. auto. }
  eauto.
Qed.

(** X17 at work: a running task with two queries to go is asked to stop. *)
Lemma stop_request_changes_no_work_witness :
  let running : Api.status :=
    {| Api.is_running := true; Api.completed_queries := [];
       Api.videos_collected := 0; Api.channels_collected := 0;
       Api.quota_used := 0; Api.quota_exceeded := false; Api.errors := [] |} in
  let t : Api.task :=
    {| Api.attempted := []; Api.all_video_data := [];
       Api.extraction_status := running; Api.files := ∅;
       Api.api := fresh_state 10000 rejecting_first |} in
  Api.is_running (Api.extraction_status t) = true
  /\ Api.is_running idle_status = false
  /\ exists t1 t2,
       Api.query_loop noon 10 ["Bach Magnificat"; "Mozart Requiem"] t = Some t1
       /\ Api.query_loop noon 10 ["Bach Magnificat"; "Mozart Requiem"]
            (Api.set_status (fun _ => idle_status) t) = Some t2
       /\ same_work t1 t2.
Proof.
  intros running t.
  apply (stop_request_changes_no_work noon 10
           ["Bach Magnificat"; "Mozart Requiem"] t idle_status).
  reflexivity.
Defined.

Section LowQuota.

Import YouTubeAPIClient.

Variable isoformat : Z -> string.

Lemma main_loop_below_guard (videos_per_query : Z) (queries : list string)
    (c : Main.campaign) :
  remaining (get_quota_usage (Main.api c)) < 4000 ->
  Main.query_loop isoformat videos_per_query queries c = Some (c, None).
Proof.
  intros Hr. destruct queries as [|query rest]; [reflexivity|].
  cbn [Main.query_loop].
  replace (remaining (get_quota_usage (Main.api c)) <? 4000) with true
    by (symmetry; apply Z.ltb_lt; exact Hr).
  reflexivity.
Qed.

Lemma task_loop_below_guard (videos_per_query : Z) (queries : list string)
    (t : Api.task) :
  remaining (get_quota_usage (Api.api t)) < 4000 ->
  exists t1,
    Api.query_loop isoformat videos_per_query queries t = Some t1
    /\ Api.attempted t1 = Api.attempted t
    /\ Api.all_video_data t1 = Api.all_video_data t
    /\ Api.api t1 = Api.api t
    /\ Api.errors (Api.extraction_status t1)
       = Api.errors (Api.extraction_status t)
         ++ match queries with
            | [] => []
            | _ => [Api.InsufficientQuotaRemaining]
            end.
Proof.
  intros Hr. destruct queries as [|query rest].
  - exists t. rewrite app_nil_r. auto.
  - cbn [Api.query_loop Api.set_status Api.api].
    replace (remaining (get_quota_usage (Api.api t)) <? 4000) with true
      by (symmetry; apply Z.ltb_lt; exact Hr).
    eexists. split; [reflexivity|]. cbn. auto.
Qed.

End LowQuota.

(** X18. The guard of 4000 units. With a daily quota below 4000 neither
    the campaign of [main] nor the extraction task attempts a single
    query, however small the target: the data stays the one of the
    checkpoint, and the task reports the error of the guard when a query
    was left to do. *)
Theorem no_query_below_4000_units
    (py_str : json -> string)
    (json_load : string -> option ProgressTracker.progress_t)
    (isoformat : Z -> string) (query : string) (queries : list string)
    (videos_per_query daily_quota : Z)
    (s0 : Api.status) (files0 : gmap string string) (w0 : World) :
  daily_quota < 4000 ->
  let config := {| Api.queries := Some (query :: queries);
                   Api.videos_per_query := videos_per_query;
                   Api.daily_quota := daily_quota |} in
  let st0 := {| YouTubeAPIClient.client := YouTubeAPIClient.init daily_quota;
                YouTubeAPIClient.world := w0 |} in
  let tracker := ProgressTracker.init json_load Main.PROGRESS_FILE files0 in
  exists c e t,
    Main.main_with py_str json_load isoformat (query :: queries)
      videos_per_query files0 st0 = Some (c, e)
    /\ Api.run_extraction_task py_str json_load isoformat config s0 files0 w0
       = Some t
    /\ Main.attempted c = [] /\ Api.attempted t = []
    /\ Main.all_video_data c = ProgressTracker.get_completed_data tracker
    /\ Api.all_video_data t = ProgressTracker.get_completed_data tracker
    /\ match ProgressTracker.get_remaining_queries tracker (query :: queries) with
       | [] => True
       | _ => head (Api.errors (Api.extraction_status t))
              = Some Api.InsufficientQuotaRemaining
       end.
Proof.
  intros Hq. cbv zeta.
  unfold Main.main_with, Api.run_extraction_task, Api.load_progress.
  cbn [Api.queries Api.videos_per_query Api.daily_quota].
  rewrite main_loop_below_guard
    by (cbn; unfold QuotaManager.get_remaining_quota; cbn; lia).
  match goal with
  | |- context [Api.query_loop _ ?v ?qs ?t0] =>
      destruct (task_loop_below_guard isoformat v qs t0)
        as (t1 & Ht & Ha & Hd & Hs & He);
        [cbn; unfold QuotaManager.get_remaining_quota; cbn; lia|]
  end.
  rewrite Ht.
  destruct (channel_phase_status py_str t1) as (Ha2 & Hd2 & _ & _ & He2).
  cbn [Api.attempted Api.all_video_data Api.extraction_status Api.errors app]
    in Ha, Hd, He.
  destruct (ChannelDataExtractor.get_channels_for_multiple_queries py_str _ _)
    as [[channels|x] st2];
    eexists _, _, _; (split; [reflexivity|]); (split; [reflexivity|]);
    cbn [Api.set_status Api.attempted Api.all_video_data Main.attempted
         Main.all_video_data Api.extraction_status Api.errors];
    (split; [reflexivity|]); (split; [congruence|]);
    (split; [reflexivity|]); (split; [rewrite Hd2, Hd; reflexivity|]);
    unfold ProgressTracker.get_remaining_queries, ProgressTracker.init,
      Main.PROGRESS_FILE; cbn [ProgressTracker.progress];
    match goal with
    | |- match ?l with [] => True | _ => _ end =>
        destruct l; [exact I|]
    end;
    destruct He2 as [-> | ->]; rewrite He; reflexivity.
Qed.

(** X18 at work: a daily quota of 150 units. *)
Lemma no_query_below_4000_units_witness :
  let config := {| Api.queries := Some ["Bach Magnificat"; "Mozart Requiem"];
                   Api.videos_per_query := 50; Api.daily_quota := 150 |} in
  let w0 := YouTubeAPIClient.world (fresh_state 150 rejecting_first) in
  let st0 := {| YouTubeAPIClient.client := YouTubeAPIClient.init 150;
                YouTubeAPIClient.world := w0 |} in
  let tracker := ProgressTracker.init (fun _ => None) Main.PROGRESS_FILE ∅ in
  exists c e t,
    Main.main_with (fun _ => "") (fun _ => None) noon
      ["Bach Magnificat"; "Mozart Requiem"] 50 ∅ st0 = Some (c, e)
    /\ Api.run_extraction_task (fun _ => "") (fun _ => None) noon config
         idle_status ∅ w0 = Some t
    /\ Main.attempted c = [] /\ Api.attempted t = []
    /\ Main.all_video_data c = ProgressTracker.get_completed_data tracker
    /\ Api.all_video_data t = ProgressTracker.get_completed_data tracker
    /\ match ProgressTracker.get_remaining_queries tracker
               ["Bach Magnificat"; "Mozart Requiem"] with
       | [] => True
       | _ => head (Api.errors (Api.extraction_status t))
              = Some Api.InsufficientQuotaRemaining
       end.
Proof.
  intros config w0 st0 tracker.
  apply (no_query_below_4000_units (fun _ => "") (fun _ => None) noon
           "Bach Magnificat" ["Mozart Requiem"] 50 150 idle_status ∅ w0).
  lia.
Defined.

(** X19. A checkpoint that is missing or cannot be read is no checkpoint:
    the tracker starts from the empty progress, every requested query is
    left to do, in the order of the request, and no data counts as
    completed. *)
Theorem unreadable_checkpoint_starts_afresh
    (json_load : string -> option ProgressTracker.progress_t)
    (path : string) (files : gmap string string) (phrases : list string) :
  files !! path = None
  \/ (exists text, files !! path = Some text /\ json_load text = None) ->
  let tracker := ProgressTracker.init json_load path files in
  ProgressTracker.progress tracker = ProgressTracker.empty_progress
  /\ ProgressTracker.get_remaining_queries tracker phrases = phrases
  /\ ProgressTracker.get_completed_data tracker = [].
Proof.
  intros Hfile. cbv zeta.
  assert (Hp : ProgressTracker.progress (ProgressTracker.init json_load path files)
               = ProgressTracker.empty_progress).
  { unfold ProgressTracker.init, ProgressTracker._load_progress.
    cbn [ProgressTracker.progress].
    destruct Hfile as [-> | (text & -> & ->)]; reflexivity. }
  split; [exact Hp|]. split.
  - rewrite get_remaining_queries_filter, Hp.
    cbn [ProgressTracker.completed_queries ProgressTracker.empty_progress existsb negb].
    induction phrases as [|q qs IH]; [reflexivity|].
    cbn [List.filter]. rewrite IH. reflexivity.
  - unfold ProgressTracker.get_completed_data. rewrite Hp. reflexivity.
Qed.

(** X19 at work: a checkpoint file cut short by a crash. *)
Lemma unreadable_checkpoint_starts_afresh_witness :
  let files : gmap string string := {[ Main.PROGRESS_FILE := "{" ]} in
  let tracker := ProgressTracker.init (fun _ => None) Main.PROGRESS_FILE files in
  ProgressTracker.progress tracker = ProgressTracker.empty_progress
  /\ ProgressTracker.get_remaining_queries tracker Main.SEARCH_PHRASES
     = Main.SEARCH_PHRASES
  /\ ProgressTracker.get_completed_data tracker = [].
Proof.
  intros files tracker.
  apply (unreadable_checkpoint_starts_afresh (fun _ => None) Main.PROGRESS_FILE
           files Main.SEARCH_PHRASES).
  right. exists "{". split; [vm_compute|]; reflexivity.
Defined.

Section QueryBatch.

Import YouTubeAPIClient.

Lemma multiple_queries_loop_prefix (videos_per_query : Z) (queries : list string) :
  forall (results : list (string * list VideoDataExtractor.video_record))
         (st : state),
    NoDup (dict_keys results) ->
    exists results1 st1 k,
      VideoDataExtractor.multiple_queries_loop videos_per_query queries results st
      = Some (Return results1, st1)
      /\ (k <= length queries)%nat
      /\ (forall q, q ∈ dict_keys results1
                    <-> q ∈ dict_keys results \/ q ∈ take k queries)
      /\ NoDup (dict_keys results1)
      /\ ((k < length queries)%nat ->
          remaining (get_quota_usage st1) < (videos_per_query / 50 + 1) * 100)
      /\ (remaining (get_quota_usage st) < (videos_per_query / 50 + 1) * 100 ->
          k = 0%nat)
      /\ (k = 0%nat -> results1 = results /\ st1 = st).
Proof.
  induction queries as [|query rest IH]; intros results st Hnd.
  - exists results, st, 0%nat. cbn [VideoDataExtractor.multiple_queries_loop length take].
    repeat split; auto; try lia.
    + intros [H|H]; [exact H|]. apply elem_of_nil in H. contradiction.
  - cbn [VideoDataExtractor.multiple_queries_loop].
    destruct (remaining (get_quota_usage st) <? (videos_per_query / 50 + 1) * 100)
      eqn:Hguard.
    + apply Z.ltb_lt in Hguard. exists results, st, 0%nat. cbn [length take].
      repeat split; auto; try lia.
      intros [H|H]; [exact H|]. apply elem_of_nil in H. contradiction.
    + apply Z.ltb_ge in Hguard.
      destruct (search_videos_returns query videos_per_query "date" st)
        as (videos & st1 & ->).
      match goal with
      | |- context [VideoDataExtractor.multiple_queries_loop _ rest ?r ?s] =>
          destruct (IH r s (dict_set_NoDup results query videos Hnd))
            as (results1 & st2 & k & -> & Hk & Hkeys & Hnd1 & Hstop & _ & _)
      end.
      exists results1, st2, (S k). cbn [length take].
      split; [reflexivity|]. split; [lia|]. split.
      { intros q. rewrite Hkeys, dict_set_keys, elem_of_cons. tauto. }
      split; [exact Hnd1|]. split; [intros Hlt; apply Hstop; lia|].
      split; [intros Hlow; lia|intros [=]].
Qed.

End QueryBatch.

(** X20. [search_multiple_queries] never raises. It returns a dictionary
    whose keys are the queries of a prefix of the request, each of them
    once; it stops before a query only when the remaining quota is below
    the estimate [(videos_per_query // 50 + 1) * 100], and when that holds
    at the start it returns the empty dictionary and touches nothing. *)
Theorem multiple_queries_cover_a_prefix
    (queries : list string) (videos_per_query : Z)
    (st : YouTubeAPIClient.state) :
  let estimated_cost := (videos_per_query / 50 + 1) * 100 in
  exists results st1 k,
    VideoDataExtractor.search_multiple_queries queries videos_per_query st
    = Some (Return results, st1)
    /\ (k <= length queries)%nat
    /\ (forall q, q ∈ dict_keys results <-> q ∈ take k queries)
    /\ NoDup (dict_keys results)
    /\ ((k < length queries)%nat ->
        YouTubeAPIClient.remaining (YouTubeAPIClient.get_quota_usage st1)
        < estimated_cost)
    /\ (YouTubeAPIClient.remaining (YouTubeAPIClient.get_quota_usage st)
        < estimated_cost ->
        results = [] /\ st1 = st).
Proof.
  cbv zeta. unfold VideoDataExtractor.search_multiple_queries.
  destruct (multiple_queries_loop_prefix videos_per_query queries [] st)
    as (results & st1 & k & Hrun & Hk & Hkeys & Hnd & Hstop & Hlow & Hzero).
  { apply NoDup_nil_2. }
  exists results, st1, k. split; [exact Hrun|]. split; [exact Hk|]. split.
  { intros q. rewrite Hkeys. cbn [dict_keys map]. rewrite elem_of_nil. tauto. }
  split; [exact Hnd|]. split; [exact Hstop|].
  intros Hlt. apply Hzero, Hlow, Hlt.
Qed.


(** X21. What [get_quota_usage] reports after any sequence of charges on
    a ledger created with a limit: the used quota and the remaining quota
    always add up to the limit, an operation is allowed exactly when its
    cost is within the remaining quota, and [reset_quota] gives back the
    ledger as it was created. *)
Theorem quota_usage_reports_ledger (limit : Z) (ops : list string)
    (st : YouTubeAPIClient.state) :
  let q := charged (QuotaManager.init limit) ops in
  let usage :=
    YouTubeAPIClient.get_quota_usage (YouTubeAPIClient.set_quota_manager q st) in
  YouTubeAPIClient.limit usage = limit
  /\ YouTubeAPIClient.used usage = total_cost ops
  /\ YouTubeAPIClient.requests usage = Z.of_nat (length ops)
  /\ YouTubeAPIClient.used usage + YouTubeAPIClient.remaining usage = limit
  /\ (forall op, QuotaManager.can_make_request q op = true
                 <-> QuotaManager.cost op <= YouTubeAPIClient.remaining usage)
  /\ QuotaManager.reset_quota q = QuotaManager.init limit.
Proof.
  intros q usage.
  destruct (charged_fields ops (QuotaManager.init limit)) as (Hl & Hu & Hr).
  fold q in Hl, Hu, Hr.
  cbn [QuotaManager.init QuotaManager.daily_limit QuotaManager.used_quota
       QuotaManager.request_count] in Hl, Hu, Hr.
  unfold usage, YouTubeAPIClient.get_quota_usage,
    YouTubeAPIClient.set_quota_manager, QuotaManager.get_remaining_quota.
  cbn [YouTubeAPIClient.client YouTubeAPIClient.quota_manager
       YouTubeAPIClient.limit YouTubeAPIClient.used YouTubeAPIClient.remaining
       YouTubeAPIClient.requests].
  split; [exact Hl|]. split; [lia|]. split; [lia|]. split; [lia|]. split.
  - intros op. rewrite can_make_request_iff. lia.
  - unfold QuotaManager.reset_quota, QuotaManager.init. rewrite Hl. reflexivity.
Qed.
